(** * Energy extraction and indexed-array assembly

    A shallow embedding of the two post-processing scripts of the workflow,
    [scripts/4_extract_energies.py] (log parser, result aggregator, tabular
    exporter) and [scripts/5_create_npy.py] (indexed array assembler), with
    the properties their specification states about them.

    Conventions of the embedding.
    - Documents and names are ASCII text ([string]); the byte size of a
      document is its length.
    - A Python float is a [pyfloat]: a finite reading is kept as the exact
      rational its decimal text denotes (binary64 rounding is a function of
      that rational, so equations between readings carry over), next to the
      two infinities and NaN.
    - [re.findall], [re.search], [float], [int], [str.split] and the numpy
      and pandas calls are modelled by the functions of the first sections;
      the script functions keep their names, one module per script.
    - A Python exception is a value of [exn]; a call that can raise returns
      [outcome].
    - What the scripts leave to the machine and to the libraries is a
      parameter: the class [platform] (whether an array can be allocated, how
      an unstable sort orders equal keys) and the fields of the environment
      of [5_create_npy.py] (what a read finds, whether a write succeeds).
    - [main] of [5_create_npy.py] is modelled from the parsed command line
      on; [parse_args] itself, which ends the process with status 2 on a
      malformed command line, is not represented.
    - What the scripts print is not represented. *)

From Stdlib Require Import ZArith QArith Ascii String List Bool Lia Sorted.
From stdpp Require Import base option list strings pretty gmap.

Local Open Scope string_scope.
Local Open Scope Z_scope.
Local Open Scope list_scope.

(** ** Python values *)

Inductive pyfloat : Type :=
| Finite (q : Q)
| PInf
| NInf
| NaN.

Definition is_nan (x : pyfloat) : bool :=
  match x with NaN => true | _ => false end.

(** [a == b] on floats: NaN differs from everything, itself included. *)
Definition float_eqb (a b : pyfloat) : bool :=
  match a, b with
  | Finite p, Finite q => Qeq_bool p q
  | PInf, PInf => true
  | NInf, NInf => true
  | _, _ => false
  end.

(** Exceptions: the class name and the message. *)
Record exn : Type := Exn { exn_class : string; exn_msg : string }.

Inductive outcome (A : Type) : Type :=
| Returned (a : A)
| Raised (e : exn).
Arguments Returned {A} a.
Arguments Raised {A} e.

Definition bind {A B} (m : outcome A) (k : A -> outcome B) : outcome B :=
  match m with
  | Returned a => k a
  | Raised e => Raised e
  end.

Notation "'call' x <- m 'in' k" := (bind m (fun x => k))
  (at level 10, x name, m at level 100, k at level 200, only parsing).

(** ** Text primitives *)

Abbreviation text := (list ascii) (only parsing).

Definition code (c : ascii) : nat := nat_of_ascii c.

(** [str.isspace] on ASCII, which is also what [\s] matches: TAB, LF, VT, FF,
    CR, the four separators FS GS RS US, and the space. *)
Definition is_space (c : ascii) : bool :=
  let n := code c in
  ((9 <=? n) && (n <=? 13) || (28 <=? n) && (n <=? 32))%nat.

(** [\d] on ASCII. *)
Definition is_digit (c : ascii) : bool :=
  let n := code c in ((48 <=? n) && (n <=? 57))%nat.

Definition is_char (a c : ascii) : bool := Ascii.eqb a c.

Fixpoint take_while (p : ascii -> bool) (s : text) : text :=
  match s with
  | c :: s' => if p c then c :: take_while p s' else []
  | [] => []
  end.

Fixpoint drop_while (p : ascii -> bool) (s : text) : text :=
  match s with
  | c :: s' => if p c then drop_while p s' else s
  | [] => []
  end.

(** The literal [lit] at the head of [s]: what is left after it. *)
Fixpoint strip_prefix (lit s : text) : option text :=
  match lit, s with
  | [], _ => Some s
  | a :: lit', c :: s' => if Ascii.eqb a c then strip_prefix lit' s' else None
  | _ :: _, [] => None
  end.

(** [lit in s]. *)
Fixpoint contains (lit s : text) : bool :=
  match strip_prefix lit s with
  | Some _ => true
  | None => match s with
            | _ :: s' => contains lit s'
            | [] => false
            end
  end.

(** [s.split(sep)] for a one-character separator. *)
Fixpoint split_on (sep : ascii) (s : text) : list text :=
  match s with
  | [] => [[]]
  | c :: s' =>
      if Ascii.eqb sep c then [] :: split_on sep s'
      else match split_on sep s' with
           | w :: ws => (c :: w) :: ws
           | [] => [[c]]
           end
  end.

(** [s.strip()]. *)
Definition strip (s : text) : text :=
  rev (drop_while is_space (rev (drop_while is_space s))).

Definition digit_value (c : ascii) : Z := Z.of_nat (code c) - 48.

Definition digits_value (ds : text) : Z :=
  fold_left (fun acc c => 10 * acc + digit_value c) ds 0.

Definition split_sign (s : text) : Z * text :=
  match s with
  | c :: r =>
      if is_char "-" c then (-1, r)
      else if is_char "+" c then (1, r)
      else (1, s)
  | [] => (1, [])
  end.

(** [int(s)] on text without underscores: surrounding whitespace is
    stripped, then an optional sign and at least one digit; anything else
    raises [ValueError] ([None] here). *)
Definition int_of_text (s : text) : option Z :=
  let '(sgn, body) := split_sign (strip s) in
  match body with
  | [] => None
  | _ :: _ => if forallb is_digit body then Some (sgn * digits_value body) else None
  end.

(** [float(s)] on text over the alphabet of the number patterns below (sign,
    digits, the point): an optional sign, then digits with an optional point,
    at least one digit in all. Anything else raises [ValueError]. *)
Definition float_of_text (s : text) : option pyfloat :=
  let '(sgn, body) := split_sign s in
  let ip := take_while is_digit body in
  let r1 := drop_while is_digit body in
  let '(fp, r2) :=
    match r1 with
    | c :: r => if is_char "." c
                then (take_while is_digit r, drop_while is_digit r)
                else ([], r1)
    | [] => ([], [])
    end in
  match r2, ip ++ fp with
  | [], _ :: _ =>
      let scale := 10 ^ Z.of_nat (length fp) in
      Some (Finite (Qred (Qmake (sgn * (digits_value ip * scale + digits_value fp))
                                (Z.to_pos scale))))
  | _, _ => None
  end.

Definition value_error (s : text) : exn :=
  Exn "ValueError"
      ("could not convert string to float: '" +:+ string_of_list_ascii s +:+ "'").

Definition float (s : text) : outcome pyfloat :=
  match float_of_text s with
  | Some x => Returned x
  | None => Raised (value_error s)
  end.

(** ** Regular expressions of the scripts

    Every pattern of the two scripts is a literal label followed by greedy
    runs over pairwise disjoint character classes, so the backtracking
    matcher of [re] never succeeds on a second attempt: one left-to-right
    pass with maximal runs decides the match. A matcher takes the text at
    the attempted position and gives the captured group and the text left
    after the whole match. *)

Definition matcher := text -> option (text * text).

(** [re.findall]: matches are attempted left to right and do not overlap;
    after a match the scan resumes where it ended. [skip] counts the
    characters of the last match still to be passed over. *)
Fixpoint findall_from (m : matcher) (s : text) (skip : nat) : list text :=
  match s with
  | [] => []
  | _ :: s' =>
      match skip with
      | S k => findall_from m s' k
      | O =>
          match m s with
          | Some (g, rest) => g :: findall_from m s' (length s' - length rest)
          | None => findall_from m s' 0
          end
      end
  end.

Definition findall (m : matcher) (s : text) : list text := findall_from m s 0.

(** [re.search(...).group(1)], or [None]. *)
Definition search (m : matcher) (s : text) : option text := head (findall m s).

(** [label\s*=\s*] *)
Definition label_eq (label : string) (s : text) : option text :=
  r1 ← strip_prefix (list_ascii_of_string label) s;
  r2 ← strip_prefix ["="%char] (drop_while is_space r1);
  Some (drop_while is_space r2).

(** the class [[-\d\.]] *)
Definition is_loose_num (c : ascii) : bool :=
  is_char "-" c || is_digit c || is_char "." c.

(** the class [[\d\.]] *)
Definition is_unsigned_num (c : ascii) : bool :=
  is_digit c || is_char "." c.

(** [([cls]+)] at the end of a pattern. *)
Definition class_run (cls : ascii -> bool) (s : text) : option (text * text) :=
  match take_while cls s with
  | [] => None
  | g => Some (g, drop_while cls s)
  end.

(** [([-+]?\d+\.\d+)] *)
Definition signed_decimal (s : text) : option (text * text) :=
  let '(sg, body) :=
    match s with
    | c :: r => if is_char "-" c || is_char "+" c then ([c], r) else ([], s)
    | [] => ([], [])
    end in
  match take_while is_digit body, drop_while is_digit body with
  | (_ :: _) as ip, c :: r =>
      if is_char "." c then
        match take_while is_digit r with
        | (_ :: _) as fp => Some (sg ++ ip ++ c :: fp, drop_while is_digit r)
        | [] => None
        end
      else None
  | _, _ => None
  end.

(** The patterns, in the order they appear in the scripts. *)

(** [energy  without entropy\s*=\s*([-\d\.]+)] *)
Definition re_without_entropy : matcher := fun s =>
  r ← label_eq "energy  without entropy" s; class_run is_loose_num r.

(** [energy\(sigma->0\)\s*=\s*([-\d\.]+)] *)
Definition re_sigma_loose : matcher := fun s =>
  r ← label_eq "energy(sigma->0)" s; class_run is_loose_num r.

(** [Total CPU time used \(sec\):\s*([\d\.]+)] *)
Definition re_cpu_time : matcher := fun s =>
  r ← strip_prefix (list_ascii_of_string "Total CPU time used (sec):") s;
  class_run is_unsigned_num (drop_while is_space r).

(** [DAV:] *)
Definition re_dav : matcher := fun s =>
  r ← strip_prefix (list_ascii_of_string "DAV:") s; Some ([], r).

(** [POSITION\s+TOTAL-FORCE] *)
Definition re_position : matcher := fun s =>
  r ← strip_prefix (list_ascii_of_string "POSITION") s;
  match take_while is_space r with
  | [] => None
  | _ :: _ =>
      r' ← strip_prefix (list_ascii_of_string "TOTAL-FORCE") (drop_while is_space r);
      Some ([], r')
  end.

(** [energy\(sigma->0\)\s*=\s*([-+]?\d+\.\d+)] *)
Definition re_sigma_strict : matcher := fun s =>
  r ← label_eq "energy(sigma->0)" s; signed_decimal r.

(** [free  energy   TOTEN\s*=\s*([-+]?\d+\.\d+)\s*eV] *)
Definition re_toten : matcher := fun s =>
  r ← label_eq "free  energy   TOTEN" s;
  '(g, r1) ← signed_decimal r;
  r2 ← strip_prefix (list_ascii_of_string "eV") (drop_while is_space r1);
  Some (g, r2).

Definition marker_converged : text := list_ascii_of_string "reached required accuracy".

(** ** The file system seen by the scripts *)

(** A run directory entry of the calculations directory: its name, whether
    it is a directory, and its [OUTCAR] document when there is one. *)
Record dir_entry : Type := DirEntry
  { d_name : string; d_is_dir : bool; d_outcar : option string }.

Definition startswith (p s : string) : bool :=
  bool_decide (is_Some (strip_prefix (list_ascii_of_string p) (list_ascii_of_string s))).

(** The test both scripts apply to the entries of the calculations
    directory: a directory whose name starts with [calc_]. *)
Definition is_calc_dir (d : dir_entry) : bool :=
  d_is_dir d && startswith "calc_" (d_name d).

(** [int(calc_name.split('_')[1])], [None] when it raises. The names reaching
    it start with [calc_], so the second piece exists. *)
Definition calc_index_of (calc_name : string) : option Z :=
  piece ← split_on "_" (list_ascii_of_string calc_name) !! 1%nat;
  int_of_text piece.

(** ** Sorting

    [sorted], [list.sort] and [sort_values] as a stable insertion sort on a
    boolean order: among elements that compare equal the earlier stays
    first. *)

Fixpoint insert_sorted {A} (leb : A -> A -> bool) (x : A) (l : list A) : list A :=
  match l with
  | [] => [x]
  | y :: l' => if leb x y then x :: l else y :: insert_sorted leb x l'
  end.

Definition stable_sort {A} (leb : A -> A -> bool) (l : list A) : list A :=
  foldr (insert_sorted leb) [] l.

(** Entries of one directory are ordered by name, code point by code point. *)
Definition name_leb (a b : dir_entry) : bool := String.leb (d_name a) (d_name b).

(** ** [4_extract_energies.py]: log parser, aggregator, exporter *)

Module ExtractEnergies.

(** The [result] dictionary of the parser. *)
Record energy_info : Type := EnergyInfo
  { energy_without_entropy : option pyfloat;
    energy_sigma_0 : option pyfloat;
    converged : bool;
    electronic_steps : nat;
    ionic_steps : nat;
    total_cpu_time : option pyfloat;
    error : option string }.

Definition initial_result : energy_info :=
  EnergyInfo None None false 0 0 None None.

Definition set_error (msg : string) (r : energy_info) : energy_info :=
  EnergyInfo (energy_without_entropy r) (energy_sigma_0 r) (converged r)
             (electronic_steps r) (ionic_steps r) (total_cpu_time r) (Some msg).

Definition set_converged (b : bool) (r : energy_info) : energy_info :=
  EnergyInfo (energy_without_entropy r) (energy_sigma_0 r) b
             (electronic_steps r) (ionic_steps r) (total_cpu_time r) (error r).

Definition set_total_cpu_time (x : pyfloat) (r : energy_info) : energy_info :=
  EnergyInfo (energy_without_entropy r) (energy_sigma_0 r) (converged r)
             (electronic_steps r) (ionic_steps r) (Some x) (error r).

Definition set_energy_without_entropy (x : pyfloat) (r : energy_info) : energy_info :=
  EnergyInfo (Some x) (energy_sigma_0 r) (converged r)
             (electronic_steps r) (ionic_steps r) (total_cpu_time r) (error r).

Definition set_energy_sigma_0 (x : pyfloat) (r : energy_info) : energy_info :=
  EnergyInfo (energy_without_entropy r) (Some x) (converged r)
             (electronic_steps r) (ionic_steps r) (total_cpu_time r) (error r).

Definition set_steps (e i : nat) (r : energy_info) : energy_info :=
  EnergyInfo (energy_without_entropy r) (energy_sigma_0 r) (converged r)
             e i (total_cpu_time r) (error r).

(** [if matches: result[key] = float(matches[-1])]: the update to apply, or
    the exception of the conversion. *)
Definition store_last (matches : list text)
    (store : pyfloat -> energy_info -> energy_info) (r : energy_info)
  : outcome energy_info :=
  match last matches with
  | Some g => call x <- float g in Returned (store x r)
  | None => Returned r
  end.

(** The statements of the [try] block after the document is read; an
    exception leaves the fields assigned so far and is recorded in
    [error]. *)
Definition parse_content (content : text) (r0 : energy_info) : energy_info :=
  let r1 := if contains marker_converged content then set_converged true r0 else r0 in
  let cpu :=
    if contains (list_ascii_of_string "Total CPU time used") content
    then match search re_cpu_time content with
         | Some g => call x <- float g in Returned (set_total_cpu_time x r1)
         | None => Returned r1
         end
    else Returned r1 in
  match cpu with
  | Raised e => set_error (exn_msg e) r1
  | Returned r2 =>
      match store_last (findall re_without_entropy content)
                       set_energy_without_entropy r2 with
      | Raised e => set_error (exn_msg e) r2
      | Returned r3 =>
          match store_last (findall re_sigma_loose content)
                           set_energy_sigma_0 r3 with
          | Raised e => set_error (exn_msg e) r3
          | Returned r4 =>
              set_steps (length (findall re_dav content))
                        (length (findall re_position content)) r4
          end
      end
  end.

Definition extract_energy_from_outcar (outcar : option string) : energy_info :=
  match outcar with
  | None => set_error "OUTCAR not found" initial_result
  | Some doc => parse_content (list_ascii_of_string doc) initial_result
  end.

(** One dictionary of [results], a row of the table. *)
Record row : Type := Row
  { Calculation : string;
    Index : option Z;
    Energy_without_entropy_eV : option pyfloat;
    Energy_sigma_0_eV : option pyfloat;
    Converged : bool;
    Electronic_steps : nat;
    Ionic_steps : nat;
    CPU_time_sec : option pyfloat;
    Status : string;
    Error : option string }.

Definition row_keys : list string :=
  ["Calculation"; "Index"; "Energy_without_entropy_eV"; "Energy_sigma_0_eV";
   "Converged"; "Electronic_steps"; "Ionic_steps"; "CPU_time_sec"; "Status"; "Error"].

(** [pd.DataFrame(results)]: the columns are the keys of the dictionaries,
    so a table built from no dictionary has no column. *)
Record DataFrame : Type := Frame { df_columns : list string; df_rows : list row }.

Definition DataFrame_of (results : list row) : DataFrame :=
  Frame (match results with [] => [] | _ :: _ => row_keys end) results.

Definition key_error (col : string) : exn := Exn "KeyError" ("'" +:+ col +:+ "'").

(** [df[df['Status'] == value]] *)
Definition select_status (value : string) (df : DataFrame) : outcome DataFrame :=
  if bool_decide ("Status" ∈ df_columns df)
  then Returned (Frame (df_columns df)
                       (List.filter (fun r => String.eqb (Status r) value) (df_rows df)))
  else Raised (key_error "Status").

(** The body of the loop over the run directories. *)
Definition process (calc_dir : dir_entry) : row :=
  let calc_name := d_name calc_dir in
  let energy_info := extract_energy_from_outcar (d_outcar calc_dir) in
  let calc_index := calc_index_of calc_name in
  Row calc_name calc_index
      (energy_without_entropy energy_info) (energy_sigma_0 energy_info)
      (converged energy_info) (electronic_steps energy_info)
      (ionic_steps energy_info) (total_cpu_time energy_info)
      (match energy_without_entropy energy_info with
       | Some _ => "Success" | None => "Failed" end)
      (error energy_info).

Definition find_calc_dirs (base_dir : list dir_entry) : list dir_entry :=
  stable_sort name_leb (List.filter is_calc_dir base_dir).

(** The statistics of the summary are arithmetic on these series and
    counts, which is all that is kept of them. *)
Record summary : Type := Summary
  { s_total : nat; s_successful : nat; s_failed : nat;
    s_energies : list pyfloat; s_cpu_times : list pyfloat }.

Inductive artifact : Type :=
| Workbook (filename : string) (all_energies : DataFrame)
           (summary_sheet : option summary) (failed_sheet : option DataFrame)
| CsvTable (filename : string) (table : DataFrame)
| CsvSummary (filename : string) (s : summary).

(** What the writers do in one invocation: [None] when the call succeeds,
    the exception it raises otherwise. *)
Record writers : Type := Writers
  { timestamp : string;
    excel_writer : option exn;
    main_to_csv : option exn;
    summary_to_csv : option exn }.

Definition summary_of (df successful_calcs failed_calcs : DataFrame) : summary :=
  Summary (length (df_rows df)) (length (df_rows successful_calcs))
          (length (df_rows failed_calcs))
          (omap Energy_without_entropy_eV (df_rows successful_calcs))
          (omap CPU_time_sec (df_rows successful_calcs)).

(** [except ImportError] catches the class and its subclass. *)
Definition is_import_error (e : exn) : bool :=
  String.eqb (exn_class e) "ImportError"
  || String.eqb (exn_class e) "ModuleNotFoundError".

(** The files written, and how the call ends. *)
Definition export (w : writers) (df successful_calcs failed_calcs : DataFrame)
  : list artifact * outcome unit :=
  let excel_filename := "energies_" +:+ timestamp w +:+ ".xlsx" in
  let csv_filename := "energies_" +:+ timestamp w +:+ ".csv" in
  let some_success := negb (Nat.eqb (length (df_rows successful_calcs)) 0) in
  let s := summary_of df successful_calcs failed_calcs in
  match excel_writer w with
  | None =>
      ([Workbook excel_filename df
          (if some_success then Some s else None)
          (if Nat.eqb (length (df_rows failed_calcs)) 0 then None else Some failed_calcs)],
       Returned tt)
  | Some e =>
      if is_import_error e then
        match main_to_csv w with
        | Some e' => ([], Raised e')
        | None =>
            if some_success then
              match summary_to_csv w with
              | Some e' => ([CsvTable csv_filename df], Raised e')
              | None =>
                  ([CsvTable csv_filename df;
                    CsvSummary ("summary_" +:+ timestamp w +:+ ".csv") s],
                   Returned tt)
              end
            else ([CsvTable csv_filename df], Returned tt)
        end
      else ([], Raised e)
  end.

Definition zero_division : exn := Exn "ZeroDivisionError" "division by zero".

Definition main (base_dir : list dir_entry) (w : writers)
  : list artifact * outcome DataFrame :=
  let calc_dirs := find_calc_dirs base_dir in
  let results := List.map process calc_dirs in
  let df := DataFrame_of results in
  match select_status "Success" df with
  | Raised e => ([], Raised e)
  | Returned successful_calcs =>
      match select_status "Failed" df with
      | Raised e => ([], Raised e)
      | Returned failed_calcs =>
          if Nat.eqb (length (df_rows df)) 0 then ([], Raised zero_division)
          else
            let '(files, r) := export w df successful_calcs failed_calcs in
            (files, call _u <- r in Returned df)
      end
  end.

End ExtractEnergies.

(** ** The platform

    Two things the scripts do not decide. Whether numpy can allocate an
    array of a given length depends on the machine: [allocation_error n] is
    the exception raised ([MemoryError], or [ValueError] beyond the largest
    dimension), [None] when the array is allocated. And the default sort of
    pandas is quicksort, which is not stable: [ties l a b] tells whether, in
    sorting [l], it leaves [a] before [b] when their keys are equal. *)
Class platform : Type := Platform
  { allocation_error : Z -> option exn;
    ties : forall A : Type, list A -> A -> A -> bool }.

(** ** numpy arrays *)

Abbreviation array := (list pyfloat) (only parsing).

(** [np.full(n, fill_value)] *)
Definition np_full `{platform} (n : Z) (fill_value : pyfloat) : outcome array :=
  if n <? 0 then Raised (Exn "ValueError" "negative dimensions are not allowed")
  else match allocation_error n with
       | Some e => Raised e
       | None => Returned (replicate (Z.to_nat n) fill_value)
       end.

Definition index_error (idx : Z) (size : nat) : exn :=
  Exn "IndexError"
      ("index " +:+ pretty idx +:+ " is out of bounds for axis 0 with size "
       +:+ pretty size).

(** [a[idx] = x]: a negative index counts from the end. *)
Definition setitem (a : array) (idx : Z) (x : pyfloat) : outcome array :=
  let n := Z.of_nat (length a) in
  if (0 <=? idx) && (idx <? n) then Returned (<[Z.to_nat idx := x]> a)
  else if (- n <=? idx) && (idx <? 0) then Returned (<[Z.to_nat (idx + n) := x]> a)
  else Raised (index_error idx (length a)).

(** Element comparison of [np.array_equal(a, b, equal_nan=True)]. *)
Definition float_eqb_nan (x y : pyfloat) : bool :=
  float_eqb x y || is_nan x && is_nan y.

Fixpoint all_equal_nan (a b : array) : bool :=
  match a, b with
  | [], [] => true
  | x :: a', y :: b' => float_eqb_nan x y && all_equal_nan a' b'
  | _, _ => false
  end.

(** [np.array_equal(a, b, equal_nan=True)]: same shape, and element-wise
    equal where two NaN count as equal. *)
Definition array_equal (a b : array) : bool :=
  Nat.eqb (length a) (length b) && all_equal_nan a b.

(** [a[~np.isnan(a)]] *)
Definition not_nan_part (a : array) : array :=
  List.filter (fun x => negb (is_nan x)) a.

(** ** Paths *)

Definition endswith (suffix s : string) : bool :=
  bool_decide (is_Some (strip_prefix (rev (list_ascii_of_string suffix))
                                     (rev (list_ascii_of_string s)))).

(** [os.path.join(d, name)] *)
Definition path_join (d name : string) : string :=
  if startswith "/" name then name
  else if String.eqb d "" || endswith "/" d then d +:+ name
  else d +:+ "/" +:+ name.

(** [os.path.basename(p)] *)
Definition basename (p : string) : string :=
  string_of_list_ascii (default [] (last (split_on "/" (list_ascii_of_string p)))).

(** [s.replace(old, new)] for a non-empty [old]: the occurrences are
    replaced left to right, without overlap. *)
Fixpoint replace_from (old new s : text) (skip : nat) : text :=
  match s with
  | [] => []
  | c :: s' =>
      match skip with
      | S k => replace_from old new s' k
      | O =>
          match strip_prefix old s with
          | Some _ => new ++ replace_from old new s' (length old - 1)
          | None => c :: replace_from old new s' 0
          end
      end
  end.

Definition replace (old new s : string) : string :=
  string_of_list_ascii
    (replace_from (list_ascii_of_string old) (list_ascii_of_string new)
                  (list_ascii_of_string s) 0).

(** [fnmatch] for patterns whose only wildcard is the star. *)
Fixpoint fnmatch (pat name : text) {struct pat} : bool :=
  match pat with
  | [] => match name with [] => true | _ :: _ => false end
  | p :: pat' =>
      if is_char "*" p then
        (fix star (n : text) : bool :=
           fnmatch pat' n || match n with [] => false | _ :: n' => star n' end) name
      else match name with
           | c :: name' => Ascii.eqb p c && fnmatch pat' name'
           | [] => false
           end
  end.

(** A file of the calculations directory, for [glob] and [getmtime]. *)
Record file_stat : Type := FileStat { f_name : string; f_mtime : Z }.

(** [glob.has_magic]: the text holds a wildcard character. *)
Definition has_magic (s : string) : bool :=
  existsb (fun c => is_char "*" c || is_char "?" c || is_char "[" c)
          (list_ascii_of_string s).

(** The directory part [glob] splits off [os.path.join(d, pattern)], for a
    pattern without slash: [d] without its trailing slashes, unless it
    consists of slashes. *)
Definition glob_dirname (d : string) : string :=
  match rev (drop_while (is_char "/") (rev (list_ascii_of_string d))) with
  | [] => d
  | (_ :: _) as h => string_of_list_ascii h
  end.

(** [glob.glob(os.path.join(d, pattern))] for one of the patterns of the
    script, with the modification time of each path found. When the
    directory part holds no wildcard these are the entries [files] of the
    directory whose names match the pattern, in listing order; names with a
    leading dot are passed over. When it holds one, [glob] expands it
    against the file system: [wild] is what it finds then. *)
Definition glob (wild : string -> list (string * Z)) (d pattern : string)
    (files : list file_stat) : list (string * Z) :=
  if has_magic d then wild (path_join d pattern)
  else
    List.map (fun f => (path_join (glob_dirname d) (f_name f), f_mtime f))
      (List.filter (fun f => negb (startswith "." (f_name f))
                             && fnmatch (list_ascii_of_string pattern)
                                        (list_ascii_of_string (f_name f)))
                   files).

(** ** [5_create_npy.py]: indexed array assembler *)

Module CreateNpy.

(** [float(matches[-1])] when there is a match; [None] when there is none. *)
Definition last_float (matches : list text) : option (outcome pyfloat) :=
  float <$> last matches.

(** The final energy of one [OUTCAR], or [None]. The handler of the [try]
    block turns every exception into [None]. *)
Definition extract_energy_from_outcar (outcar : option string) (energy_type : string)
  : option pyfloat :=
  match outcar with
  | None => None
  | Some doc =>
      if (String.length doc <? 1000)%nat then None
      else
        let content := list_ascii_of_string doc in
        if negb (contains marker_converged content) then None
        else
          let sigma :=
            if String.eqb energy_type "sigma0"
            then last_float (findall re_sigma_strict content)
            else None in
          match sigma with
          | Some (Returned x) => Some x
          | Some (Raised _) => None
          | None =>
              match last_float (findall re_toten content) with
              | Some (Returned x) => Some x
              | Some (Raised _) => None
              | None => None
              end
          end
  end.

Definition csv_patterns : list string :=
  ["energies_*.csv"; "*energies*.csv"; "*_energies_*.csv"].

(** The most recent energy table of the directory: the matches of the three
    patterns one after the other, sorted by modification time, latest
    first. *)
Definition find_latest_csv (wild : string -> list (string * Z)) (directory : string)
    (files : list file_stat) : option string :=
  let csv_files :=
    concat (List.map (fun p => glob wild directory p files) csv_patterns) in
  fst <$> head (stable_sort (fun a b => snd b <=? snd a) csv_files).

(** A table read by [pd.read_csv]: its column names and its rows. A row
    gives the identifier cell ([None] when it is missing) and, for a column
    name, the numeric cell of that column, NaN when it is missing. *)
Record csv_row : Type := CsvRow { Index : option Z; cell : string -> pyfloat }.

Record DataFrame : Type := Frame { columns : list string; rows : list csv_row }.

Definition has_column (df : DataFrame) (col : string) : bool :=
  bool_decide (col ∈ columns df).

Definition energy_columns : list string :=
  ["Energy_eV"; "Energy_without_entropy_eV"; "Energy_sigma_0_eV"].

(** The first of the recognised energy columns that the table has. *)
Definition resolve_energy_col (df : DataFrame) : option string :=
  List.find (has_column df) energy_columns.

(** [df.sort_values('Index')]: ascending, missing identifiers last; between
    rows with the same identifier, and between rows without one, the order
    is the platform's. *)
Definition index_leb (tie : csv_row -> csv_row -> bool) (a b : csv_row) : bool :=
  match Index a, Index b with
  | Some x, Some y => (x <? y) || (x =? y) && tie a b
  | Some _, None => true
  | None, Some _ => false
  | None, None => tie a b
  end.

Definition sort_values `{platform} (l : list csv_row) : list csv_row :=
  stable_sort (index_leb (ties csv_row l)) l.

(** [df['Index'].max()], over the identifiers that are not missing. *)
Definition max_of (ids : list Z) : option Z :=
  match ids with
  | [] => None
  | z :: zs => Some (fold_left Z.max zs z)
  end.

(** The loop that fills in the energies of the rows. *)
Fixpoint fill_rows (energy_col : string) (l : list csv_row) (energies : array)
  : outcome array :=
  match l with
  | [] => Returned energies
  | row :: l' =>
      match Index row with
      | Some idx =>
          if negb (is_nan (cell row energy_col))
          then call energies' <- setitem energies idx (cell row energy_col) in
               fill_rows energy_col l' energies'
          else fill_rows energy_col l' energies
      | None => fill_rows energy_col l' energies
      end
  end.

(** [s.fillna(fill_value)] on one cell. *)
Definition fillna (fill_value x : pyfloat) : pyfloat :=
  if is_nan x then fill_value else x.

(** The metadata dictionary: the counts, the series the four statistics are
    taken of, and the provenance. The statistics themselves and the
    creation date are not represented. *)
Record metadata : Type := Metadata
  { total_calculations : nat;
    successful_extractions : nat;
    failed_extractions : Z;
    valid_energies : array;
    source : string }.

Definition csv_failure (csv_file : string) (e : exn) : exn :=
  Exn "Exception" ("Failed to process CSV file " +:+ csv_file +:+ ": " +:+ exn_msg e).

Definition no_energy_column : exn :=
  Exn "ValueError"
      "CSV file must contain energy column (Energy_eV, Energy_without_entropy_eV, or Energy_sigma_0_eV)".

(** [np.isnan] on the column of a table without rows, which [read_csv]
    gives the dtype [object]. *)
Definition isnan_type_error : exn :=
  Exn "TypeError"
      "ufunc 'isnan' not supported for the input types, and the inputs could not be safely coerced to any supported types according to the casting rule ''safe''".

(** The body of the [try] block of [create_energies_array_from_csv], once
    the table is read, up to the array that [np.isnan] accepts. *)
Definition energies_of_frame `{platform} (df : DataFrame) (fill_value : pyfloat)
  : outcome array :=
  match resolve_energy_col df with
  | None => Raised no_energy_column
  | Some energy_col =>
      if has_column df "Index" && negb (Nat.eqb (length (omap Index (rows df))) 0)
      then
        let sorted := sort_values (rows df) in
        match max_of (omap Index sorted) with
        | None => Returned []  (* not reached: some identifier is present *)
        | Some max_index =>
            call energies <- np_full (max_index + 1) fill_value in
            fill_rows energy_col sorted energies
        end
      else
        match rows df with
        | [] => Raised isnan_type_error
        | _ :: _ =>
            Returned (List.map (fun r => fillna fill_value (cell r energy_col)) (rows df))
        end
  end.

Definition create_energies_array_from_csv `{platform}
    (read_csv : string -> outcome DataFrame) (csv_file : string) (fill_value : pyfloat)
  : outcome (array * metadata) :=
  let body :=
    call df <- read_csv csv_file in
    call energies <- energies_of_frame df fill_value in
    let valid := not_nan_part energies in
    Returned (energies,
              Metadata (length energies) (length valid)
                       (Z.of_nat (length energies) - Z.of_nat (length valid))
                       valid (basename csv_file)) in
  match body with
  | Returned r => Returned r
  | Raised e => Raised (csv_failure csv_file e)
  end.

(** The loop that fills in the energies extracted from the run directories;
    the second component counts the successful extractions. *)
Fixpoint fill_data (calc_data : list (Z * option pyfloat)) (energies : array)
    (successful : nat) : outcome (array * nat) :=
  match calc_data with
  | [] => Returned (energies, successful)
  | (index, Some energy) :: l' =>
      call energies' <- setitem energies index energy in
      fill_data l' energies' (S successful)
  | (_, None) :: l' => fill_data l' energies successful
  end.

(** The pairs of identifier and energy of the run directories; a directory
    whose identifier does not parse is passed over. *)
Definition collect_calc_data (calc_dirs : list dir_entry) (energy_type : string)
  : list (Z * option pyfloat) :=
  omap (fun d =>
          index ← calc_index_of (d_name d);
          Some (index, extract_energy_from_outcar (d_outcar d) energy_type))
       calc_dirs.

Definition create_energies_array_direct `{platform}
    (listing : list dir_entry) (energy_type : string) (fill_value : pyfloat)
  : outcome (array * metadata) :=
  let calc_dirs := List.filter is_calc_dir listing in
  match calc_dirs with
  | [] => Raised (Exn "Exception" "No calculation directories found")
  | _ :: _ =>
      let calc_data :=
        stable_sort (fun a b => fst a <=? fst b)
                    (collect_calc_data calc_dirs energy_type) in
      call filled <-
        match max_of calc_data.*1 with
        | Some max_index =>
            call energies <- np_full (max_index + 1) fill_value in
            fill_data calc_data energies 0
        | None => Returned ([], 0%nat)
        end in
      let '(energies, successful) := filled in
      Returned (energies,
                Metadata (length energies) successful
                         (Z.of_nat (length energies) - Z.of_nat successful)
                         (not_nan_part energies) "direct_extraction")
  end.

(** The parsed command line. *)
Record args : Type := Args
  { calculations_dir : string;
    csv_file : option string;
    output_name : string;
    fill_value : pyfloat;
    energy_type : string;
    verbose : bool }.

(** What is stored under a path by the script: an array artifact or the
    metadata sidecar. *)
Inductive stored : Type :=
| Npy (a : array)
| Text (m : metadata).

(** The world the script runs in: the answers of [os.path.isdir] and
    [os.path.exists], the files of the calculations directory, what [glob]
    finds for a path whose directory part holds a wildcard, what
    [pd.read_csv] gives for a path, the entries of the calculations
    directory, the exception with which opening a path for writing fails
    (its directory is missing, the path is a directory, the permission is
    denied; [None] when the path can be written), and the artifacts on
    disk. *)
Record environment : Type := Environment
  { isdir : string -> bool;
    path_exists : string -> bool;
    files : list file_stat;
    glob_wild : string -> list (string * Z);
    read_csv : string -> outcome DataFrame;
    listing : list dir_entry;
    write_error : string -> option exn;
    disk : gmap string stored }.

(** [np.save(path, a)]: the extension is appended when it is missing. *)
Definition npy_path (path : string) : string :=
  if endswith ".npy" path then path else path +:+ ".npy".

Definition np_save (write_error : string -> option exn) (d : gmap string stored)
    (path : string) (a : array) : outcome (gmap string stored) :=
  match write_error (npy_path path) with
  | Some e => Raised e
  | None => Returned (<[npy_path path := Npy a]> d)
  end.

(** [np.load(path)] *)
Definition np_load (d : gmap string stored) (path : string) : outcome array :=
  match d !! path with
  | Some (Npy a) => Returned a
  | Some (Text _) =>
      Raised (Exn "ValueError"
                  "Cannot load file containing pickled data when allow_pickle=False")
  | None =>
      Raised (Exn "FileNotFoundError"
                  ("[Errno 2] No such file or directory: '" +:+ path +:+ "'"))
  end.

(** The verification of the saved file: [None] when the script goes on,
    the exit status when it stops. *)
Definition verify (energies : array) (loaded : outcome array) : option Z :=
  match loaded with
  | Returned loaded_energies =>
      if array_equal energies loaded_energies then None else Some 1
  | Raised _ => Some 1
  end.

(** From [np.save] to the end of [main]: the disk afterwards and the exit
    status. A write that raises is caught by the handler of [main], which
    exits with status 1; what was written before stays. *)
Definition save_and_verify (write_error : string -> option exn) (output_path : string)
    (energies : array) (m : metadata) (d : gmap string stored)
  : gmap string stored * Z :=
  match np_save write_error d output_path energies with
  | Raised _ => (d, 1)
  | Returned d1 =>
      let metadata_file := replace ".npy" "_metadata.txt" output_path in
      match write_error metadata_file with
      | Some _ => (d1, 1)
      | None =>
          let d2 := <[metadata_file := Text m]> d1 in
          match verify energies (np_load d2 output_path) with
          | Some status => (d2, status)
          | None => (d2, 0)
          end
      end
  end.

(** [if s:] on an optional string. *)
Definition truthy (s : option string) : bool :=
  match s with
  | Some f => negb (String.eqb f "")
  | None => false
  end.

(** The choice of the data source and the creation of the array. *)
Definition create_energies `{platform} (a : args) (env : environment)
    (csv : option string)
  : outcome (array * metadata) :=
  if truthy csv && path_exists env (default "" csv)
  then create_energies_array_from_csv (read_csv env) (default "" csv) (fill_value a)
  else create_energies_array_direct (listing env) (energy_type a) (fill_value a).

(** The table to read, as [main] determines it: the one named on the command
    line, else the latest of the calculations directory; [None] when the
    named table does not exist and the script stops. *)
Definition data_source (a : args) (env : environment) : option (option string) :=
  if truthy (csv_file a)
  then if path_exists env (default "" (csv_file a))
       then Some (csv_file a) else None
  else Some (find_latest_csv (glob_wild env) (calculations_dir a) (files env)).

(** [main] once [parse_args] has returned [a]: the disk afterwards and the
    exit status of the process, 0 when [main] returns, 1 for each
    [sys.exit(1)]. *)
Definition main `{platform} (a : args) (env : environment) : gmap string stored * Z :=
  if negb (isdir env (calculations_dir a)) then (disk env, 1)
  else
    match data_source a env with
    | None => (disk env, 1)
    | Some csv =>
        match create_energies a env csv with
        | Raised _ => (disk env, 1)
        | Returned (energies, m) =>
            save_and_verify (write_error env)
                            (path_join (calculations_dir a) (output_name a))
                            energies m (disk env)
        end
    end.

End CreateNpy.

(** * Vocabulary of the statements and scenarios *)

(** The machine of the scenarios: every array can be allocated, and sorting
    leaves rows with the same key in the order of the table. *)
#[global] Instance ample_memory : platform :=
  Platform (fun _ => None) (fun _ _ _ _ => true).

(** The identifier of a pair is a position of an array of length [n]. *)
Definition in_range (n : nat) (e : Z * option pyfloat) : Prop :=
  0 <= e.1 < Z.of_nat n.

(** The pairs of identifier and energy that a table holds; the energy is
    absent when its cell is NaN, and a row without identifier gives no
    pair. *)
Definition entries (col : string) (l : list CreateNpy.csv_row)
  : list (Z * option pyfloat) :=
  omap (fun r =>
          i ← CreateNpy.Index r;
          Some (i, if is_nan (CreateNpy.cell r col) then None
                   else Some (CreateNpy.cell r col)))
       l.

(** What the specification asks of the array assembled from the pairs
    [table], with [fill] as fill value: its length is the largest identifier
    plus one, a pair with an energy is found at the position of its
    identifier, and a position to which no pair with an energy belongs
    holds the fill value. *)
Definition dense_over (fill : pyfloat) (table : list (Z * option pyfloat))
    (energies : array) : Prop :=
  (exists m, m ∈ table.*1 /\ Forall (fun z => z <= m) table.*1
             /\ Z.of_nat (length energies) = m + 1) /\
  (forall i e, (i, Some e) ∈ table -> energies !! Z.to_nat i = Some e) /\
  (forall n : nat, (n < length energies)%nat ->
     (forall e, (Z.of_nat n, Some e) ∉ table) ->
     exists x, energies !! n = Some x /\ x = fill /\ float_eqb_nan x fill = true).

(** The status of a row is decided by its primary energy alone. *)
Definition well_classified (r : ExtractEnergies.row) : Prop :=
  (ExtractEnergies.Status r = "Success"
   <-> is_Some (ExtractEnergies.Energy_without_entropy_eV r))
  /\ (ExtractEnergies.Status r = "Failed"
      <-> ExtractEnergies.Energy_without_entropy_eV r = None).

(** The table [main] builds from the base directory: one row per run
    directory, in the order of the sorted names. *)
Definition table_of (base_dir : list dir_entry) : ExtractEnergies.DataFrame :=
  ExtractEnergies.DataFrame_of
    (List.map ExtractEnergies.process (ExtractEnergies.find_calc_dirs base_dir)).

(** The rows of a table with the given status. *)
Definition with_status (value : string) (df : ExtractEnergies.DataFrame)
  : ExtractEnergies.DataFrame :=
  ExtractEnergies.Frame (ExtractEnergies.df_columns df)
    (List.filter (fun r => String.eqb (ExtractEnergies.Status r) value)
                 (ExtractEnergies.df_rows df)).

(** Two run directories; the suffix of the second is no number, and it has no
    document. *)
Definition unparseable_base : list dir_entry :=
  [DirEntry "calc_0000" true (Some "energy  without entropy = -1.5");
   DirEntry "calc_abc" true None].

(** An invocation in which every writer works. *)
Definition plain_writers : ExtractEnergies.writers :=
  ExtractEnergies.Writers "20251027_120000" None None None.

(** The workbook cannot be created in the working directory. *)
Definition permission_denied : exn :=
  Exn "PermissionError" "[Errno 13] Permission denied: 'energies_20251027_120000.xlsx'".

(** The workbook module is not installed. *)
Definition missing_openpyxl : exn :=
  Exn "ImportError" "Missing optional dependency 'openpyxl'".

(** [len(successful_calcs) > 0] *)
Definition some_success (df : ExtractEnergies.DataFrame) : bool :=
  negb (Nat.eqb (length (ExtractEnergies.df_rows (with_status "Success" df))) 0).

(** A row of a table whose only energy column is [Energy_without_entropy_eV]. *)
Definition energy_row (i : option Z) (e : pyfloat) : CreateNpy.csv_row :=
  CreateNpy.CsvRow i
    (fun col => if String.eqb col "Energy_without_entropy_eV" then e else NaN).

(** Runs 0 and 2 are present, run 1 is missing. *)
Definition scenario_frame : CreateNpy.DataFrame :=
  CreateNpy.Frame
    ["Calculation"; "Index"; "Energy_without_entropy_eV"; "Energy_sigma_0_eV"]
    [energy_row (Some 2) (Finite (-3 # 2)); energy_row (Some 0) (Finite (-1 # 2))].

(** A calculations directory with one energy table and no array yet, in
    which every path can be written. *)
Definition scenario_env : CreateNpy.environment :=
  CreateNpy.Environment
    (fun _ => true)
    (fun p => String.eqb p "calculations/energies_20251027_120000.csv")
    [FileStat "energies_20251027_120000.csv" 100; FileStat "notes.txt" 200]
    (fun _ => [])
    (fun _ => Returned scenario_frame)
    []
    (fun _ => None)
    ∅.

(** [python 5_create_npy.py calculations] *)
Definition scenario_args : CreateNpy.args :=
  CreateNpy.Args "calculations" None "energies.npy" NaN "sigma0" false.

(** The path [main] saves the array under. *)
Definition output_path (a : CreateNpy.args) : string :=
  path_join (CreateNpy.calculations_dir a) (CreateNpy.output_name a).

(** The command line with [--energy-type t]. *)
Definition with_energy_type (t : string) (a : CreateNpy.args) : CreateNpy.args :=
  CreateNpy.Args (CreateNpy.calculations_dir a) (CreateNpy.csv_file a)
                 (CreateNpy.output_name a) (CreateNpy.fill_value a) t
                 (CreateNpy.verbose a).

(** The conversion of an optional matched text does not raise. *)
Definition converts (o : option (list ascii)) : bool :=
  match o with
  | Some g => bool_decide (is_Some (float_of_text g))
  | None => true
  end.

(** The text of the CPU time that the parser converts, when it reaches the
    conversion. *)
Definition cpu_reading (content : list ascii) : option (list ascii) :=
  if contains (list_ascii_of_string "Total CPU time used") content
  then search re_cpu_time content
  else None.

(** The result of the log parser on a document that exists. *)
Definition parsed (doc : string) : ExtractEnergies.energy_info :=
  ExtractEnergies.extract_energy_from_outcar (Some doc).

(** [n] blanks, to bring a document to a given size. *)
Definition pad (n : nat) : string := string_of_list_ascii (repeat " "%char n).

(** A document of 500 bytes that holds an energy line. *)
Definition short_document : string := "energy  without entropy = -1.5" +:+ pad 470.

(** The shape of a text matched by [[-+]?\d+\.\d+]. *)
Definition plain_decimal (g : list ascii) : Prop :=
  exists sg d ip fd fp,
    g = sg ++ (d :: ip) ++ "."%char :: fd :: fp
    /\ (sg = [] \/ sg = ["-"%char] \/ sg = ["+"%char])
    /\ forallb is_digit (d :: ip) = true
    /\ forallb is_digit (fd :: fp) = true.

(** Two occurrences of the without-entropy line, the last one ending a
    sentence. *)
Definition trailing_point_document : string :=
  "energy  without entropy = -10.5
 energy  without entropy = -12.345.".

(** A converged document of more than 1000 bytes with a free-energy line and
    no sigma->0 line. *)
Definition toten_only_document : string :=
  "free  energy   TOTEN  =  -12.4 eV
 reached required accuracy" +:+ pad 1000.

(** The scenario of the specification: two without-entropy lines, at -10.5
    then at -12.345, and the convergence marker. *)
Definition scenario_document : string :=
  "  energy  without entropy=      -10.5  energy(sigma->0) =      -10.4
  energy  without entropy=      -12.345  energy(sigma->0) =      -12.3
 reached required accuracy - stopping structural energy minimisation".

(** The positions of a text: the text and its suffixes. *)
Fixpoint tails (s : list ascii) : list (list ascii) :=
  s :: match s with
       | [] => []
       | _ :: s' => tails s'
       end.

(** At every position of the document the sigma->0 patterns of the two
    parsers match the same text, or both fail. *)
Definition sigma_patterns_agree (content : list ascii) : Prop :=
  Forall (fun t => re_sigma_loose t = re_sigma_strict t) (tails content).

(** A converged document of more than 1000 bytes whose sigma->0 value has
    no decimal point. *)
Definition integer_sigma_document : string :=
  "energy(sigma->0) = -12 reached required accuracy" +:+ pad 1000.

(** A document of more than 1000 bytes without the convergence marker. *)
Definition unconverged_document : string := "energy(sigma->0) = -1.5" +:+ pad 1000.

(** A converged document of more than 1000 bytes, as the simulation writes
    it. *)
Definition converged_document : string := scenario_document +:+ pad 1000.

(** Runs 0 and 2 converged, the document of run 1 is missing, and one entry
    is no run directory. *)
Definition scenario_listing : list dir_entry :=
  [DirEntry "calc_0002" true (Some converged_document);
   DirEntry "calc_0000" true (Some converged_document);
   DirEntry "calc_0001" true None;
   DirEntry "energies.npy" false None].

(** The entry [f] of a directory is one [find_latest_csv] looks for: its
    name does not start with a dot and matches one of the three patterns. *)
Definition energy_table_name (f : file_stat) : Prop :=
  startswith "." (f_name f) = false
  /\ exists pattern,
       pattern ∈ CreateNpy.csv_patterns
       /\ fnmatch (list_ascii_of_string pattern) (list_ascii_of_string (f_name f)) = true.

(** The number of pairs that hold an energy. *)
Definition present_count (data : list (Z * option pyfloat)) : nat :=
  length (List.filter (fun p => bool_decide (is_Some p.2)) data).

(** The pairs of identifier and energy that direct extraction collects from
    a listing. *)
Definition direct_data (listing : list dir_entry) (energy_type : string)
  : list (Z * option pyfloat) :=
  CreateNpy.collect_calc_data (List.filter is_calc_dir listing) energy_type.

(** A table without identifier column: two rows, the second without
    energy. *)
Definition unindexed_frame : CreateNpy.DataFrame :=
  CreateNpy.Frame ["Energy_eV"]
    [CreateNpy.CsvRow None (fun _ => Finite (-3 # 2));
     CreateNpy.CsvRow None (fun _ => NaN)].

(** The listing of the scenario with its first two entries exchanged. *)
Definition swapped_listing : list dir_entry :=
  [DirEntry "calc_0000" true (Some converged_document);
   DirEntry "calc_0002" true (Some converged_document);
   DirEntry "calc_0001" true None;
   DirEntry "energies.npy" false None].

(** The table of the scenario with its two rows exchanged. *)
Definition reordered_frame : CreateNpy.DataFrame :=
  CreateNpy.Frame
    ["Calculation"; "Index"; "Energy_without_entropy_eV"; "Energy_sigma_0_eV"]
    [energy_row (Some 0) (Finite (-1 # 2)); energy_row (Some 2) (Finite (-3 # 2))].

(** [python 5_create_npy.py calculations --output-name energies] *)
Definition extensionless_args : CreateNpy.args :=
  CreateNpy.Args "calculations" None "energies" NaN "sigma0" false.

(** A document whose CPU time reads [1.2.3], followed by an energy line. *)
Definition bad_cpu_document : string :=
  "Total CPU time used (sec): 1.2.3
 energy  without entropy = -1.5".

(** [m] is the largest of the identifiers [ids]. *)
Definition largest (ids : list Z) (m : Z) : Prop :=
  m ∈ ids /\ Forall (fun z => z <= m) ids.

(** The pairs of identifier and energy that the entries of a calculations
    directory stand for: one pair for each directory named [calc_...] whose
    name gives an identifier, with the energy the assembler's parser reads
    from its document. *)
Definition run_entries (listing : list dir_entry) (energy_type : string)
  : list (Z * option pyfloat) :=
  omap (fun d =>
          if is_calc_dir d
          then match calc_index_of (d_name d) with
               | Some i =>
                   Some (i, CreateNpy.extract_energy_from_outcar (d_outcar d) energy_type)
               | None => None
               end
          else None)
       listing.

(** A second converged document of more than 1000 bytes, with another
    energy. *)
Definition retry_document : string :=
  "energy(sigma->0) = -12.5 reached required accuracy" +:+ pad 1000.

(** The table without its rows that have no identifier. *)
Definition identified_rows (df : CreateNpy.DataFrame) : CreateNpy.DataFrame :=
  CreateNpy.Frame (CreateNpy.columns df)
    (List.filter (fun r => bool_decide (is_Some (CreateNpy.Index r))) (CreateNpy.rows df)).

(** A converged document of more than 1000 bytes whose last sigma->0 value
    is written with a plus sign. *)
Definition plus_sign_document : string :=
  "energy(sigma->0) = -1.5
 energy(sigma->0) = +2.5
 reached required accuracy" +:+ pad 1000.

(** A converged document of more than 1000 bytes with the three energies of
    one step. *)
Definition three_energies_document : string :=
  "free  energy   TOTEN  =  -12.4 eV
 energy  without entropy=  -12.3  energy(sigma->0) =  -12.35
 reached required accuracy" +:+ pad 1000.

(** Two runs with the same identifier. *)
Definition retried_listing : list dir_entry :=
  [DirEntry "calc_0003" true (Some converged_document);
   DirEntry "calc_0003_retry" true (Some retry_document)].

(** A table with a negative identifier. *)
Definition negative_frame : CreateNpy.DataFrame :=
  CreateNpy.Frame ["Index"; "Energy_eV"]
    [CreateNpy.CsvRow (Some 1) (fun _ => NaN);
     CreateNpy.CsvRow (Some (-2)) (fun _ => Finite (-1 # 2))].

(** A table of which one row has no identifier. *)
Definition partly_identified_frame : CreateNpy.DataFrame :=
  CreateNpy.Frame ["Index"; "Energy_eV"]
    [CreateNpy.CsvRow None (fun _ => Finite (-7 # 2));
     CreateNpy.CsvRow (Some 1) (fun _ => Finite (-1 # 2))].

(** A document of 500 bytes whose CPU time does not read as a number,
    followed by an energy line. *)
Definition short_bad_cpu_document : string :=
  "Total CPU time used (sec): 1.2.3
 energy  without entropy = -1.5" +:+ pad 436.

(** A machine on which no array has 2^63 elements or more: numpy refuses
    such a dimension wherever it runs. *)
Definition word_64 : platform :=
  Platform (fun n => if 2 ^ 63 <=? n
                     then Some (Exn "ValueError" "Maximum allowed dimension exceeded")
                     else None)
           (fun _ _ _ _ => true).

(** One run, whose identifier is 10^20. *)
Definition huge_listing : list dir_entry :=
  [DirEntry "calc_100000000000000000000" true (Some converged_document)].

(** A calculations directory with an old and a new energy table, a hidden
    one and a text file. *)
Definition scenario_files : list file_stat :=
  [FileStat "energies_1.csv" 5; FileStat "old_energies_2.csv" 7;
   FileStat ".energies_3.csv" 9; FileStat "energies.txt" 10].

(** A table with an identifier and no energy column. *)
Definition no_energy_frame : CreateNpy.DataFrame :=
  CreateNpy.Frame ["Calculation"; "Index"] [CreateNpy.CsvRow (Some 0) (fun _ => NaN)].

(** * Properties *)

Section Properties.

Context {machine : platform}.

(** ** Sorting and maxima *)

Lemma insert_sorted_Permutation {A} (leb : A -> A -> bool) x l :
  insert_sorted leb x l ≡ₚ x :: l.
Proof.
  induction l as [|y l IH]; simpl; [done|].
  destruct (leb x y); [done|].
  rewrite IH. apply Permutation_swap.
Qed.

Lemma stable_sort_Permutation {A} (leb : A -> A -> bool) l :
  stable_sort leb l ≡ₚ l.
Proof.
  induction l as [|x l IH]; simpl; [done|].
  rewrite insert_sorted_Permutation. by rewrite IH.
Qed.

Lemma fold_max_ge zs z : z <= fold_left Z.max zs z.
Proof.
  revert z. induction zs as [|y zs IH]; intros z; simpl; [lia|].
  specialize (IH (Z.max z y)). lia.
Qed.

Lemma fold_max_upper zs z : Forall (fun y => y <= fold_left Z.max zs z) zs.
Proof.
  revert z. induction zs as [|y zs IH]; intros z; simpl; constructor.
  - pose proof (fold_max_ge zs (Z.max z y)). lia.
  - apply IH.
Qed.

Lemma fold_max_elem zs z : fold_left Z.max zs z ∈ z :: zs.
Proof.
  revert z. induction zs as [|y zs IH]; intros z; simpl; [set_solver|].
  specialize (IH (Z.max z y)).
  apply elem_of_cons in IH as [->|IH]; [|set_solver].
  destruct (Z.max_spec z y) as [[_ ->]|[_ ->]]; set_solver.
Qed.

Lemma max_of_spec ids :
  ids <> [] ->
  exists m, CreateNpy.max_of ids = Some m /\ m ∈ ids /\ Forall (fun y => y <= m) ids.
Proof.
  destruct ids as [|z zs]; [done|]. intros _.
  exists (fold_left Z.max zs z). split; [done|]. split.
  - apply fold_max_elem.
  - constructor; [apply fold_max_ge | apply fold_max_upper].
Qed.

(** ** Filling the array *)

Lemma setitem_in_range (a : array) idx x :
  0 <= idx < Z.of_nat (length a) ->
  setitem a idx x = Returned (<[Z.to_nat idx := x]> a).
Proof.
  intros H. unfold setitem.
  replace (0 <=? idx) with true by (symmetry; apply Z.leb_le; lia).
  replace (idx <? Z.of_nat (length a)) with true by (symmetry; apply Z.ltb_lt; lia).
  done.
Qed.

Lemma fill_data_returns data (a : array) k :
  Forall (in_range (length a)) data ->
  exists a' k', CreateNpy.fill_data data a k = Returned (a', k')
                /\ length a' = length a.
Proof.
  revert a k. induction data as [|[i [e|]] data IH]; intros a k Hr; simpl.
  - by exists a, k.
  - inversion Hr as [|? ? Hi Hr']; subst.
    rewrite setitem_in_range by exact Hi. simpl.
    destruct (IH (<[Z.to_nat i := e]> a) (S k)) as (a' & k' & E & L);
      [by rewrite length_insert|].
    exists a', k'. split; [done|]. by rewrite L, length_insert.
  - inversion Hr; subst. by apply IH.
Qed.

Lemma fill_data_untouched data (a : array) k a' k' (n : nat) :
  Forall (in_range (length a)) data ->
  CreateNpy.fill_data data a k = Returned (a', k') ->
  (forall e, (Z.of_nat n, Some e) ∉ data) ->
  a' !! n = a !! n.
Proof.
  revert a k. induction data as [|[i [e|]] data IH]; intros a k Hr E Hn; simpl in E.
  - by inversion E.
  - inversion Hr as [|? ? Hi Hr']; subst.
    rewrite setitem_in_range in E by exact Hi. simpl in E.
    apply IH in E.
    + rewrite E. apply list_lookup_insert_ne.
      intros Heq. apply (Hn e). unfold in_range in Hi; simpl in Hi.
      replace (Z.of_nat n) with i by lia. apply list_elem_of_here.
    + by rewrite length_insert.
    + intros e' He'. apply (Hn e'). set_solver.
  - inversion Hr; subst. eapply IH; eauto.
    intros e' He'. apply (Hn e'). set_solver.
Qed.

Lemma fill_data_written data (a : array) k a' k' i e :
  Forall (in_range (length a)) data ->
  NoDup data.*1 ->
  CreateNpy.fill_data data a k = Returned (a', k') ->
  (i, Some e) ∈ data ->
  a' !! Z.to_nat i = Some e.
Proof.
  revert a k. induction data as [|[j oe] data IH]; intros a k Hr Hd E Hin.
  - set_solver.
  - inversion Hr as [|? ? Hj Hr']; subst.
    apply NoDup_cons in Hd as [Hj' Hd].
    apply elem_of_cons in Hin as [Heq|Hin].
    + inversion Heq; subst j oe. simpl in E.
      rewrite setitem_in_range in E by exact Hj. simpl in E.
      unfold in_range in Hj; simpl in Hj.
      erewrite fill_data_untouched; [| |exact E|].
      * apply list_lookup_insert_eq. lia.
      * by rewrite length_insert.
      * intros e' He'. apply Hj'. rewrite Z2Nat.id in He' by lia.
        apply (list_elem_of_fmap_2 fst) in He'. exact He'.
    + destruct oe as [e0|]; simpl in E.
      * rewrite setitem_in_range in E by exact Hj. simpl in E.
        eapply IH; [|exact Hd|exact E|exact Hin]. by rewrite length_insert.
      * eapply IH; [exact Hr'|exact Hd|exact E|exact Hin].
Qed.

Lemma float_eqb_nan_refl x : float_eqb_nan x x = true.
Proof.
  destruct x as [q| | |]; try reflexivity.
  unfold float_eqb_nan; simpl. rewrite orb_false_r.
  apply Qeq_bool_iff. reflexivity.
Qed.

Lemma entries_fst col l : (entries col l).*1 = omap CreateNpy.Index l.
Proof.
  unfold entries. induction l as [|r l IH]; [done|].
  cbn. destruct (CreateNpy.Index r); cbn; [f_equal|]; exact IH.
Qed.

Lemma entries_Permutation col l l' : l ≡ₚ l' -> entries col l ≡ₚ entries col l'.
Proof. intros H. unfold entries. by rewrite H. Qed.

Lemma fill_rows_fill_data col l (a : array) k :
  CreateNpy.fill_rows col l a
  = bind (CreateNpy.fill_data (entries col l) a k) (fun r => Returned r.1).
Proof.
  revert a k. induction l as [|r l IH]; intros a k; [done|].
  unfold entries in *. simpl.
  destruct (CreateNpy.Index r) as [i|]; simpl; [|apply IH].
  destruct (is_nan (CreateNpy.cell r col)); simpl; [apply IH|].
  destruct (setitem a i (CreateNpy.cell r col)); simpl; [apply IH|done].
Qed.

Lemma largest_Permutation ids ids' m : ids ≡ₚ ids' -> largest ids m -> largest ids' m.
Proof. intros Hp [Hin Hub]. split; by rewrite <- Hp. Qed.

Lemma largest_unique ids m m' : largest ids m -> largest ids m' -> m = m'.
Proof.
  intros [Hin Hub] [Hin' Hub']. rewrite Forall_forall in Hub, Hub'.
  specialize (Hub _ Hin'). specialize (Hub' _ Hin). lia.
Qed.

Lemma max_of_largest ids m : largest ids m -> CreateNpy.max_of ids = Some m.
Proof.
  intros Hm. destruct (max_of_spec ids) as (m' & Hmax & Hin & Hub).
  { intros ->. destruct Hm as [Hm _]. by apply elem_of_nil in Hm. }
  rewrite Hmax. f_equal. by apply (largest_unique ids).
Qed.

Lemma largest_exists ids : ids <> [] -> exists m, largest ids m.
Proof.
  intros Hne. destruct (max_of_spec ids Hne) as (m & _ & Hin & Hub). by exists m.
Qed.

(** The array built from a permutation of the pairs, when the identifiers
    are non-negative and pairwise distinct: the allocation fails, or the
    array filled in is the dense array of the pairs. *)
Lemma assemble_dense fill table sorted mx :
  largest table.*1 mx ->
  Forall (fun z => 0 <= z) table.*1 ->
  NoDup table.*1 ->
  sorted ≡ₚ table ->
  CreateNpy.max_of sorted.*1 = Some mx
  /\ match allocation_error (mx + 1) with
     | Some e =>
         bind (np_full (mx + 1) fill) (fun a => CreateNpy.fill_data sorted a 0)
         = Raised e
     | None =>
         exists energies k,
           bind (np_full (mx + 1) fill) (fun a => CreateNpy.fill_data sorted a 0)
           = Returned (energies, k)
           /\ dense_over fill table energies
     end.
Proof.
  intros Hmx Hpos Hnd Hperm.
  assert (Hfst : sorted.*1 ≡ₚ table.*1) by (by rewrite Hperm).
  split. { apply max_of_largest. by apply (largest_Permutation table.*1). }
  destruct Hmx as [Hin Hub].
  assert (0 <= mx) by (rewrite Forall_forall in Hpos; by apply Hpos).
  unfold np_full.
  replace (mx + 1 <? 0) with false by (symmetry; apply Z.ltb_ge; lia).
  destruct (allocation_error (mx + 1)) as [e|]; [done|]. simpl.
  assert (Hr : Forall (in_range (length (replicate (Z.to_nat (mx + 1)) fill))) sorted).
  { rewrite length_replicate. apply Forall_forall. intros [i oe] Hi.
    unfold in_range; simpl.
    assert (Hi' : i ∈ table.*1).
    { rewrite <- Hfst. by apply (list_elem_of_fmap_2 fst) in Hi. }
    rewrite Forall_forall in Hpos, Hub.
    specialize (Hpos _ Hi'). specialize (Hub _ Hi'). simpl in *. lia. }
  destruct (fill_data_returns sorted _ 0%nat Hr) as (a' & k' & E & L).
  rewrite length_replicate in L.
  exists a', k'. split; [done|].
  split; [|split].
  - exists mx. split; [done|]. split; [done|]. rewrite L. lia.
  - intros i e Hi. eapply fill_data_written; [exact Hr| |exact E|].
    + by rewrite Hfst.
    + by rewrite Hperm.
  - intros n Hn Hno. exists fill. split; [|split; [done|apply float_eqb_nan_refl]].
    erewrite fill_data_untouched; [|exact Hr|exact E|].
    + apply lookup_replicate_2. lia.
    + intros e He. apply (Hno e). by rewrite <- Hperm.
Qed.

(** The dense array of the pairs is one array. *)
Lemma dense_over_unique fill table table' (a a' : list pyfloat) :
  table ≡ₚ table' ->
  dense_over fill table a -> dense_over fill table' a' -> a = a'.
Proof.
  intros Hperm [(m & Hm & Hub & Hlen) [Hat Hfill]] [(m' & Hm' & Hub' & Hlen') [Hat' Hfill']].
  assert (Hfst : table.*1 ≡ₚ table'.*1) by (by rewrite Hperm).
  assert (m = m').
  { rewrite Forall_forall in Hub, Hub'.
    rewrite Hfst in Hm. rewrite <- Hfst in Hm'.
    specialize (Hub _ Hm'). specialize (Hub' _ Hm). lia. }
  subst m'.
  assert (Hl : length a = length a') by lia.
  apply list_eq. intros n.
  destruct (decide (n < length a)%nat) as [Hn|Hn].
  - destruct (decide (Exists (fun p => p.1 = Z.of_nat n /\ is_Some p.2) table))
      as [Hex|Hex].
    + apply Exists_exists in Hex as ([i oe] & Hin & Hi & [e He]). simpl in *. subst.
      rewrite <- (Nat2Z.id n).
      rewrite (Hat _ _ Hin). symmetry. apply Hat'. by rewrite <- Hperm.
    + assert (Hno : forall e, (Z.of_nat n, Some e) ∉ table).
      { intros e Hin. apply Hex, Exists_exists. by exists (Z.of_nat n, Some e). }
      destruct (Hfill n Hn Hno) as (x & -> & -> & _).
      destruct (Hfill' n) as (x' & -> & -> & _); [lia| |done].
      intros e. rewrite <- Hperm. apply Hno.
  - rewrite !lookup_ge_None_2; [done|lia|lia].
Qed.

(** ** The dense array (C1) *)

Lemma sort_values_Permutation l : CreateNpy.sort_values l ≡ₚ l.
Proof. apply stable_sort_Permutation. Qed.

(** Table mode on a table with identifiers, in terms of the filling loop. *)
Lemma indexed_table read_csv csv_file df fill col :
  read_csv csv_file = Returned df ->
  CreateNpy.resolve_energy_col df = Some col ->
  CreateNpy.has_column df "Index" = true ->
  omap CreateNpy.Index (CreateNpy.rows df) <> [] ->
  CreateNpy.create_energies_array_from_csv read_csv csv_file fill
  = let sorted := entries col (CreateNpy.sort_values (CreateNpy.rows df)) in
    match CreateNpy.max_of sorted.*1 with
    | None => Returned ([], CreateNpy.Metadata 0 0 0 [] (basename csv_file))
    | Some mx =>
        match bind (np_full (mx + 1) fill)
                   (fun a => CreateNpy.fill_data sorted a 0) with
        | Returned (energies, _) =>
            Returned (energies,
                      CreateNpy.Metadata (length energies)
                        (length (not_nan_part energies))
                        (Z.of_nat (length energies)
                         - Z.of_nat (length (not_nan_part energies)))
                        (not_nan_part energies) (basename csv_file))
        | Raised e => Raised (CreateNpy.csv_failure csv_file e)
        end
    end.
Proof.
  intros Hread Hcol Hidx Hne.
  unfold CreateNpy.create_energies_array_from_csv, CreateNpy.energies_of_frame.
  rewrite Hread. simpl. rewrite Hcol, Hidx.
  destruct (omap CreateNpy.Index (CreateNpy.rows df)) eqn:Eids; [done|]. simpl.
  rewrite entries_fst.
  destruct (CreateNpy.max_of _) as [mx|]; [|done].
  destruct (np_full (mx + 1) fill) as [a0|e0]; simpl; [|done].
  rewrite (fill_rows_fill_data col _ a0 0).
  by destruct (CreateNpy.fill_data _ a0 0) as [[energies k]|e].
Qed.

Lemma csv_dense read_csv csv_file df fill col mx :
  read_csv csv_file = Returned df ->
  CreateNpy.resolve_energy_col df = Some col ->
  CreateNpy.has_column df "Index" = true ->
  largest (omap CreateNpy.Index (CreateNpy.rows df)) mx ->
  Forall (fun z => 0 <= z) (omap CreateNpy.Index (CreateNpy.rows df)) ->
  NoDup (omap CreateNpy.Index (CreateNpy.rows df)) ->
  match allocation_error (mx + 1) with
  | Some e =>
      CreateNpy.create_energies_array_from_csv read_csv csv_file fill
      = Raised (CreateNpy.csv_failure csv_file e)
  | None =>
      exists energies m,
        CreateNpy.create_energies_array_from_csv read_csv csv_file fill
        = Returned (energies, m)
        /\ dense_over fill (entries col (CreateNpy.rows df)) energies
  end.
Proof.
  intros Hread Hcol Hidx Hmx Hpos Hnd.
  rewrite (indexed_table _ _ df fill col Hread Hcol Hidx).
  2:{ intros E. rewrite E in Hmx. destruct Hmx as [Hmx _]. by apply elem_of_nil in Hmx. }
  destruct (assemble_dense fill (entries col (CreateNpy.rows df))
              (entries col (CreateNpy.sort_values (CreateNpy.rows df))) mx)
    as (Hmax & Hfill).
  - by rewrite entries_fst.
  - by rewrite entries_fst.
  - by rewrite entries_fst.
  - apply entries_Permutation, sort_values_Permutation.
  - cbv zeta. rewrite Hmax.
    destruct (allocation_error (mx + 1)) as [e|].
    + by rewrite Hfill.
    + destruct Hfill as (energies & k & -> & Hdense). by eexists _, _.
Qed.

Lemma direct_data_run_entries listing energy_type :
  direct_data listing energy_type = run_entries listing energy_type.
Proof.
  unfold direct_data, run_entries, CreateNpy.collect_calc_data.
  induction listing as [|d l IH]; [done|]. simpl.
  destruct (is_calc_dir d); simpl; [|exact IH].
  destruct (calc_index_of (d_name d)); simpl; [f_equal|]; exact IH.
Qed.

(** Direct extraction on a listing with a run that has an identifier, in
    terms of the filling loop. *)
Lemma direct_with_data listing energy_type fill :
  run_entries listing energy_type <> [] ->
  CreateNpy.create_energies_array_direct listing energy_type fill
  = let sorted := stable_sort (fun a b : Z * option pyfloat => a.1 <=? b.1)
                              (run_entries listing energy_type) in
    match CreateNpy.max_of sorted.*1 with
    | None => Returned ([], CreateNpy.Metadata 0 0 0 [] "direct_extraction")
    | Some mx =>
        match bind (np_full (mx + 1) fill)
                   (fun a => CreateNpy.fill_data sorted a 0) with
        | Returned (energies, successful) =>
            Returned (energies,
                      CreateNpy.Metadata (length energies) successful
                        (Z.of_nat (length energies) - Z.of_nat successful)
                        (not_nan_part energies) "direct_extraction")
        | Raised e => Raised e
        end
    end.
Proof.
  rewrite <- direct_data_run_entries. unfold direct_data. intros Hne.
  unfold CreateNpy.create_energies_array_direct.
  destruct (List.filter is_calc_dir listing) as [|d ds] eqn:Edirs; [done|].
  cbv zeta.
  destruct (CreateNpy.max_of _) as [mx|]; [|done].
  by destruct (bind (np_full (mx + 1) fill) _) as [[energies k]|e].
Qed.

Lemma direct_dense listing energy_type fill mx :
  let runs := run_entries listing energy_type in
  largest runs.*1 mx ->
  Forall (fun z => 0 <= z) runs.*1 ->
  NoDup runs.*1 ->
  match allocation_error (mx + 1) with
  | Some e =>
      CreateNpy.create_energies_array_direct listing energy_type fill = Raised e
  | None =>
      exists energies m,
        CreateNpy.create_energies_array_direct listing energy_type fill
        = Returned (energies, m)
        /\ dense_over fill runs energies
  end.
Proof.
  intros runs Hmx Hpos Hnd.
  rewrite direct_with_data.
  2:{ fold runs. intros E. rewrite E in Hmx. destruct Hmx as [Hmx _].
      by apply elem_of_nil in Hmx. }
  fold runs.
  destruct (assemble_dense fill runs
              (stable_sort (fun a b : Z * option pyfloat => a.1 <=? b.1) runs) mx)
    as (Hmax & Hfill); try done.
  { apply stable_sort_Permutation. }
  cbv zeta. rewrite Hmax.
  destruct (allocation_error (mx + 1)) as [e|].
  - by rewrite Hfill.
  - destruct Hfill as (energies & k & -> & Hdense). by eexists _, _.
Qed.

(** C1, as the code has it. When the table has a recognised energy column
    and an identifier column, its identifiers are those of the data model
    (non-negative, pairwise distinct) and an array as long as the largest
    of them plus one can be allocated, the assembler returns an array whose
    length is the largest identifier plus one, that holds at position [i]
    the energy of the row with identifier [i], and that holds the fill
    value (also under the NaN-aware comparison) at every position to which
    no row with an energy belongs. The same holds for the array assembled
    from the run directories, with the identifiers read from their names
    and the energies read from their documents. *)
Theorem dense_energy_array :
  (forall read_csv csv_file df fill col mx,
     read_csv csv_file = Returned df ->
     CreateNpy.resolve_energy_col df = Some col ->
     CreateNpy.has_column df "Index" = true ->
     largest (omap CreateNpy.Index (CreateNpy.rows df)) mx ->
     Forall (fun z => 0 <= z) (omap CreateNpy.Index (CreateNpy.rows df)) ->
     NoDup (omap CreateNpy.Index (CreateNpy.rows df)) ->
     allocation_error (mx + 1) = None ->
     exists energies m,
       CreateNpy.create_energies_array_from_csv read_csv csv_file fill
       = Returned (energies, m)
       /\ dense_over fill (entries col (CreateNpy.rows df)) energies)
  /\
  (forall listing energy_type fill mx,
     let runs := run_entries listing energy_type in
     largest runs.*1 mx ->
     Forall (fun z => 0 <= z) runs.*1 ->
     NoDup runs.*1 ->
     allocation_error (mx + 1) = None ->
     exists energies m,
       CreateNpy.create_energies_array_direct listing energy_type fill
       = Returned (energies, m)
       /\ dense_over fill runs energies).
Proof.
  split.
  - intros read_csv csv_file df fill col mx Hread Hcol Hidx Hmx Hpos Hnd Halloc.
    pose proof (csv_dense _ _ _ fill _ _ Hread Hcol Hidx Hmx Hpos Hnd) as Hd.
    by rewrite Halloc in Hd.
  - intros listing energy_type fill mx runs Hmx Hpos Hnd Halloc.
    pose proof (direct_dense listing energy_type fill mx Hmx Hpos Hnd) as Hd.
    by rewrite Halloc in Hd.
Qed.

(** ** Classification of the runs (C7) *)

Lemma process_well_classified d : well_classified (ExtractEnergies.process d).
Proof.
  unfold well_classified, ExtractEnergies.process; simpl.
  destruct (ExtractEnergies.energy_without_entropy _) as [x|]; simpl.
  - split; split; intros H; try done; try (by exists x).
  - split; split; intros H; try done; try (by destruct H).
Qed.

(** C7. Every row of the table is Success exactly when its primary energy
    is present and Failed exactly when it is absent; a run whose secondary
    energy, CPU time and convergence marker are all missing is Success all
    the same. *)
Theorem status_success_iff_primary_energy :
  (forall base_dir,
     Forall well_classified
            (List.map ExtractEnergies.process (ExtractEnergies.find_calc_dirs base_dir)))
  /\ (exists d,
        let r := ExtractEnergies.process d in
        ExtractEnergies.Status r = "Success"
        /\ ExtractEnergies.Energy_sigma_0_eV r = None
        /\ ExtractEnergies.CPU_time_sec r = None
        /\ ExtractEnergies.Converged r = false).
Proof.
  split.
  - intros base_dir. apply Forall_forall. intros r Hr.
    apply list_elem_of_In, in_map_iff in Hr as (d & <- & _).
    apply process_well_classified.
  - exists (DirEntry "calc_0000" true (Some "energy  without entropy = -1.5")).
    vm_compute. done.
Qed.

(** ** No run directory (C10) *)

Lemma filter_none {A} (p : A -> bool) (l : list A) :
  Forall (fun x => p x = false) l -> List.filter p l = [].
Proof.
  induction 1 as [|x l Hx _ IH]; simpl; [done|]. by rewrite Hx.
Qed.

(** C10. When no entry of the base directory is a directory named
    [calc_...], [main] raises: the table built from no dictionary has no
    [Status] column, and selecting on it is a [KeyError]. Nothing is
    written. *)
Theorem main_raises_without_calc_dirs base_dir w :
  Forall (fun d => is_calc_dir d = false) base_dir ->
  ExtractEnergies.main base_dir w
  = ([], Raised (ExtractEnergies.key_error "Status")).
Proof.
  intros H. unfold ExtractEnergies.main, ExtractEnergies.find_calc_dirs.
  rewrite (filter_none _ _ H). reflexivity.
Qed.

(** ** The aggregator's table *)

Lemma find_calc_dirs_Permutation base_dir :
  ExtractEnergies.find_calc_dirs base_dir ≡ₚ List.filter is_calc_dir base_dir.
Proof. apply stable_sort_Permutation. Qed.

Lemma find_calc_dirs_length base_dir :
  length (ExtractEnergies.find_calc_dirs base_dir)
  = length (List.filter is_calc_dir base_dir).
Proof. by rewrite find_calc_dirs_Permutation. Qed.

(** With at least one run directory, [main] reaches the export, and ends as
    the export ends. *)
Lemma main_export base_dir w :
  List.filter is_calc_dir base_dir <> [] ->
  ExtractEnergies.main base_dir w
  = let df := table_of base_dir in
    let '(files, r) :=
      ExtractEnergies.export w df (with_status "Success" df) (with_status "Failed" df) in
    (files, bind r (fun _ => Returned df)).
Proof.
  intros Hne. unfold ExtractEnergies.main, table_of.
  pose proof (find_calc_dirs_length base_dir) as Hlen.
  destruct (ExtractEnergies.find_calc_dirs base_dir) as [|d ds].
  - destruct (List.filter is_calc_dir base_dir); [done|discriminate].
  - reflexivity.
Qed.

(** ** Unparseable identifiers (C5) *)

Lemma collect_calc_data_app l1 l2 energy_type :
  CreateNpy.collect_calc_data (l1 ++ l2) energy_type
  = CreateNpy.collect_calc_data l1 energy_type
    ++ CreateNpy.collect_calc_data l2 energy_type.
Proof. unfold CreateNpy.collect_calc_data. apply omap_app. Qed.

Lemma csv_metadata read_csv csv_file fill energies m :
  CreateNpy.create_energies_array_from_csv read_csv csv_file fill
  = Returned (energies, m) ->
  m = CreateNpy.Metadata (length energies) (length (not_nan_part energies))
        (Z.of_nat (length energies) - Z.of_nat (length (not_nan_part energies)))
        (not_nan_part energies) (basename csv_file).
Proof.
  unfold CreateNpy.create_energies_array_from_csv.
  destruct (read_csv csv_file) as [df|e]; simpl; [|done].
  destruct (CreateNpy.energies_of_frame df fill) as [a|e]; simpl; [|done].
  by intros [= <- <-].
Qed.

Lemma fill_rows_identified col l (energies : array) :
  CreateNpy.fill_rows col l energies
  = CreateNpy.fill_rows col
      (List.filter (fun r => bool_decide (is_Some (CreateNpy.Index r))) l) energies.
Proof.
  revert energies. induction l as [|r l IH]; intros energies; [done|]. simpl.
  destruct (CreateNpy.Index r) as [i|] eqn:E; simpl; rewrite ?E; [|apply IH].
  destruct (negb _); [|apply IH].
  destruct (setitem energies i _); simpl; [apply IH|done].
Qed.

Lemma entries_identified col l :
  entries col (List.filter (fun r => bool_decide (is_Some (CreateNpy.Index r))) l)
  = entries col l.
Proof.
  unfold entries. induction l as [|r l IH]; [done|]. simpl.
  destruct (CreateNpy.Index r) as [i|] eqn:E; simpl; rewrite ?E; simpl;
    [f_equal|]; exact IH.
Qed.

(** C5, as the code has it. The aggregator drops no run: its table has one
    row per run directory, and a run whose identifier does not parse is a
    row with a null identifier; the scan goes on, and with a working
    workbook writer [main] returns that table. It is the assembler that
    leaves such a run out. Direct extraction passes over the directory. In
    table mode the filling loop passes over every row without identifier,
    so that for a table with identifiers, non-negative and pairwise
    distinct, the array and the metadata are those of the table without
    these rows. *)
Theorem unparseable_identifier_handling :
  (forall base_dir,
     length (ExtractEnergies.df_rows (table_of base_dir))
     = length (List.filter is_calc_dir base_dir))
  /\ (forall base_dir d,
        d ∈ base_dir -> is_calc_dir d = true ->
        calc_index_of (d_name d) = None ->
        exists r, r ∈ ExtractEnergies.df_rows (table_of base_dir)
                  /\ ExtractEnergies.Calculation r = d_name d
                  /\ ExtractEnergies.Index r = None)
  /\ (forall base_dir ts e1 e2,
        List.filter is_calc_dir base_dir <> [] ->
        (ExtractEnergies.main base_dir (ExtractEnergies.Writers ts None e1 e2)).2
        = Returned (table_of base_dir))
  /\ (forall l1 d l2 energy_type,
        calc_index_of (d_name d) = None ->
        CreateNpy.collect_calc_data (l1 ++ d :: l2) energy_type
        = CreateNpy.collect_calc_data (l1 ++ l2) energy_type)
  /\ (forall col l energies,
        CreateNpy.fill_rows col l energies
        = CreateNpy.fill_rows col
            (List.filter (fun r => bool_decide (is_Some (CreateNpy.Index r))) l)
            energies)
  /\ (forall df csv_file fill col,
        CreateNpy.resolve_energy_col df = Some col ->
        CreateNpy.has_column df "Index" = true ->
        omap CreateNpy.Index (CreateNpy.rows df) <> [] ->
        Forall (fun z => 0 <= z) (omap CreateNpy.Index (CreateNpy.rows df)) ->
        NoDup (omap CreateNpy.Index (CreateNpy.rows df)) ->
        CreateNpy.create_energies_array_from_csv (fun _ => Returned df) csv_file fill
        = CreateNpy.create_energies_array_from_csv
            (fun _ => Returned (identified_rows df)) csv_file fill).
Proof.
  split; [|split; [|split; [|split; [|split]]]].
  - intros base_dir. unfold table_of, ExtractEnergies.DataFrame_of; simpl.
    by rewrite length_map, find_calc_dirs_length.
  - intros base_dir d Hd Hcalc Hidx.
    exists (ExtractEnergies.process d). split; [|split].
    + unfold table_of, ExtractEnergies.DataFrame_of; simpl.
      apply list_elem_of_In, in_map, list_elem_of_In.
      rewrite find_calc_dirs_Permutation.
      apply list_elem_of_In, filter_In. split; [by apply list_elem_of_In|done].
    + reflexivity.
    + unfold ExtractEnergies.process; simpl. exact Hidx.
  - intros base_dir ts e1 e2 Hne. rewrite (main_export _ _ Hne).
    unfold ExtractEnergies.export; simpl. reflexivity.
  - intros l1 d l2 energy_type Hidx.
    rewrite !collect_calc_data_app. f_equal.
    unfold CreateNpy.collect_calc_data; simpl. by rewrite Hidx.
  - apply fill_rows_identified.
  - intros df csv_file fill col Hcol Hidx Hne Hpos Hnd.
    assert (Hids : omap CreateNpy.Index (CreateNpy.rows (identified_rows df))
                   = omap CreateNpy.Index (CreateNpy.rows df)).
    { rewrite <- !(entries_fst col). unfold identified_rows. simpl.
      by rewrite entries_identified. }
    destruct (largest_exists _ Hne) as [mx Hmx].
    pose proof (csv_dense (fun _ => Returned df) csv_file df fill col mx
                  eq_refl Hcol Hidx Hmx Hpos Hnd) as Hr.
    pose proof (csv_dense (fun _ => Returned (identified_rows df)) csv_file
                  (identified_rows df) fill col mx eq_refl Hcol Hidx) as Hr'.
    rewrite Hids in Hr'. specialize (Hr' Hmx Hpos Hnd).
    destruct (allocation_error (mx + 1)) as [err|]; [by rewrite Hr, Hr'|].
    destruct Hr as (e & m & Hr & Hdense). destruct Hr' as (e' & m' & Hr' & Hdense').
    rewrite Hr, Hr'. apply csv_metadata in Hr, Hr'. subst m m'.
    unfold identified_rows in Hdense'. simpl in Hdense'.
    rewrite entries_identified in Hdense'.
    by rewrite (dense_over_unique _ _ _ _ _ (Permutation_refl _) Hdense Hdense').
Qed.

(** ** Fallback of the exporter (C8) *)

(** C8, as the code has it. With at least one run directory: when the
    workbook writer is unavailable (it raises [ImportError]) the exporter
    writes the same table in the flat format, and the summary artifact too
    when at least one run succeeded; a failure of either flat write ends
    [main] with that exception; any other failure of the workbook write is
    not caught, nothing is written and it ends [main]. *)
Theorem fallback_to_flat_table base_dir ts e o1 o2 :
  List.filter is_calc_dir base_dir <> [] ->
  let w := ExtractEnergies.Writers ts (Some e) o1 o2 in
  let df := table_of base_dir in
  let table := ExtractEnergies.CsvTable ("energies_" +:+ ts +:+ ".csv") df in
  let summary :=
    ExtractEnergies.CsvSummary ("summary_" +:+ ts +:+ ".csv")
      (ExtractEnergies.summary_of df (with_status "Success" df)
                                  (with_status "Failed" df)) in
  (ExtractEnergies.is_import_error e = true -> o1 = None ->
   some_success df = true -> o2 = None ->
   ExtractEnergies.main base_dir w = ([table; summary], Returned df))
  /\ (ExtractEnergies.is_import_error e = true -> o1 = None ->
      some_success df = false ->
      ExtractEnergies.main base_dir w = ([table], Returned df))
  /\ (forall e', ExtractEnergies.is_import_error e = true -> o1 = Some e' ->
      ExtractEnergies.main base_dir w = ([], Raised e'))
  /\ (forall e', ExtractEnergies.is_import_error e = true -> o1 = None ->
      some_success df = true -> o2 = Some e' ->
      ExtractEnergies.main base_dir w = ([table], Raised e'))
  /\ (ExtractEnergies.is_import_error e = false ->
      ExtractEnergies.main base_dir w = ([], Raised e)).
Proof.
  intros Hne w df table summary.
  rewrite (main_export _ _ Hne). fold df.
  unfold ExtractEnergies.export, w, some_success.
  cbn [ExtractEnergies.excel_writer ExtractEnergies.main_to_csv
       ExtractEnergies.summary_to_csv ExtractEnergies.timestamp].
  repeat split.
  - intros Hc -> Hs ->. rewrite Hc, Hs. reflexivity.
  - intros Hc -> Hs. rewrite Hc, Hs. reflexivity.
  - intros e' Hc ->. rewrite Hc. reflexivity.
  - intros e' Hc -> Hs ->. rewrite Hc, Hs. reflexivity.
  - intros Hc. rewrite Hc. reflexivity.
Qed.

(** ** Text lemmas *)

Lemma strip_prefix_Some lit s r : strip_prefix lit s = Some r <-> s = lit ++ r.
Proof.
  revert s. induction lit as [|a lit IH]; intros s; simpl.
  - split; [by intros [= ->] | by intros ->].
  - destruct s as [|c s]; [split; discriminate|].
    destruct (Ascii.eqb a c) eqn:E.
    + apply Ascii.eqb_eq in E as ->. rewrite IH. split; [by intros -> | by intros [= ->]].
    + apply Ascii.eqb_neq in E. split; [discriminate | intros [= -> _]; done].
Qed.

Lemma strip_prefix_app lit r : strip_prefix lit (lit ++ r) = Some r.
Proof. by apply strip_prefix_Some. Qed.

Lemma contains_unfold lit s :
  contains lit s
  = match strip_prefix lit s with
    | Some _ => true
    | None => match s with _ :: s' => contains lit s' | [] => false end
    end.
Proof. by destruct s. Qed.

Lemma contains_app lit x y : contains lit (x ++ lit ++ y) = true.
Proof.
  induction x as [|c x IH]; rewrite contains_unfold.
  - simpl. by rewrite strip_prefix_app.
  - destruct (strip_prefix lit ((c :: x) ++ lit ++ y)); [done|exact IH].
Qed.

Lemma endswith_contains suffix s :
  endswith suffix s = true ->
  contains (list_ascii_of_string suffix) (list_ascii_of_string s) = true.
Proof.
  unfold endswith. intros H. apply bool_decide_eq_true in H as [r Hr].
  apply strip_prefix_Some in Hr.
  apply (f_equal (@rev ascii)) in Hr. rewrite rev_involutive, rev_app_distr,
    rev_involutive in Hr.
  rewrite Hr. rewrite <- (app_nil_r (list_ascii_of_string suffix)) at 2.
  apply contains_app.
Qed.

(** A replacement that leaves the text as it was found nothing to replace,
    when the old and the new text start differently. *)
Lemma replace_from_fixed o old n new s :
  o <> n ->
  replace_from (o :: old) (n :: new) s 0 = s ->
  contains (o :: old) s = false.
Proof.
  intros Hon. induction s as [|c s IH]; intros H; [done|].
  cbn [replace_from] in H. rewrite contains_unfold.
  destruct (strip_prefix (o :: old) (c :: s)) as [r|] eqn:E.
  - apply strip_prefix_Some in E. simpl in E. injection E as -> _.
    simpl in H. by injection H as ->.
  - injection H as H. by apply IH.
Qed.

Lemma replace_npy_changes path :
  endswith ".npy" path = true -> replace ".npy" "_metadata.txt" path <> path.
Proof.
  intros Hend Heq. apply endswith_contains in Hend.
  unfold replace in Heq.
  apply (f_equal list_ascii_of_string) in Heq.
  rewrite list_ascii_of_string_of_list_ascii in Heq.
  apply replace_from_fixed in Heq; [|done].
  simpl in Hend. congruence.
Qed.

(** ** The saved array (C3) *)

Lemma all_equal_nan_refl a : all_equal_nan a a = true.
Proof. induction a as [|x a IH]; simpl; [done|]. by rewrite float_eqb_nan_refl. Qed.

Lemma array_equal_refl a : array_equal a a = true.
Proof. unfold array_equal. by rewrite Nat.eqb_refl, all_equal_nan_refl. Qed.

Lemma all_equal_nan_lookup a b :
  all_equal_nan a b = true <->
  length a = length b
  /\ forall i x y, a !! i = Some x -> b !! i = Some y -> float_eqb_nan x y = true.
Proof.
  revert b. induction a as [|x a IH]; intros [|y b]; simpl.
  - split; [|done]. intros _. split; [done|]. intros i ? ? H; by destruct i.
  - split; [done|]. intros [? _]; done.
  - split; [done|]. intros [? _]; done.
  - rewrite andb_true_iff, IH. split.
    + intros (Hxy & Hl & Hi). split; [by rewrite Hl|].
      intros [|i] x' y' Hx Hy; simpl in *; [by simplify_eq|]. eapply Hi; eauto.
    + intros (Hl & Hi). split; [by apply (Hi 0%nat)|]. split; [by injection Hl|].
      intros i x' y' Hx Hy. by apply (Hi (S i)).
Qed.

Lemma array_equal_spec a b :
  array_equal a b = true <->
  length a = length b
  /\ forall i x y, a !! i = Some x -> b !! i = Some y -> float_eqb_nan x y = true.
Proof.
  unfold array_equal. rewrite andb_true_iff, all_equal_nan_lookup, Nat.eqb_eq.
  tauto.
Qed.

Lemma np_save_written write_error d path a :
  write_error (CreateNpy.npy_path path) = None ->
  CreateNpy.np_save write_error d path a
  = Returned (<[CreateNpy.npy_path path := CreateNpy.Npy a]> d).
Proof. unfold CreateNpy.np_save. by intros ->. Qed.

Lemma np_load_np_save write_error d path a d' :
  CreateNpy.np_save write_error d path a = Returned d' ->
  CreateNpy.np_load d' (CreateNpy.npy_path path) = Returned a.
Proof.
  unfold CreateNpy.np_save.
  destruct (write_error (CreateNpy.npy_path path)); [done|]. intros [= <-].
  unfold CreateNpy.np_load. by rewrite lookup_insert_eq.
Qed.

Lemma verify_passes energies loaded :
  CreateNpy.verify energies loaded = None
  <-> exists b, loaded = Returned b /\ array_equal energies b = true.
Proof.
  unfold CreateNpy.verify. destruct loaded as [b|e].
  - destruct (array_equal energies b) eqn:E.
    + split; [by exists b|done].
    + split; [done|]. intros (b' & [= <-] & H). congruence.
  - split; [done|]. by intros (b' & ? & _).
Qed.

Lemma verify_fails energies loaded :
  CreateNpy.verify energies loaded <> None ->
  CreateNpy.verify energies loaded = Some 1.
Proof.
  unfold CreateNpy.verify. destruct loaded as [b|e]; [|done].
  by destruct (array_equal energies b).
Qed.

(** What [save_and_verify] gives when both writes succeed. *)
Lemma save_and_verify_written write_error path energies m d :
  write_error (CreateNpy.npy_path path) = None ->
  write_error (replace ".npy" "_metadata.txt" path) = None ->
  CreateNpy.save_and_verify write_error path energies m d
  = let d2 := <[replace ".npy" "_metadata.txt" path := CreateNpy.Text m]>
                (<[CreateNpy.npy_path path := CreateNpy.Npy energies]> d) in
    (d2, default 0 (CreateNpy.verify energies (CreateNpy.np_load d2 path))).
Proof.
  intros H1 H2. unfold CreateNpy.save_and_verify.
  rewrite (np_save_written _ _ _ _ H1), H2. cbv zeta.
  by destruct (CreateNpy.verify _ _).
Qed.

Lemma save_and_verify_status write_error path energies m d :
  let r := CreateNpy.save_and_verify write_error path energies m d in
  let verified := exists b, CreateNpy.np_load r.1 path = Returned b
                            /\ array_equal energies b = true in
  (r.2 = 0 \/ r.2 = 1)
  /\ (r.2 = 0 -> verified)
  /\ (write_error (CreateNpy.npy_path path) = None ->
      write_error (replace ".npy" "_metadata.txt" path) = None ->
      verified -> r.2 = 0).
Proof.
  unfold CreateNpy.save_and_verify, CreateNpy.np_save.
  destruct (write_error (CreateNpy.npy_path path)) as [e1|]; simpl.
  { split; [by right|]. split; done. }
  destruct (write_error (replace ".npy" "_metadata.txt" path)) as [e2|]; simpl.
  { split; [by right|]. split; done. }
  set (d2 := <[_ := _]> (<[_ := _]> d)).
  destruct (CreateNpy.verify energies (CreateNpy.np_load d2 path)) as [status|] eqn:E;
    simpl.
  - assert (status = 1) as ->.
    { assert (Hne : CreateNpy.verify energies (CreateNpy.np_load d2 path) <> None)
        by (by rewrite E).
      apply verify_fails in Hne. congruence. }
    split; [by right|]. split; [done|].
    intros _ _ Hv. apply verify_passes in Hv. congruence.
  - split; [by left|]. split; [|done]. intros _. by apply verify_passes.
Qed.

Lemma save_and_verify_npy write_error path energies m d :
  write_error (CreateNpy.npy_path path) = None ->
  write_error (replace ".npy" "_metadata.txt" path) = None ->
  endswith ".npy" path = true ->
  let r := CreateNpy.save_and_verify write_error path energies m d in
  r.2 = 0 /\ CreateNpy.np_load r.1 path = Returned energies.
Proof.
  intros H1 H2 Hend. rewrite (save_and_verify_written _ _ _ _ _ H1 H2). cbv zeta.
  assert (Hload : CreateNpy.np_load
            (<[replace ".npy" "_metadata.txt" path := CreateNpy.Text m]>
               (<[CreateNpy.npy_path path := CreateNpy.Npy energies]> d)) path
            = Returned energies).
  { unfold CreateNpy.np_load, CreateNpy.npy_path.
    rewrite Hend. rewrite lookup_insert_ne by (by apply replace_npy_changes).
    by rewrite lookup_insert_eq. }
  rewrite Hload. simpl. by rewrite array_equal_refl.
Qed.

(** [main] from the point where the array is assembled. *)
Lemma main_saves a env csv energies m :
  CreateNpy.isdir env (CreateNpy.calculations_dir a) = true ->
  CreateNpy.data_source a env = Some csv ->
  CreateNpy.create_energies a env csv = Returned (energies, m) ->
  CreateNpy.main a env
  = CreateNpy.save_and_verify (CreateNpy.write_error env) (output_path a)
      energies m (CreateNpy.disk env).
Proof.
  intros Hdir Hsrc Hcreate. unfold CreateNpy.main. by rewrite Hdir, Hsrc, Hcreate.
Qed.

(** C3. The array [np.save] has stored is the array [np.load] gives back, and
    the comparison of the verification (same length, element-wise equal with
    NaN equal to NaN) holds of an array and itself. The verification goes on
    only when the loaded array compares equal, and otherwise stops with
    status 1. So [main], once the array is assembled, exits with 0 or 1, and
    with 0 only when the array read back from the output path compares
    equal to the array in memory; when the array file and the metadata file
    can be written, it exits with 0 exactly then, and with an output name
    ending in [.npy] the array read back is the array in memory and the
    status is 0. *)
Theorem saved_array_is_verified :
  (forall write_error d path a d',
     CreateNpy.np_save write_error d path a = Returned d' ->
     CreateNpy.np_load d' (CreateNpy.npy_path path) = Returned a
     /\ array_equal a a = true)
  /\ (forall a b,
        array_equal a b = true <->
        length a = length b
        /\ forall i x y, a !! i = Some x -> b !! i = Some y -> float_eqb_nan x y = true)
  /\ (forall energies loaded,
        (CreateNpy.verify energies loaded = None
         <-> exists b, loaded = Returned b /\ array_equal energies b = true)
        /\ (CreateNpy.verify energies loaded <> None ->
            CreateNpy.verify energies loaded = Some 1))
  /\ (forall a env csv energies m,
        CreateNpy.isdir env (CreateNpy.calculations_dir a) = true ->
        CreateNpy.data_source a env = Some csv ->
        CreateNpy.create_energies a env csv = Returned (energies, m) ->
        let r := CreateNpy.main a env in
        let verified :=
          exists b, CreateNpy.np_load r.1 (output_path a) = Returned b
                    /\ array_equal energies b = true in
        (r.2 = 0 \/ r.2 = 1)
        /\ (r.2 = 0 -> verified)
        /\ (CreateNpy.write_error env (CreateNpy.npy_path (output_path a)) = None ->
            CreateNpy.write_error env (replace ".npy" "_metadata.txt" (output_path a))
            = None ->
            (r.2 = 0 <-> verified)
            /\ (endswith ".npy" (output_path a) = true ->
                r.2 = 0
                /\ CreateNpy.np_load r.1 (output_path a) = Returned energies))).
Proof.
  split; [|split; [|split]].
  - intros write_error d path a d' Hsave.
    split; [by eapply np_load_np_save | apply array_equal_refl].
  - apply array_equal_spec.
  - intros energies loaded. split; [apply verify_passes | apply verify_fails].
  - intros a env csv energies m Hdir Hsrc Hcreate r verified. subst r verified.
    rewrite (main_saves _ _ _ _ _ Hdir Hsrc Hcreate).
    destruct (save_and_verify_status (CreateNpy.write_error env) (output_path a)
                energies m (CreateNpy.disk env)) as (H1 & H2 & H3).
    split; [exact H1|]. split; [exact H2|].
    intros Hw1 Hw2. split; [split; [exact H2 | by apply H3]|].
    intros Hend. by apply save_and_verify_npy.
Qed.

(** ** The energy type in table mode (C9) *)

(** C9. When [main] reads a table (the table named on the command line or
    the latest found, and it exists), the energy type of the command line
    has no effect: the array and metadata created, the files written and
    the exit status are the same for any two energy types. The energy
    column is the first of [Energy_eV], [Energy_without_entropy_eV],
    [Energy_sigma_0_eV] that the table has. *)
Theorem energy_type_ignored_in_table_mode a env csv t1 t2 :
  CreateNpy.data_source a env = Some csv ->
  CreateNpy.truthy csv = true ->
  CreateNpy.path_exists env (default "" csv) = true ->
  CreateNpy.create_energies (with_energy_type t1 a) env csv
  = CreateNpy.create_energies (with_energy_type t2 a) env csv
  /\ CreateNpy.create_energies (with_energy_type t1 a) env csv
     = CreateNpy.create_energies_array_from_csv
         (CreateNpy.read_csv env) (default "" csv) (CreateNpy.fill_value a)
  /\ CreateNpy.main (with_energy_type t1 a) env
     = CreateNpy.main (with_energy_type t2 a) env
  /\ (forall df,
        CreateNpy.resolve_energy_col df
        = if CreateNpy.has_column df "Energy_eV" then Some "Energy_eV"
          else if CreateNpy.has_column df "Energy_without_entropy_eV"
               then Some "Energy_without_entropy_eV"
               else if CreateNpy.has_column df "Energy_sigma_0_eV"
                    then Some "Energy_sigma_0_eV"
                    else None).
Proof.
  intros Hsrc Htruthy Hexists.
  assert (Hc : forall t, CreateNpy.create_energies (with_energy_type t a) env csv
                         = CreateNpy.create_energies_array_from_csv
                             (CreateNpy.read_csv env) (default "" csv)
                             (CreateNpy.fill_value a)).
  { intros t. unfold CreateNpy.create_energies. by rewrite Htruthy, Hexists. }
  split; [by rewrite !Hc|]. split; [apply Hc|]. split.
  - unfold CreateNpy.main. cbn [CreateNpy.calculations_dir with_energy_type].
    replace (CreateNpy.data_source (with_energy_type t1 a) env)
      with (CreateNpy.data_source a env) by reflexivity.
    replace (CreateNpy.data_source (with_energy_type t2 a) env)
      with (CreateNpy.data_source a env) by reflexivity.
    rewrite Hsrc, !Hc. reflexivity.
  - intros df. reflexivity.
Qed.

(** ** The fields of the log parser *)

Lemma float_Returned g x : float_of_text g = Some x -> float g = Returned x.
Proof. unfold float. by intros ->. Qed.

Lemma float_Raised g : float_of_text g = None -> float g = Raised (value_error g).
Proof. unfold float. by intros ->. Qed.

Lemma converts_Some g : converts (Some g) = true -> exists x, float_of_text g = Some x.
Proof. simpl. intros H. by apply bool_decide_eq_true in H as [x Hx]; exists x. Qed.

Lemma converts_false o : converts o = false -> exists g, o = Some g /\ float_of_text g = None.
Proof.
  destruct o as [g|]; [|done]. simpl. intros H. exists g. split; [done|].
  apply bool_decide_eq_false in H. destruct (float_of_text g); [|done].
  exfalso. apply H. by eexists.
Qed.

Ltac case_converts o :=
  let E := fresh "E" in
  let g := fresh "g" in
  let x := fresh "x" in
  let Hg := fresh "Hg" in
  let Hx := fresh "Hx" in
  destruct (converts o) eqn:E;
  [ destruct o as [g|] eqn:Hg;
    [ destruct (converts_Some g E) as [x Hx] | ]
  | destruct (converts_false o E) as (g & Hg & Hx) ].

(** The parser, field by field: what each field holds in terms of the
    matches of the document. *)
Lemma parsed_fields doc :
  let content := list_ascii_of_string doc in
  let cpu := converts (cpu_reading content) in
  let we := last (findall re_without_entropy content) in
  let sg := last (findall re_sigma_loose content) in
  ExtractEnergies.converged (parsed doc) = contains marker_converged content
  /\ ExtractEnergies.energy_without_entropy (parsed doc)
     = (if cpu then we ≫= float_of_text else None)
  /\ ExtractEnergies.energy_sigma_0 (parsed doc)
     = (if cpu && converts we then sg ≫= float_of_text else None)
  /\ (ExtractEnergies.error (parsed doc) = None
      <-> cpu && converts we && converts sg = true).
Proof.
  intros content cpu we sg. subst cpu we sg.
  unfold parsed, ExtractEnergies.extract_energy_from_outcar,
    ExtractEnergies.parse_content, ExtractEnergies.store_last.
  fold content. unfold cpu_reading.
  destruct (contains marker_converged content);
    destruct (contains (list_ascii_of_string "Total CPU time used") content);
    try (case_converts (search re_cpu_time content); subst;
         rewrite ?Hg, ?(float_Returned _ _ Hx), ?(float_Raised _ Hx); cbn;
         try (repeat split; (done || discriminate)));
    case_converts (last (findall re_without_entropy content)); subst;
    rewrite ?Hg, ?Hg0, ?(float_Returned _ _ Hx), ?(float_Returned _ _ Hx0),
      ?(float_Raised _ Hx), ?(float_Raised _ Hx0); cbn;
    try (repeat split; (done || discriminate));
    case_converts (last (findall re_sigma_loose content)); subst;
    rewrite ?Hg, ?Hg0, ?Hg1, ?(float_Returned _ _ Hx), ?(float_Returned _ _ Hx0),
      ?(float_Returned _ _ Hx1), ?(float_Raised _ Hx), ?(float_Raised _ Hx0),
      ?(float_Raised _ Hx1); cbn;
    rewrite ?Hx, ?Hx0, ?Hx1;
    repeat split; (done || discriminate).
Qed.

(** ** Missing and short documents (C6) *)

(** C6, as the code has it. For a missing document both parsers return no
    energy: the aggregator's parser records [OUTCAR not found] and the run is
    Failed. For a document below 1000 bytes the assembler's parser returns no
    energy. The aggregator's parser has no size threshold: a document, short
    or not, yields an absent primary energy and a Failed run when it holds
    no without-entropy line, and when the parser records no error that is
    the only way the primary energy is absent. The parsers are total
    functions: none of these cases raises. *)
Theorem missing_or_short_document :
  (forall name is_dir,
     let r := ExtractEnergies.process (DirEntry name is_dir None) in
     ExtractEnergies.Energy_without_entropy_eV r = None
     /\ ExtractEnergies.Status r = "Failed"
     /\ ExtractEnergies.Error r = Some "OUTCAR not found")
  /\ (forall energy_type,
        CreateNpy.extract_energy_from_outcar None energy_type = None)
  /\ (forall doc energy_type,
        (String.length doc < 1000)%nat ->
        CreateNpy.extract_energy_from_outcar (Some doc) energy_type = None)
  /\ (forall name is_dir doc,
        findall re_without_entropy (list_ascii_of_string doc) = [] ->
        let r := ExtractEnergies.process (DirEntry name is_dir (Some doc)) in
        ExtractEnergies.Energy_without_entropy_eV r = None
        /\ ExtractEnergies.Status r = "Failed")
  /\ (forall name is_dir doc,
        let r := ExtractEnergies.process (DirEntry name is_dir (Some doc)) in
        ExtractEnergies.Error r = None ->
        ExtractEnergies.Energy_without_entropy_eV r = None ->
        findall re_without_entropy (list_ascii_of_string doc) = []).
Proof.
  split; [|split; [|split; [|split]]].
  - intros name is_dir. by vm_compute.
  - reflexivity.
  - intros doc energy_type Hlen. unfold CreateNpy.extract_energy_from_outcar.
    apply Nat.ltb_lt in Hlen. by rewrite Hlen.
  - intros name is_dir doc Hnone r. subst r. unfold ExtractEnergies.process.
    cbn [d_outcar d_name ExtractEnergies.Energy_without_entropy_eV
         ExtractEnergies.Status].
    destruct (parsed_fields doc) as (_ & Hwe & _). unfold parsed in Hwe.
    rewrite Hwe, Hnone. simpl. by destruct (converts _).
  - intros name is_dir doc r. subst r. unfold ExtractEnergies.process.
    cbn [d_outcar d_name ExtractEnergies.Energy_without_entropy_eV
         ExtractEnergies.Error].
    destruct (parsed_fields doc) as (_ & Hwe & _ & Herr). unfold parsed in Hwe, Herr.
    intros Hnone Habsent. apply Herr in Hnone.
    apply andb_true_iff in Hnone as [Hnone _].
    apply andb_true_iff in Hnone as [Hcpu Hcwe].
    rewrite Hwe, Hcpu in Habsent.
    destruct (last (findall re_without_entropy (list_ascii_of_string doc)))
      as [g|] eqn:El.
    + destruct (converts_Some g Hcwe) as [x Hx]. simpl in Habsent. congruence.
    + by apply last_None in El.
Qed.

(** ** Runs of characters and the number patterns *)

Lemma take_drop_while p s : take_while p s ++ drop_while p s = s.
Proof. induction s as [|c s IH]; simpl; [done|]. destruct (p c); simpl; by rewrite ?IH. Qed.

Lemma take_while_all p s : forallb p (take_while p s) = true.
Proof. induction s as [|c s IH]; simpl; [done|]. destruct (p c) eqn:E; simpl; by rewrite ?E. Qed.

Lemma drop_while_head p s c r : drop_while p s = c :: r -> p c = false.
Proof.
  induction s as [|c' s IH]; simpl; [done|].
  destruct (p c') eqn:E; [done|]. by intros [= <- _].
Qed.

Lemma while_app_stop p l c r :
  forallb p l = true -> p c = false ->
  take_while p (l ++ c :: r) = l /\ drop_while p (l ++ c :: r) = c :: r.
Proof.
  intros Hl Hc. induction l as [|d l IH]; simpl in *.
  - by rewrite Hc.
  - apply andb_true_iff in Hl as [Hd Hl]. rewrite Hd.
    destruct (IH Hl) as [-> ->]. done.
Qed.

Lemma while_all p l :
  forallb p l = true -> take_while p l = l /\ drop_while p l = [].
Proof.
  intros Hl. induction l as [|d l IH]; simpl in *; [done|].
  apply andb_true_iff in Hl as [Hd Hl]. rewrite Hd.
  destruct (IH Hl) as [-> ->]. done.
Qed.

Lemma digit_not_sign d :
  is_digit d = true -> is_char "-" d = false /\ is_char "+" d = false.
Proof.
  intros Hd. unfold is_char. split.
  - destruct (Ascii.eqb "-" d) eqn:E; [|done]. apply Ascii.eqb_eq in E. by subst d.
  - destruct (Ascii.eqb "+" d) eqn:E; [|done]. apply Ascii.eqb_eq in E. by subst d.
Qed.

Lemma signed_decimal_shape s g rest :
  signed_decimal s = Some (g, rest) -> plain_decimal g.
Proof.
  unfold signed_decimal.
  set (split := match s with
                | c :: r => if is_char "-" c || is_char "+" c then ([c], r) else ([], s)
                | [] => ([], [])
                end).
  assert (Hsg : split.1 = [] \/ split.1 = ["-"%char] \/ split.1 = ["+"%char]).
  { subst split. destruct s as [|c r]; [by left|]. unfold is_char.
    destruct (Ascii.eqb "-" c) eqn:E1.
    - apply Ascii.eqb_eq in E1 as <-. right. by left.
    - destruct (Ascii.eqb "+" c) eqn:E2; [|by left].
      apply Ascii.eqb_eq in E2 as <-. right. by right. }
  destruct split as [sg body]. simpl in Hsg.
  destruct (take_while is_digit body) as [|d ip] eqn:Eip; [done|].
  destruct (drop_while is_digit body) as [|c r] eqn:Er; [done|].
  destruct (is_char "." c) eqn:Ec; [|done].
  apply Ascii.eqb_eq in Ec as <-.
  destruct (take_while is_digit r) as [|fd fp] eqn:Efp; [done|].
  intros [= <- <-].
  exists sg, d, ip, fd, fp. split; [done|]. split; [done|]. split.
  - rewrite <- Eip. apply take_while_all.
  - rewrite <- Efp. apply take_while_all.
Qed.

Lemma plain_decimal_converts g : plain_decimal g -> is_Some (float_of_text g).
Proof.
  intros (sg & d & ip & fd & fp & -> & Hsg & Hip & Hfp).
  assert (Hsplit : exists sgn, split_sign (sg ++ (d :: ip) ++ "."%char :: fd :: fp)
                               = (sgn, (d :: ip) ++ "."%char :: fd :: fp)).
  { destruct Hsg as [->|[->| ->]]; [|by exists (-1)|by exists 1].
    exists 1. simpl in Hip. apply andb_true_iff in Hip as [Hd _].
    destruct (digit_not_sign d Hd) as [H1 H2].
    unfold split_sign. cbn [app]. by rewrite H1, H2. }
  destruct Hsplit as [sgn Hsplit].
  unfold float_of_text. rewrite Hsplit.
  destruct (while_app_stop is_digit (d :: ip) "."%char (fd :: fp) Hip eq_refl)
    as [-> ->].
  cbn [is_char Ascii.eqb]. change (Ascii.eqb "." ".") with true. cbv iota.
  destruct (while_all is_digit (fd :: fp) Hfp) as [-> ->].
  simpl. by eexists.
Qed.

Lemma findall_from_groups (m : matcher) s k g :
  g ∈ findall_from m s k -> exists t r, m t = Some (g, r).
Proof.
  revert k. induction s as [|c s IH]; intros k; simpl; [by intros H; inversion H|].
  destruct k as [|k]; [|apply IH].
  destruct (m (c :: s)) as [[g' r]|] eqn:E; [|apply IH].
  intros H. apply elem_of_cons in H as [->|H]; [by exists (c :: s), r|by eapply IH].
Qed.

Lemma last_elem_of {A} (l : list A) x : last l = Some x -> x ∈ l.
Proof.
  intros H. apply last_Some in H as [l' ->]. apply elem_of_app. right.
  apply list_elem_of_here.
Qed.

Lemma strict_match_converts (m : matcher) content g :
  (forall t g r, m t = Some (g, r) -> plain_decimal g) ->
  last (findall m content) = Some g ->
  exists x, float_of_text g = Some x.
Proof.
  intros Hm Hlast. apply last_elem_of, findall_from_groups in Hlast as (t & r & Ht).
  by apply plain_decimal_converts, (Hm t g r).
Qed.

Lemma re_sigma_strict_shape t g r : re_sigma_strict t = Some (g, r) -> plain_decimal g.
Proof.
  unfold re_sigma_strict. destruct (label_eq _ t) as [r0|]; simpl; [|done].
  apply signed_decimal_shape.
Qed.

Lemma re_toten_shape t g r : re_toten t = Some (g, r) -> plain_decimal g.
Proof.
  unfold re_toten. intros H.
  apply bind_Some in H as (r0 & _ & H).
  apply bind_Some in H as ([g' r1] & Hsd & H).
  apply bind_Some in H as (r2 & _ & [= <- _]).
  by eapply signed_decimal_shape.
Qed.

(** ** The last match (C2) *)

(** C2, as the code has it. In the aggregator's parser a field whose pattern
    has no match is absent; and when the parser records no error, each
    energy field is the float of the last match of its pattern in document
    order, present whenever the pattern has a match. In the assembler's
    parser, for a converged document of at least 1000 bytes and energy type
    [sigma0], the result is the float of the last match of the sigma->0
    pattern when it has one, else the float of the last match of the
    free-energy pattern; it is absent when neither pattern has a match. *)
Theorem last_match_is_canonical :
  (forall doc,
     let content := list_ascii_of_string doc in
     let we := findall re_without_entropy content in
     let sg := findall re_sigma_loose content in
     (we = [] -> ExtractEnergies.energy_without_entropy (parsed doc) = None)
     /\ (sg = [] -> ExtractEnergies.energy_sigma_0 (parsed doc) = None)
     /\ (ExtractEnergies.error (parsed doc) = None ->
         ExtractEnergies.energy_without_entropy (parsed doc) = last we ≫= float_of_text
         /\ ExtractEnergies.energy_sigma_0 (parsed doc) = last sg ≫= float_of_text
         /\ (we <> [] -> is_Some (ExtractEnergies.energy_without_entropy (parsed doc)))
         /\ (sg <> [] -> is_Some (ExtractEnergies.energy_sigma_0 (parsed doc)))))
  /\ (forall doc g,
        let content := list_ascii_of_string doc in
        (1000 <= String.length doc)%nat ->
        contains marker_converged content = true ->
        last (findall re_sigma_strict content) = Some g ->
        exists x, float_of_text g = Some x
                  /\ CreateNpy.extract_energy_from_outcar (Some doc) "sigma0" = Some x)
  /\ (forall doc g,
        let content := list_ascii_of_string doc in
        (1000 <= String.length doc)%nat ->
        contains marker_converged content = true ->
        findall re_sigma_strict content = [] ->
        last (findall re_toten content) = Some g ->
        exists x, float_of_text g = Some x
                  /\ CreateNpy.extract_energy_from_outcar (Some doc) "sigma0" = Some x)
  /\ (forall doc energy_type,
        let content := list_ascii_of_string doc in
        findall re_sigma_strict content = [] ->
        findall re_toten content = [] ->
        CreateNpy.extract_energy_from_outcar (Some doc) energy_type = None).
Proof.
  split; [|split; [|split]].
  - intros doc content we sg.
    destruct (parsed_fields doc) as (_ & Hwe & Hsg & Herr).
    fold content in Hwe, Hsg, Herr. fold we in Hwe, Hsg, Herr. fold sg in Hsg, Herr.
    split; [|split].
    + intros E. rewrite Hwe, E. by destruct (converts _).
    + intros E. rewrite Hsg, E. by destruct (_ && _).
    + intros Hnone. apply Herr in Hnone.
      apply andb_true_iff in Hnone as [Hnone Hcsg].
      apply andb_true_iff in Hnone as [Hcpu Hcwe].
      rewrite Hwe, Hsg, Hcpu, Hcwe. simpl.
      split; [done|]. split; [done|]. split.
      * intros Hne. destruct (last we) as [g|] eqn:El.
        -- destruct (converts_Some g Hcwe) as [x Hx]. simpl. rewrite Hx. by eexists.
        -- apply last_None in El. done.
      * intros Hne. destruct (last sg) as [g|] eqn:El.
        -- destruct (converts_Some g Hcsg) as [x Hx]. simpl. rewrite Hx. by eexists.
        -- apply last_None in El. done.
  - intros doc g content Hlen Hconv Hlast.
    destruct (strict_match_converts re_sigma_strict content g
                re_sigma_strict_shape Hlast) as [x Hx].
    exists x. split; [done|].
    unfold CreateNpy.extract_energy_from_outcar, CreateNpy.last_float.
    replace (String.length doc <? 1000)%nat with false
      by (symmetry; apply Nat.ltb_ge; lia).
    fold content. rewrite Hconv. simpl. rewrite Hlast. simpl.
    by rewrite (float_Returned _ _ Hx).
  - intros doc g content Hlen Hconv Hnone Hlast.
    destruct (strict_match_converts re_toten content g re_toten_shape Hlast)
      as [x Hx].
    exists x. split; [done|].
    unfold CreateNpy.extract_energy_from_outcar, CreateNpy.last_float.
    replace (String.length doc <? 1000)%nat with false
      by (symmetry; apply Nat.ltb_ge; lia).
    fold content. rewrite Hconv, Hnone. simpl. rewrite Hlast. simpl.
    by rewrite (float_Returned _ _ Hx).
  - intros doc energy_type content Hs Ht.
    unfold CreateNpy.extract_energy_from_outcar, CreateNpy.last_float.
    fold content. rewrite Hs, Ht.
    destruct (String.length doc <? 1000)%nat; [done|].
    destruct (negb _); [done|].
    by destruct (String.eqb energy_type "sigma0").
Qed.

(** ** Direct extraction and the aggregator (C4) *)

Lemma findall_from_agree (m1 m2 : matcher) s k :
  Forall (fun t => m1 t = m2 t) (tails s) ->
  findall_from m1 s k = findall_from m2 s k.
Proof.
  revert k. induction s as [|c s IH]; intros k H; [done|].
  simpl in H. inversion H as [|? ? Hhead Htail]; subst.
  simpl. destruct k as [|k]; [|by apply IH].
  rewrite Hhead. destruct (m2 (c :: s)) as [[g r]|]; [f_equal|]; by apply IH.
Qed.

(** C4, as the code has it. Direct extraction derives the identifier of a
    run as the aggregator does and passes over a run without identifier. Its
    energy is the one of its own, stricter parser, which yields an energy
    only for a document of at least 1000 bytes that holds the convergence
    marker. For such a document on which the sigma->0 patterns of the two
    parsers capture the same text at every position, and for energy type
    [sigma0], it is the sigma->0 energy the aggregator records for that
    run, whenever the aggregator records one. *)
Theorem direct_extraction_refines_aggregator :
  (forall d energy_type,
     CreateNpy.collect_calc_data [d] energy_type
     = match ExtractEnergies.Index (ExtractEnergies.process d) with
       | Some i => [(i, CreateNpy.extract_energy_from_outcar (d_outcar d) energy_type)]
       | None => []
       end)
  /\ (forall outcar energy_type x,
        CreateNpy.extract_energy_from_outcar outcar energy_type = Some x ->
        exists doc,
          outcar = Some doc
          /\ (1000 <= String.length doc)%nat
          /\ contains marker_converged (list_ascii_of_string doc) = true)
  /\ (forall name is_dir doc x,
        let d := DirEntry name is_dir (Some doc) in
        (1000 <= String.length doc)%nat ->
        contains marker_converged (list_ascii_of_string doc) = true ->
        sigma_patterns_agree (list_ascii_of_string doc) ->
        ExtractEnergies.Energy_sigma_0_eV (ExtractEnergies.process d) = Some x ->
        CreateNpy.extract_energy_from_outcar (d_outcar d) "sigma0" = Some x).
Proof.
  split; [|split].
  - intros d energy_type. unfold CreateNpy.collect_calc_data, ExtractEnergies.process.
    cbn [ExtractEnergies.Index omap list_omap].
    by destruct (calc_index_of (d_name d)).
  - intros [doc|] energy_type x; [|done].
    unfold CreateNpy.extract_energy_from_outcar.
    destruct (String.length doc <? 1000)%nat eqn:Elen; [done|].
    destruct (contains marker_converged (list_ascii_of_string doc)) eqn:Econv;
      [|done].
    intros _. exists doc. split; [done|]. split; [|done].
    apply Nat.ltb_ge in Elen. lia.
  - intros name is_dir doc x d Hlen Hconv Hagree Hsg. subst d.
    unfold ExtractEnergies.process in Hsg.
    cbn [d_outcar ExtractEnergies.Energy_sigma_0_eV] in Hsg |- *.
    destruct (parsed_fields doc) as (_ & _ & Hfield & _). unfold parsed in Hfield.
    rewrite Hfield in Hsg.
    destruct (_ && _) in Hsg; [|done].
    apply bind_Some in Hsg as (g & Hlast & Hx).
    unfold findall in Hlast. rewrite (findall_from_agree _ _ _ _ Hagree) in Hlast.
    unfold CreateNpy.extract_energy_from_outcar, CreateNpy.last_float.
    replace (String.length doc <? 1000)%nat with false
      by (symmetry; apply Nat.ltb_ge; lia).
    rewrite Hconv. simpl. unfold findall. rewrite Hlast. simpl.
    by rewrite (float_Returned _ _ Hx).
Qed.

(** * Further properties of the two scripts *)

(** ** Sorted output *)

Lemma insert_sorted_Sorted {A} (leb : A -> A -> bool) x l :
  (forall a b, leb a b = true \/ leb b a = true) ->
  Sorted (fun a b => leb a b = true) l ->
  Sorted (fun a b => leb a b = true) (insert_sorted leb x l).
Proof.
  intros Htotal. induction 1 as [|y l Hs IH Hhd]; simpl.
  - repeat constructor.
  - destruct (leb x y) eqn:E.
    + constructor; [by constructor|]. by constructor.
    + constructor; [exact IH|].
      destruct l as [|z l]; simpl.
      * constructor. destruct (Htotal x y); congruence.
      * destruct (leb x z); constructor.
        -- destruct (Htotal x y); congruence.
        -- by inversion Hhd.
Qed.

Lemma stable_sort_Sorted {A} (leb : A -> A -> bool) l :
  (forall a b, leb a b = true \/ leb b a = true) ->
  Sorted (fun a b => leb a b = true) (stable_sort leb l).
Proof.
  intros Htotal. induction l as [|x l IH]; simpl; [constructor|].
  by apply insert_sorted_Sorted.
Qed.

Lemma process_Calculation d :
  ExtractEnergies.Calculation (ExtractEnergies.process d) = d_name d.
Proof. reflexivity. Qed.

(** The rows of the aggregator's table are the run directories, each once,
    in ascending order of their names. *)
Theorem table_rows_sorted_by_name base_dir :
  let names :=
    List.map ExtractEnergies.Calculation (ExtractEnergies.df_rows (table_of base_dir)) in
  Sorted (fun a b => String.leb a b = true) names
  /\ names ≡ₚ List.map d_name (List.filter is_calc_dir base_dir).
Proof.
  unfold table_of, ExtractEnergies.DataFrame_of; simpl.
  rewrite List.map_map.
  rewrite (List.map_ext _ d_name process_Calculation).
  split.
  - pose proof (stable_sort_Sorted name_leb (List.filter is_calc_dir base_dir))
      as Hs.
    unfold ExtractEnergies.find_calc_dirs.
    specialize (Hs (fun a b => String.leb_total (d_name a) (d_name b))).
    induction Hs as [|d l Hs IH Hhd]; simpl; constructor; [exact IH|].
    destruct Hhd; simpl; constructor. assumption.
  - apply Permutation_map, find_calc_dirs_Permutation.
Qed.

(** ** The latest table *)

Lemma sorted_head_bounds {A} (R : A -> A -> Prop) x l :
  (forall a b c, R a b -> R b c -> R a c) ->
  Sorted R (x :: l) -> Forall (R x) l.
Proof.
  intros Htrans Hs.
  apply Sorted_StronglySorted in Hs; [|exact Htrans].
  by apply StronglySorted_inv in Hs as [_ ?].
Qed.

Lemma elem_of_glob wild directory pattern files p t :
  has_magic directory = false ->
  (p, t) ∈ glob wild directory pattern files
  <-> exists f, f ∈ files
                /\ p = path_join (glob_dirname directory) (f_name f)
                /\ t = f_mtime f
                /\ startswith "." (f_name f) = false
                /\ fnmatch (list_ascii_of_string pattern)
                           (list_ascii_of_string (f_name f)) = true.
Proof.
  intros Hplain. unfold glob. rewrite Hplain. split.
  - intros H.
    apply list_elem_of_In, in_map_iff in H as (f & [= <- <-] & Hf).
    apply filter_In in Hf as [Hf Hcond]. apply andb_true_iff in Hcond as [Hv Hm].
    exists f. repeat split; try done.
    + by apply list_elem_of_In.
    + by apply negb_true_iff.
  - intros (f & Hf & -> & -> & Hv & Hm).
    apply list_elem_of_In, in_map_iff. exists f. split; [done|].
    apply filter_In. split; [by apply list_elem_of_In|].
    by rewrite Hv, Hm.
Qed.

(** The candidates of [find_latest_csv] are the entries with the name of an
    energy table. *)
Lemma elem_of_candidates wild directory files p t :
  has_magic directory = false ->
  (p, t) ∈ concat (List.map (fun pattern => glob wild directory pattern files)
                            CreateNpy.csv_patterns)
  <-> exists f, f ∈ files /\ energy_table_name f
                /\ p = path_join (glob_dirname directory) (f_name f)
                /\ t = f_mtime f.
Proof.
  intros Hplain. split.
  - intros Hin.
    apply list_elem_of_In, in_concat in Hin as (g & Hg & Hin).
    apply in_map_iff in Hg as (pattern & <- & Hpat).
    apply list_elem_of_In, elem_of_glob in Hin as (f & Hf & -> & -> & Hv & Hm);
      [|done].
    exists f. repeat split; try done. exists pattern.
    split; [by apply list_elem_of_In|done].
  - intros (f & Hf & [Hv (pattern & Hpat & Hm)] & -> & ->).
    apply list_elem_of_In, in_concat.
    exists (glob wild directory pattern files). split.
    + apply in_map_iff. exists pattern. split; [done|]. by apply list_elem_of_In.
    + apply list_elem_of_In, elem_of_glob; [done|]. by exists f.
Qed.

(** For a directory whose name holds no wildcard character,
    [find_latest_csv] finds nothing exactly when no entry of the directory
    has the name of an energy table (a name that does not start with a dot
    and matches one of the three patterns). What it finds is the path of
    such an entry, and no such entry is more recent. *)
Theorem latest_csv_is_most_recent wild directory files :
  has_magic directory = false ->
  (CreateNpy.find_latest_csv wild directory files = None
   <-> forall f, f ∈ files -> ~ energy_table_name f)
  /\ (forall p,
        CreateNpy.find_latest_csv wild directory files = Some p ->
        exists f,
          f ∈ files /\ energy_table_name f
          /\ p = path_join (glob_dirname directory) (f_name f)
          /\ forall f', f' ∈ files -> energy_table_name f' ->
                        f_mtime f' <= f_mtime f).
Proof.
  intros Hplain. unfold CreateNpy.find_latest_csv.
  set (cands := concat _).
  assert (Hcands : forall p t,
            (p, t) ∈ cands
            <-> exists f, f ∈ files /\ energy_table_name f
                          /\ p = path_join (glob_dirname directory) (f_name f)
                          /\ t = f_mtime f)
    by (intros p t; by apply elem_of_candidates).
  set (leb := fun a b : string * Z => b.2 <=? a.2).
  pose proof (stable_sort_Permutation leb cands) as Hperm.
  assert (Hsorted : Sorted (fun a b => leb a b = true) (stable_sort leb cands)).
  { apply stable_sort_Sorted. intros a b. unfold leb.
    destruct (Z.le_ge_cases a.2 b.2); [right|left]; by apply Z.leb_le. }
  destruct (stable_sort leb cands) as [|[p0 t0] rest] eqn:Es; simpl.
  - apply Permutation_nil_l in Hperm. split; [|done]. split; [|done].
    intros _ f Hf Hname.
    assert (Hin : (path_join (glob_dirname directory) (f_name f), f_mtime f) ∈ cands)
      by (apply Hcands; by exists f).
    rewrite <- Hperm in Hin. by apply elem_of_nil in Hin.
  - assert (Hin : (p0, t0) ∈ cands) by (rewrite <- Hperm; apply list_elem_of_here).
    apply Hcands in Hin as (f & Hf & Hname & -> & ->).
    split.
    + split; [done|]. intros Hnone. by destruct (Hnone f Hf).
    + intros p [= <-]. exists f. repeat split; try done; try apply Hname.
      intros f' Hf' Hname'.
      assert (Hq : (path_join (glob_dirname directory) (f_name f'), f_mtime f') ∈ cands)
        by (apply Hcands; by exists f').
      rewrite <- Hperm in Hq.
      apply elem_of_cons in Hq as [[= _ ->]|Hq]; [lia|].
      apply sorted_head_bounds in Hsorted.
      * rewrite Forall_forall in Hsorted. specialize (Hsorted _ Hq).
        unfold leb in Hsorted. simpl in Hsorted. by apply Z.leb_le.
      * intros a b c. unfold leb. rewrite !Z.leb_le. lia.
Qed.

(** ** Table mode without identifiers, and its failures *)

(** When the table has no [Index] column, or no row has an identifier, the
    array follows the rows in their order: one position per row, holding
    the energy of the row, or the fill value where the energy is missing.
    That is for a table with at least one row: a table with a header and no
    row is a failure, the [TypeError] of [np.isnan] on its empty column. *)
Theorem row_order_without_identifiers read_csv csv_file df fill col :
  read_csv csv_file = Returned df ->
  CreateNpy.resolve_energy_col df = Some col ->
  CreateNpy.has_column df "Index" = false
  \/ omap CreateNpy.Index (CreateNpy.rows df) = [] ->
  (CreateNpy.rows df <> [] ->
   exists energies m,
     CreateNpy.create_energies_array_from_csv read_csv csv_file fill
     = Returned (energies, m)
     /\ length energies = length (CreateNpy.rows df)
     /\ forall k r,
          CreateNpy.rows df !! k = Some r ->
          energies !! k
          = Some (if is_nan (CreateNpy.cell r col) then fill else CreateNpy.cell r col))
  /\ (CreateNpy.rows df = [] ->
      CreateNpy.create_energies_array_from_csv read_csv csv_file fill
      = Raised (CreateNpy.csv_failure csv_file CreateNpy.isnan_type_error)).
Proof.
  intros Hread Hcol Hno.
  assert (Hbody : CreateNpy.energies_of_frame df fill
                  = match CreateNpy.rows df with
                    | [] => Raised CreateNpy.isnan_type_error
                    | _ :: _ =>
                        Returned (List.map (fun r => CreateNpy.fillna fill
                                                       (CreateNpy.cell r col))
                                           (CreateNpy.rows df))
                    end).
  { unfold CreateNpy.energies_of_frame. rewrite Hcol.
    destruct Hno as [-> | ->]; [reflexivity|]. by rewrite andb_false_r. }
  unfold CreateNpy.create_energies_array_from_csv. rewrite Hread. simpl.
  rewrite Hbody. split.
  - intros Hrows. destruct (CreateNpy.rows df) as [|r0 rows] eqn:Erows; [done|].
    simpl. eexists _, _. split; [reflexivity|]. split.
    + simpl. by rewrite length_map.
    + intros k r Hk.
      change (?x :: List.map ?f ?l) with (f <$> (r0 :: l)).
      rewrite list_lookup_fmap, Hk. reflexivity.
  - by intros ->.
Qed.

(** Whatever goes wrong while a table is processed, the reading, a missing
    energy column, a negative array size or an identifier out of range,
    reaches the caller as one [Exception] whose message names the table and
    carries the message of the cause; a table without energy column is such
    a failure. In [main] every failure to create the array ends the process
    with status 1 and leaves the disk as it was. *)
Theorem table_failures_are_wrapped :
  (forall read_csv csv_file fill e,
     CreateNpy.create_energies_array_from_csv read_csv csv_file fill = Raised e ->
     exn_class e = "Exception"
     /\ exists cause,
          exn_msg e
          = "Failed to process CSV file " +:+ csv_file +:+ ": " +:+ exn_msg cause)
  /\ (forall read_csv csv_file df fill,
        read_csv csv_file = Returned df ->
        CreateNpy.resolve_energy_col df = None ->
        CreateNpy.create_energies_array_from_csv read_csv csv_file fill
        = Raised (CreateNpy.csv_failure csv_file CreateNpy.no_energy_column))
  /\ (forall a env csv e,
        CreateNpy.data_source a env = Some csv ->
        CreateNpy.create_energies a env csv = Raised e ->
        CreateNpy.main a env = (CreateNpy.disk env, 1)).
Proof.
  split; [|split].
  - intros read_csv csv_file fill e.
    unfold CreateNpy.create_energies_array_from_csv.
    destruct (bind _ _) as [r|cause]; [done|].
    intros [= <-]. split; [done|]. by exists cause.
  - intros read_csv csv_file df fill Hread Hcol.
    unfold CreateNpy.create_energies_array_from_csv, CreateNpy.energies_of_frame.
    rewrite Hread. simpl. by rewrite Hcol.
  - intros a env csv e Hsrc Hraise. unfold CreateNpy.main.
    destruct (negb _); [done|]. by rewrite Hsrc, Hraise.
Qed.

(** ** The counts of the metadata *)

Lemma float_of_text_not_nan g x : float_of_text g = Some x -> is_nan x = false.
Proof.
  unfold float_of_text. destruct (split_sign g) as [sgn body].
  destruct (match drop_while is_digit body with
            | [] => _ | _ :: _ => _ end) as [fp r2].
  destruct r2; [|done]. destruct (_ ++ _); [done|]. by intros [= <-].
Qed.

Lemma float_not_nan g x : float g = Returned x -> is_nan x = false.
Proof.
  unfold float. destruct (float_of_text g) eqn:E; [|done].
  intros [= <-]. by eapply float_of_text_not_nan.
Qed.

Lemma extracted_energy_not_nan outcar energy_type x :
  CreateNpy.extract_energy_from_outcar outcar energy_type = Some x ->
  is_nan x = false.
Proof.
  unfold CreateNpy.extract_energy_from_outcar, CreateNpy.last_float.
  destruct outcar as [doc|]; [|done].
  destruct (_ <? _)%nat; [done|]. destruct (negb _); [done|].
  destruct (if String.eqb energy_type "sigma0" then _ else _) as [[y|e]|] eqn:Es.
  - intros [= <-]. destruct (String.eqb energy_type "sigma0"); [|done].
    destruct (last _) as [g|]; [|done]. simpl in Es. injection Es as Es.
    by eapply float_not_nan.
  - done.
  - destruct (last (findall re_toten _)) as [g|]; [|done]. simpl.
    destruct (float g) as [y|e] eqn:Ef; [|done].
    intros [= <-]. by eapply float_not_nan.
Qed.

Lemma not_nan_part_all (a : list pyfloat) :
  Forall (fun x => is_nan x = false) a -> not_nan_part a = a.
Proof.
  induction 1 as [|x a Hx _ IH]; simpl; [done|].
  unfold not_nan_part in *. simpl. rewrite Hx. simpl. by rewrite IH.
Qed.

Lemma setitem_not_nan (a a' : list pyfloat) idx x :
  Forall (fun y => is_nan y = false) a -> is_nan x = false ->
  setitem a idx x = Returned a' ->
  Forall (fun y => is_nan y = false) a'.
Proof.
  intros Ha Hx. unfold setitem.
  destruct (_ && _); [intros [= <-]; by apply Forall_insert|].
  destruct (_ && _); [intros [= <-]; by apply Forall_insert|done].
Qed.

Lemma fill_rows_not_nan col l (a a' : list pyfloat) :
  Forall (fun y => is_nan y = false) a ->
  CreateNpy.fill_rows col l a = Returned a' ->
  Forall (fun y => is_nan y = false) a'.
Proof.
  revert a. induction l as [|r l IH]; intros a Ha; simpl; [by intros [= <-]|].
  destruct (CreateNpy.Index r) as [i|]; [|by apply IH].
  destruct (is_nan (CreateNpy.cell r col)) eqn:En; simpl; [by apply IH|].
  destruct (setitem a i (CreateNpy.cell r col)) as [a1|e] eqn:Es; simpl; [|done].
  apply IH. by eapply setitem_not_nan.
Qed.

Lemma energies_of_frame_not_nan df fill energies :
  is_nan fill = false ->
  CreateNpy.energies_of_frame df fill = Returned energies ->
  Forall (fun y => is_nan y = false) energies.
Proof.
  intros Hfill. unfold CreateNpy.energies_of_frame.
  destruct (CreateNpy.resolve_energy_col df) as [col|]; [|done].
  destruct (_ && _).
  - destruct (CreateNpy.max_of _) as [mx|]; [|by intros [= <-]].
    unfold np_full. destruct (mx + 1 <? 0); [done|].
    destruct (allocation_error (mx + 1)); [done|]. simpl.
    apply fill_rows_not_nan. by apply Forall_replicate.
  - destruct (CreateNpy.rows df) as [|r0 rows] eqn:Erows; [done|].
    rewrite <- Erows. intros [= <-]. apply Forall_forall. intros x Hx.
    apply list_elem_of_In, in_map_iff in Hx as (r & <- & _).
    unfold CreateNpy.fillna. by destruct (is_nan (CreateNpy.cell r col)) eqn:E.
Qed.

(** With a fill value that is not NaN, table mode tells no failure from a
    success: every position of the array counts as a successful extraction,
    the number of failed extractions is 0, and the statistics are taken
    over the whole array, fill values included. *)
Theorem non_nan_fill_hides_failures read_csv csv_file fill energies m :
  is_nan fill = false ->
  CreateNpy.create_energies_array_from_csv read_csv csv_file fill
  = Returned (energies, m) ->
  CreateNpy.valid_energies m = energies
  /\ CreateNpy.total_calculations m = length energies
  /\ CreateNpy.successful_extractions m = length energies
  /\ CreateNpy.failed_extractions m = 0.
Proof.
  intros Hfill. unfold CreateNpy.create_energies_array_from_csv.
  destruct (read_csv csv_file) as [df|e]; simpl; [|done].
  destruct (CreateNpy.energies_of_frame df fill) as [a|e] eqn:Ea; simpl; [|done].
  intros [= <- <-]. simpl.
  rewrite (not_nan_part_all a) by (by eapply energies_of_frame_not_nan).
  repeat split. lia.
Qed.

Lemma present_count_cons p data :
  present_count (p :: data)
  = ((if bool_decide (is_Some p.2) then 1 else 0) + present_count data)%nat.
Proof. unfold present_count. simpl. by destruct (bool_decide _). Qed.

Lemma present_count_Permutation data data' :
  data ≡ₚ data' -> present_count data = present_count data'.
Proof.
  unfold present_count. induction 1 as [|p l l' _ IH|p q l|l l' l'' _ IH1 _ IH2];
    simpl; try done.
  - destruct (bool_decide _); simpl; by rewrite IH.
  - by destruct (bool_decide (is_Some p.2)), (bool_decide (is_Some q.2)).
  - by rewrite IH1.
Qed.

Lemma fill_data_counter data (a : list pyfloat) k a' k' :
  CreateNpy.fill_data data a k = Returned (a', k') ->
  k' = (k + present_count data)%nat.
Proof.
  revert a k. induction data as [|[i [e|]] data IH]; intros a k; simpl.
  - intros [= _ <-]. unfold present_count. simpl. lia.
  - destruct (setitem a i e) as [a1|err]; simpl; [|done].
    intros H. apply IH in H. rewrite present_count_cons. simpl.
    lia.
  - intros H. apply IH in H. rewrite present_count_cons. simpl.
    lia.
Qed.

Lemma not_nan_count_insert (a : list pyfloat) n e :
  a !! n = Some NaN -> is_nan e = false ->
  length (not_nan_part (<[n := e]> a)) = S (length (not_nan_part a)).
Proof.
  revert n. induction a as [|x a IH]; intros [|n] Hn He; simpl in *; try done.
  - injection Hn as ->. unfold not_nan_part. simpl. by rewrite He.
  - unfold not_nan_part in *. simpl. destruct (negb (is_nan x)); simpl;
      by rewrite (IH n Hn He).
Qed.

Lemma not_nan_part_replicate n : not_nan_part (replicate n NaN) = [].
Proof. induction n as [|n IH]; [done|]. unfold not_nan_part in *. simpl. exact IH. Qed.

(** Each pair with an energy turns one NaN position into a number. *)
Lemma fill_data_not_nan_count data (a : list pyfloat) k a' k' :
  Forall (in_range (length a)) data ->
  NoDup data.*1 ->
  (forall i e, (i, Some e) ∈ data ->
               is_nan e = false /\ a !! Z.to_nat i = Some NaN) ->
  CreateNpy.fill_data data a k = Returned (a', k') ->
  length (not_nan_part a') = (length (not_nan_part a) + present_count data)%nat.
Proof.
  revert a k. induction data as [|[i oe] data IH]; intros a k Hr Hnd Hnan; simpl.
  - intros [= <- _]. unfold present_count. simpl. lia.
  - inversion Hr as [|? ? Hi Hr']; subst.
    apply NoDup_cons in Hnd as [Hfresh Hnd].
    rewrite present_count_cons. destruct oe as [e|]; simpl.
    + destruct (Hnan i e) as [He Hpos]; [apply list_elem_of_here|].
      rewrite setitem_in_range by exact Hi. simpl. intros H.
      apply IH in H.
      * rewrite H, (not_nan_count_insert a _ e Hpos He). lia.
      * by rewrite length_insert.
      * exact Hnd.
      * intros j e' Hj. destruct (Hnan j e') as [He' Hpos'];
          [by apply list_elem_of_further|].
        split; [done|]. rewrite list_lookup_insert_ne; [done|].
        intros Heq. apply Hfresh.
        assert (Hjr : in_range (length a) (j, Some e'))
          by (rewrite Forall_forall in Hr'; by apply Hr').
        unfold in_range in Hi, Hjr; simpl in Hi, Hjr.
        assert (i = j) as -> by lia.
        by apply (list_elem_of_fmap_2 fst) in Hj.
    + intros H. apply IH in H.
      * rewrite H. lia.
      * exact Hr'.
      * exact Hnd.
      * intros j e' Hj. apply Hnan. by apply list_elem_of_further.
Qed.

(** What [create_energies_array_direct] returns, in terms of its loop. *)
Lemma direct_result listing energy_type fill energies m :
  CreateNpy.create_energies_array_direct listing energy_type fill
  = Returned (energies, m) ->
  let sorted := stable_sort (fun a b : Z * option pyfloat => a.1 <=? b.1)
                            (direct_data listing energy_type) in
  exists k,
    m = CreateNpy.Metadata (length energies) k
          (Z.of_nat (length energies) - Z.of_nat k)
          (not_nan_part energies) "direct_extraction"
    /\ ((sorted = [] /\ energies = [] /\ k = 0%nat)
        \/ exists mx,
             CreateNpy.max_of sorted.*1 = Some mx /\ 0 <= mx + 1
             /\ CreateNpy.fill_data sorted (replicate (Z.to_nat (mx + 1)) fill) 0
                = Returned (energies, k)).
Proof.
  unfold CreateNpy.create_energies_array_direct, direct_data.
  destruct (List.filter is_calc_dir listing) as [|d ds] eqn:Edirs; [done|].
  set (sorted := stable_sort _ _).
  destruct (CreateNpy.max_of sorted.*1) as [mx|] eqn:Emax.
  - unfold np_full. destruct (mx + 1 <? 0) eqn:Eneg; [done|].
    destruct (allocation_error (mx + 1)); [done|]. simpl.
    destruct (CreateNpy.fill_data sorted _ _) as [[a k]|e] eqn:Ef; simpl; [|done].
    intros [= <- <-]. exists k. split; [done|]. right. exists mx.
    apply Z.ltb_ge in Eneg. done.
  - simpl. intros [= <- <-]. exists 0%nat. split; [done|]. left.
    destruct sorted; [done|discriminate].
Qed.

Lemma direct_data_not_nan listing energy_type i e :
  (i, Some e) ∈ direct_data listing energy_type -> is_nan e = false.
Proof.
  unfold direct_data, CreateNpy.collect_calc_data. intros H.
  apply list_elem_of_omap in H as (d & _ & Hd).
  destruct (calc_index_of (d_name d)); simpl in Hd; [|done].
  injection Hd as _ Hd. by eapply extracted_energy_not_nan.
Qed.

Lemma fill_data_not_nan data (a a' : list pyfloat) k k' :
  Forall (fun y => is_nan y = false) a ->
  (forall i e, (i, Some e) ∈ data -> is_nan e = false) ->
  CreateNpy.fill_data data a k = Returned (a', k') ->
  Forall (fun y => is_nan y = false) a'.
Proof.
  revert a k. induction data as [|[i [e|]] data IH]; intros a k Ha He; simpl.
  - by intros [= <- _].
  - destruct (setitem a i e) as [a1|err] eqn:Es; simpl; [|done].
    apply IH.
    + eapply setitem_not_nan; [exact Ha| |exact Es]. apply (He i). apply list_elem_of_here.
    + intros j e' Hj. apply (He j). by apply list_elem_of_further.
  - apply IH; [done|]. intros j e' Hj. apply (He j). by apply list_elem_of_further.
Qed.

(** In direct extraction the number of successful extractions is the number
    of run directories with an identifier whose document gave an energy,
    whatever the fill value; the failed ones are the rest of the array. The
    statistics are taken over the positions that are not NaN: with a fill
    value that is not NaN this is the whole array, fill values included;
    with NaN as fill value, and identifiers that are non-negative and
    pairwise distinct, these are as many as the successful extractions. *)
Theorem direct_metadata_counts listing energy_type fill energies m :
  CreateNpy.create_energies_array_direct listing energy_type fill
  = Returned (energies, m) ->
  let data := direct_data listing energy_type in
  CreateNpy.successful_extractions m = present_count data
  /\ CreateNpy.total_calculations m = length energies
  /\ CreateNpy.failed_extractions m
     = Z.of_nat (length energies) - Z.of_nat (present_count data)
  /\ (is_nan fill = false -> CreateNpy.valid_energies m = energies)
  /\ (fill = NaN -> Forall (fun z => 0 <= z) data.*1 -> NoDup data.*1 ->
      length (CreateNpy.valid_energies m) = present_count data).
Proof.
  intros Hret data.
  destruct (direct_result _ _ _ _ _ Hret) as (k & -> & Hloop). fold data in Hloop.
  set (sorted := stable_sort _ data) in Hloop.
  assert (Hperm : sorted ≡ₚ data) by apply stable_sort_Permutation.
  assert (Hk : k = present_count data).
  { destruct Hloop as [(Hs & _ & ->)|(mx & _ & _ & Hf)].
    - rewrite <- (present_count_Permutation _ _ Hperm), Hs. reflexivity.
    - apply fill_data_counter in Hf.
      by rewrite (present_count_Permutation _ _ Hperm) in Hf. }
  subst k. simpl. repeat split.
  - intros Hfill. apply not_nan_part_all.
    destruct Hloop as [(_ & -> & _)|(mx & _ & _ & Hf)]; [constructor|].
    eapply fill_data_not_nan; [|intros i e Hi|exact Hf].
    + by apply Forall_replicate.
    + rewrite Hperm in Hi. by eapply direct_data_not_nan.
  - intros -> Hpos Hnd.
    destruct Hloop as [(Hs & -> & Hz)|(mx & Hmax & Hge & Hf)]; [by rewrite Hz|].
    assert (Hfst : sorted.*1 ≡ₚ data.*1) by (by rewrite Hperm).
    destruct (max_of_spec sorted.*1) as (m' & Hm' & _ & Hub).
    { intros E. rewrite E in Hmax. done. }
    assert (m' = mx) as -> by congruence.
    apply fill_data_not_nan_count in Hf.
    + rewrite Hf, not_nan_part_replicate. simpl.
      by apply present_count_Permutation.
    + rewrite length_replicate. apply Forall_forall. intros [i oe] Hi.
      unfold in_range; simpl.
      assert (Hi' : i ∈ sorted.*1) by (by apply (list_elem_of_fmap_2 fst) in Hi).
      rewrite Forall_forall in Hub. specialize (Hub _ Hi').
      rewrite Hfst in Hi'. rewrite Forall_forall in Hpos. specialize (Hpos _ Hi').
      simpl in *. lia.
    + by rewrite Hfst.
    + intros i e Hi. split.
      * rewrite Hperm in Hi. by eapply direct_data_not_nan.
      * apply lookup_replicate_2.
        assert (Hi' : i ∈ sorted.*1) by (by apply (list_elem_of_fmap_2 fst) in Hi).
        rewrite Forall_forall in Hub. specialize (Hub _ Hi').
        rewrite Hfst in Hi'. rewrite Forall_forall in Hpos. specialize (Hpos _ Hi').
        simpl in *. lia.
Qed.

Lemma entries_not_nan col l i e : (i, Some e) ∈ entries col l -> is_nan e = false.
Proof.
  unfold entries. intros H. apply list_elem_of_omap in H as (r & _ & Hr).
  destruct (CreateNpy.Index r); simpl in Hr; [|done].
  destruct (is_nan (CreateNpy.cell r col)) eqn:E; [done|]. by injection Hr as _ <-.
Qed.

(** In table mode with NaN as fill value, for a table of the data model
    (identifiers non-negative and pairwise distinct), the number of
    successful extractions is the number of rows that have an identifier
    and an energy, and the failed ones are the rest of the array. *)
Theorem table_metadata_counts read_csv csv_file df col energies m :
  read_csv csv_file = Returned df ->
  CreateNpy.resolve_energy_col df = Some col ->
  CreateNpy.has_column df "Index" = true ->
  omap CreateNpy.Index (CreateNpy.rows df) <> [] ->
  Forall (fun z => 0 <= z) (omap CreateNpy.Index (CreateNpy.rows df)) ->
  NoDup (omap CreateNpy.Index (CreateNpy.rows df)) ->
  CreateNpy.create_energies_array_from_csv read_csv csv_file NaN
  = Returned (energies, m) ->
  let rows_with_energy := present_count (entries col (CreateNpy.rows df)) in
  CreateNpy.successful_extractions m = rows_with_energy
  /\ CreateNpy.total_calculations m = length energies
  /\ CreateNpy.failed_extractions m
     = Z.of_nat (length energies) - Z.of_nat rows_with_energy
  /\ (rows_with_energy <= length energies)%nat.
Proof.
  intros Hread Hcol Hidx Hne Hpos Hnd Hret rows_with_energy.
  set (table := entries col (CreateNpy.rows df)).
  set (sorted := entries col (CreateNpy.sort_values (CreateNpy.rows df))).
  assert (Hperm : sorted ≡ₚ table)
    by apply entries_Permutation, sort_values_Permutation.
  assert (Hfst : sorted.*1 ≡ₚ table.*1) by (by rewrite Hperm).
  assert (Hids : table.*1 = omap CreateNpy.Index (CreateNpy.rows df))
    by apply entries_fst.
  destruct (largest_exists _ Hne) as [mx Hmx]. rewrite <- Hids in Hmx, Hpos, Hnd.
  assert (0 <= mx).
  { destruct Hmx as [Hin _]. rewrite Forall_forall in Hpos. by apply Hpos. }
  rewrite (indexed_table _ _ df NaN col Hread Hcol Hidx Hne) in Hret.
  cbv zeta in Hret. fold sorted in Hret.
  rewrite (max_of_largest sorted.*1 mx) in Hret
    by (apply (largest_Permutation table.*1); done).
  unfold np_full in Hret.
  replace (mx + 1 <? 0) with false in Hret by (symmetry; apply Z.ltb_ge; lia).
  destruct (allocation_error (mx + 1)); [done|]. simpl in Hret.
  destruct (CreateNpy.fill_data sorted _ 0) as [[a k]|e] eqn:Hfill; [|done].
  injection Hret as <- <-. simpl.
  assert (Hrange : forall i,
            i ∈ sorted.*1 -> 0 <= i < Z.of_nat (Z.to_nat (mx + 1))).
  { intros i Hi. rewrite Hfst in Hi. destruct Hmx as [_ Hub].
    rewrite Forall_forall in Hub, Hpos.
    specialize (Hub _ Hi). specialize (Hpos _ Hi). simpl in *. lia. }
  assert (Hcount : length (not_nan_part a) = present_count sorted).
  { apply fill_data_not_nan_count in Hfill.
    - by rewrite Hfill, not_nan_part_replicate.
    - rewrite length_replicate. apply Forall_forall. intros [i oe] Hi.
      unfold in_range; simpl. apply Hrange.
      by apply (list_elem_of_fmap_2 fst) in Hi.
    - by rewrite Hfst.
    - intros i e Hi. split; [by eapply entries_not_nan|].
      apply lookup_replicate_2.
      apply (list_elem_of_fmap_2 fst) in Hi. apply Hrange in Hi. simpl in Hi. lia. }
  subst rows_with_energy. change (entries col (CreateNpy.rows df)) with table.
  rewrite <- (present_count_Permutation _ _ Hperm), <- Hcount.
  repeat split. unfold not_nan_part. apply List.filter_length_le.
Qed.

(** ** Independence of the order of the input *)

Lemma List_filter_Permutation {A} (f : A -> bool) l l' :
  l ≡ₚ l' -> List.filter f l ≡ₚ List.filter f l'.
Proof.
  induction 1 as [|x l l' _ IH|x y l|l l' l'' _ IH1 _ IH2]; simpl.
  - done.
  - destruct (f x); by rewrite IH.
  - destruct (f x), (f y); try done. apply Permutation_swap.
  - by rewrite IH1.
Qed.

Lemma direct_data_Permutation listing listing' energy_type :
  listing ≡ₚ listing' ->
  direct_data listing energy_type ≡ₚ direct_data listing' energy_type.
Proof.
  intros H. unfold direct_data, CreateNpy.collect_calc_data.
  by rewrite (List_filter_Permutation is_calc_dir _ _ H).
Qed.

Lemma direct_successful listing energy_type fill energies m :
  CreateNpy.create_energies_array_direct listing energy_type fill
  = Returned (energies, m) ->
  m = CreateNpy.Metadata (length energies)
        (present_count (direct_data listing energy_type))
        (Z.of_nat (length energies)
         - Z.of_nat (present_count (direct_data listing energy_type)))
        (not_nan_part energies) "direct_extraction".
Proof.
  intros H. apply direct_result in H as (k & -> & H).
  pose proof (stable_sort_Permutation
                (fun a b : Z * option pyfloat => a.1 <=? b.1)
                (direct_data listing energy_type)) as Hperm.
  assert (k = present_count (direct_data listing energy_type)) as ->; [|done].
  rewrite <- (present_count_Permutation _ _ Hperm).
  destruct H as [(-> & _ & ->)|(mx & _ & _ & Hf)]; [done|].
  by apply fill_data_counter in Hf.
Qed.

Lemma direct_without_data listing energy_type fill :
  direct_data listing energy_type = [] ->
  CreateNpy.create_energies_array_direct listing energy_type fill
  = match List.filter is_calc_dir listing with
    | [] => Raised (Exn "Exception" "No calculation directories found")
    | _ :: _ => Returned ([], CreateNpy.Metadata 0 0 0 [] "direct_extraction")
    end.
Proof.
  unfold direct_data, CreateNpy.create_energies_array_direct. intros H.
  destruct (List.filter is_calc_dir listing) as [|d ds] eqn:E; [done|].
  by rewrite H.
Qed.

(** The array and the metadata of direct extraction do not depend on the
    order in which the calculations directory lists its entries, when the
    identifiers of the run directories are non-negative and pairwise
    distinct. *)
Theorem direct_independent_of_listing_order listing listing' energy_type fill :
  listing ≡ₚ listing' ->
  Forall (fun z => 0 <= z) (direct_data listing energy_type).*1 ->
  NoDup (direct_data listing energy_type).*1 ->
  CreateNpy.create_energies_array_direct listing energy_type fill
  = CreateNpy.create_energies_array_direct listing' energy_type fill.
Proof.
  intros Hl Hpos Hnd.
  pose proof (direct_data_Permutation _ _ energy_type Hl) as Hd.
  pose proof (List_filter_Permutation is_calc_dir _ _ Hl) as Hf.
  destruct (direct_data listing energy_type) as [|p data] eqn:E.
  - apply Permutation_nil_l in Hd. symmetry in Hd.
    rewrite !direct_without_data by done.
    destruct (List.filter is_calc_dir listing) as [|d ds].
    + apply Permutation_nil_l in Hf. by rewrite <- Hf.
    + destruct (List.filter is_calc_dir listing') as [|d' ds']; [|done].
      by apply Permutation_nil_r in Hf.
  - rewrite <- E in *.
    assert (Hne : (direct_data listing energy_type).*1 <> []) by (by rewrite E).
    destruct (largest_exists _ Hne) as [mx Hmx].
    rewrite direct_data_run_entries in Hmx, Hpos, Hnd, Hd.
    pose proof (direct_dense listing energy_type fill mx Hmx Hpos Hnd) as Hr.
    pose proof (direct_dense listing' energy_type fill mx) as Hr'.
    rewrite direct_data_run_entries in Hd. cbv zeta in Hr, Hr'.
    assert (Hfst : (run_entries listing energy_type).*1
                   ≡ₚ (run_entries listing' energy_type).*1) by (by rewrite Hd).
    assert (Hmx' : largest (run_entries listing' energy_type).*1 mx)
      by (by apply (largest_Permutation _ _ _ Hfst)).
    assert (Hpos' : Forall (fun z => 0 <= z) (run_entries listing' energy_type).*1)
      by (by rewrite <- Hfst).
    assert (Hnd' : NoDup (run_entries listing' energy_type).*1)
      by (by rewrite <- Hfst).
    specialize (Hr' Hmx' Hpos' Hnd').
    destruct (allocation_error (mx + 1)) as [err|].
    + by rewrite Hr, Hr'.
    + destruct Hr as (e & m & Hr & Hdense).
      destruct Hr' as (e' & m' & Hr' & Hdense').
      rewrite Hr, Hr'.
      apply direct_successful in Hr, Hr'. subst m m'.
      rewrite !direct_data_run_entries.
      rewrite (dense_over_unique _ _ _ _ _ Hd Hdense Hdense').
      by rewrite (present_count_Permutation _ _ Hd).
Qed.

(** In table mode the array and the metadata do not depend on the order of
    the rows of the table, when the table has identifiers and they are
    non-negative and pairwise distinct. *)
Theorem table_independent_of_row_order df df' csv_file fill col :
  CreateNpy.columns df = CreateNpy.columns df' ->
  CreateNpy.rows df ≡ₚ CreateNpy.rows df' ->
  CreateNpy.resolve_energy_col df = Some col ->
  CreateNpy.has_column df "Index" = true ->
  omap CreateNpy.Index (CreateNpy.rows df) <> [] ->
  Forall (fun z => 0 <= z) (omap CreateNpy.Index (CreateNpy.rows df)) ->
  NoDup (omap CreateNpy.Index (CreateNpy.rows df)) ->
  CreateNpy.create_energies_array_from_csv (fun _ => Returned df) csv_file fill
  = CreateNpy.create_energies_array_from_csv (fun _ => Returned df') csv_file fill.
Proof.
  intros Hcols Hrows Hcol Hidx Hne Hpos Hnd.
  assert (Hids : omap CreateNpy.Index (CreateNpy.rows df)
                 ≡ₚ omap CreateNpy.Index (CreateNpy.rows df')) by (by rewrite Hrows).
  destruct (largest_exists _ Hne) as [mx Hmx].
  pose proof (csv_dense (fun _ => Returned df) csv_file df fill col mx
                eq_refl Hcol Hidx Hmx Hpos Hnd) as Hr.
  pose proof (csv_dense (fun _ => Returned df') csv_file df' fill col mx eq_refl)
    as Hr'.
  destruct (allocation_error (mx + 1)) as [err|].
  - rewrite Hr, Hr'; [done|..].
    + unfold CreateNpy.resolve_energy_col, CreateNpy.has_column in *.
      by rewrite <- Hcols.
    + unfold CreateNpy.has_column in *. by rewrite <- Hcols.
    + by apply (largest_Permutation _ _ _ Hids).
    + by rewrite <- Hids.
    + by rewrite <- Hids.
  - destruct Hr as (e & m & Hr & Hdense).
    destruct Hr' as (e' & m' & Hr' & Hdense').
    { unfold CreateNpy.resolve_energy_col, CreateNpy.has_column in *.
      by rewrite <- Hcols. }
    { unfold CreateNpy.has_column in *. by rewrite <- Hcols. }
    { by apply (largest_Permutation _ _ _ Hids). }
    { by rewrite <- Hids. }
    { by rewrite <- Hids. }
    rewrite Hr, Hr'. apply csv_metadata in Hr, Hr'. subst m m'.
    by rewrite (dense_over_unique _ _ _ _ _ (entries_Permutation col _ _ Hrows)
                  Hdense Hdense').
Qed.

(** ** What [main] of the assembler writes *)

Lemma replace_from_absent old new s :
  contains old s = false -> replace_from old new s 0 = s.
Proof.
  induction s as [|c s IH]; intros H; [done|].
  rewrite contains_unfold in H. cbn [replace_from].
  destruct (strip_prefix old (c :: s)); [done|]. by rewrite IH.
Qed.

Lemma replace_absent old new s :
  contains (list_ascii_of_string old) (list_ascii_of_string s) = false ->
  replace old new s = s.
Proof.
  intros H. unfold replace. rewrite replace_from_absent by done.
  apply string_of_list_ascii_of_string.
Qed.

Lemma string_length_list s : String.length s = length (list_ascii_of_string s).
Proof. induction s as [|c s IH]; simpl; [done|]. by rewrite IH. Qed.

(** Each replacement of [.npy] by [_metadata.txt] makes the text nine
    characters longer. *)
Lemma replace_npy_length s skip :
  (skip <= length s)%nat ->
  exists k : nat,
    (length (replace_from (list_ascii_of_string ".npy")
                          (list_ascii_of_string "_metadata.txt") s skip)
     + skip
     = length s + 9 * k)%nat.
Proof.
  set (old := list_ascii_of_string ".npy").
  set (new := list_ascii_of_string "_metadata.txt").
  assert (Hold : length old = 4%nat) by reflexivity.
  assert (Hnew : length new = 13%nat) by reflexivity.
  clearbody old new.
  revert skip. induction s as [|c s IH]; intros skip Hle.
  - exists 0%nat. simpl in *. lia.
  - cbn [replace_from]. destruct skip as [|j].
    + destruct (strip_prefix old (c :: s)) as [r|] eqn:E.
      * apply strip_prefix_Some in E. apply (f_equal length) in E.
        rewrite length_app, Hold in E. cbn [length] in E.
        rewrite Hold. change (4 - 1)%nat with 3%nat.
        destruct (IH 3%nat) as [k Hk]; [lia|]. exists (S k).
        rewrite length_app, Hnew. cbn [length]. lia.
      * destruct (IH 0%nat) as [k Hk]; [lia|]. exists k. cbn [length]. lia.
    + cbn [length] in Hle. destruct (IH j) as [k Hk]; [lia|]. exists k.
      cbn [length]. lia.
Qed.

(** The metadata never takes the place of the array. *)
Lemma metadata_file_differs path :
  replace ".npy" "_metadata.txt" path <> CreateNpy.npy_path path.
Proof.
  unfold CreateNpy.npy_path. destruct (endswith ".npy" path) eqn:E.
  - by apply replace_npy_changes.
  - intros Heq. apply (f_equal String.length) in Heq.
    rewrite !string_length_list in Heq. unfold replace in Heq.
    rewrite list_ascii_of_string_of_list_ascii in Heq.
    destruct (replace_npy_length (list_ascii_of_string path) 0) as [k Hk]; [lia|].
    assert (Happ : forall x y, length (list_ascii_of_string (x +:+ y))
                               = (length (list_ascii_of_string x)
                                  + length (list_ascii_of_string y))%nat).
    { intros x y. induction x as [|c x IH]; simpl; [done|]. by rewrite IH. }
    rewrite Happ in Heq. simpl in Heq, Hk. lia.
Qed.

(** Nothing but the array file and the metadata file is written, and these
    are two files. When no array is assembled (the calculations directory
    is missing, the table named on the command line does not exist, the
    assembly fails) the disk is left as it was. When [main] ends with
    status 0 the array was assembled, the array file holds it and the
    metadata file holds its metadata. *)
Theorem main_writes_only_its_outputs a env :
  let array_file := CreateNpy.npy_path (output_path a) in
  let metadata_file := replace ".npy" "_metadata.txt" (output_path a) in
  let r := CreateNpy.main a env in
  (forall p, p <> array_file -> p <> metadata_file ->
             r.1 !! p = CreateNpy.disk env !! p)
  /\ array_file <> metadata_file
  /\ (CreateNpy.isdir env (CreateNpy.calculations_dir a) = false
      \/ CreateNpy.data_source a env = None
      \/ (exists csv e, CreateNpy.data_source a env = Some csv
                        /\ CreateNpy.create_energies a env csv = Raised e) ->
      r.1 = CreateNpy.disk env)
  /\ (r.2 = 0 ->
      exists csv energies m,
        CreateNpy.data_source a env = Some csv
        /\ CreateNpy.create_energies a env csv = Returned (energies, m)
        /\ r.1 !! array_file = Some (CreateNpy.Npy energies)
        /\ r.1 !! metadata_file = Some (CreateNpy.Text m)).
Proof.
  intros array_file metadata_file r.
  assert (Hdiff : array_file <> metadata_file).
  { intros Heq. by apply (metadata_file_differs (output_path a)). }
  subst r. unfold CreateNpy.main.
  destruct (CreateNpy.isdir env (CreateNpy.calculations_dir a)) eqn:Hdir; simpl;
    [|repeat split; done].
  destruct (CreateNpy.data_source a env) as [csv|] eqn:Hsrc;
    [|simpl; repeat split; done].
  destruct (CreateNpy.create_energies a env csv) as [[energies m]|e] eqn:Hcreate;
    [|simpl; repeat split; done].
  fold (output_path a).
  unfold CreateNpy.save_and_verify, CreateNpy.np_save.
  fold array_file. fold metadata_file.
  destruct (CreateNpy.write_error env array_file);
    [simpl; repeat split; done|].
  destruct (CreateNpy.write_error env metadata_file).
  - simpl. split; [|split; [done|split; [|done]]].
    + intros p H1 H2. by rewrite lookup_insert_ne.
    + intros [H|[H|(csv' & e' & H1 & H2)]]; [done|done|].
      injection H1 as <-. congruence.
  - set (d2 := <[metadata_file := _]> (<[array_file := _]> (CreateNpy.disk env))).
    assert (Hfst : (match CreateNpy.verify energies
                            (CreateNpy.np_load d2 (output_path a)) with
                    | Some status => (d2, status)
                    | None => (d2, 0)
                    end).1 = d2) by (by destruct (CreateNpy.verify _ _)).
    rewrite Hfst. unfold d2. split; [|split; [done|split]].
    + intros p H1 H2. by rewrite !lookup_insert_ne.
    + intros [H|[H|(csv' & e' & H1 & H2)]]; [done|done|].
      injection H1 as <-. congruence.
    + intros _. exists csv, energies, m. split; [done|]. split; [done|].
      split; [|by rewrite lookup_insert_eq].
      rewrite lookup_insert_ne by done. by rewrite lookup_insert_eq.
Qed.

(** When the output path holds no [.npy], [main] never ends with status 0:
    [np.save] appends the extension to the name of the array file, the
    metadata takes the path itself, and the verification loads the path as
    given. When both files can be written, these two files are what [main]
    leaves on the disk. *)
Theorem output_name_needs_extension a env :
  contains (list_ascii_of_string ".npy") (list_ascii_of_string (output_path a)) = false ->
  (CreateNpy.main a env).2 = 1
  /\ forall csv energies m,
       CreateNpy.isdir env (CreateNpy.calculations_dir a) = true ->
       CreateNpy.data_source a env = Some csv ->
       CreateNpy.create_energies a env csv = Returned (energies, m) ->
       CreateNpy.write_error env (output_path a +:+ ".npy") = None ->
       CreateNpy.write_error env (output_path a) = None ->
       (CreateNpy.main a env).1
       = <[output_path a := CreateNpy.Text m]>
           (<[output_path a +:+ ".npy" := CreateNpy.Npy energies]>
              (CreateNpy.disk env)).
Proof.
  intros Hno.
  assert (Hend : endswith ".npy" (output_path a) = false).
  { destruct (endswith ".npy" (output_path a)) eqn:E; [|done].
    apply endswith_contains in E. congruence. }
  assert (Hsave : forall energies m,
            CreateNpy.save_and_verify (CreateNpy.write_error env) (output_path a)
              energies m (CreateNpy.disk env)
            = match CreateNpy.write_error env (output_path a +:+ ".npy") with
              | Some _ => (CreateNpy.disk env, 1)
              | None =>
                  let d1 := <[output_path a +:+ ".npy" := CreateNpy.Npy energies]>
                              (CreateNpy.disk env) in
                  match CreateNpy.write_error env (output_path a) with
                  | Some _ => (d1, 1)
                  | None => (<[output_path a := CreateNpy.Text m]> d1, 1)
                  end
              end).
  { intros energies m.
    unfold CreateNpy.save_and_verify, CreateNpy.np_save, CreateNpy.npy_path.
    rewrite Hend, (replace_absent _ _ _ Hno).
    destruct (CreateNpy.write_error env (output_path a +:+ ".npy")); [done|].
    destruct (CreateNpy.write_error env (output_path a)); [done|].
    cbv zeta. unfold CreateNpy.np_load. by rewrite lookup_insert_eq. }
  split.
  - unfold CreateNpy.main.
    destruct (negb _); [done|].
    destruct (CreateNpy.data_source a env) as [csv|]; [|done].
    destruct (CreateNpy.create_energies a env csv) as [[energies m]|e]; [|done].
    fold (output_path a). rewrite Hsave.
    destruct (CreateNpy.write_error env (output_path a +:+ ".npy")); [done|].
    by destruct (CreateNpy.write_error env (output_path a)).
  - intros csv energies m Hdir Hsrc Hcreate Hw1 Hw2.
    rewrite (main_saves _ _ _ _ _ Hdir Hsrc Hcreate), Hsave. by rewrite Hw1, Hw2.
Qed.

(** ** The log parser of the aggregator *)

(** The two step counts are taken last: they are the numbers of matches
    when the parser records no error, and stay 0 as soon as it records
    one. *)
Theorem step_counts_need_clean_parse doc :
  let content := list_ascii_of_string doc in
  let r := parsed doc in
  (ExtractEnergies.error r = None ->
   ExtractEnergies.electronic_steps r = length (findall re_dav content)
   /\ ExtractEnergies.ionic_steps r = length (findall re_position content))
  /\ (ExtractEnergies.error r <> None ->
      ExtractEnergies.electronic_steps r = 0%nat
      /\ ExtractEnergies.ionic_steps r = 0%nat).
Proof.
  intros content r. subst r.
  unfold parsed, ExtractEnergies.extract_energy_from_outcar,
    ExtractEnergies.parse_content, ExtractEnergies.store_last.
  fold content.
  destruct (contains marker_converged content);
    destruct (contains (list_ascii_of_string "Total CPU time used") content);
    try destruct (search re_cpu_time content) as [g|];
    try destruct (float g); simpl;
    destruct (last (findall re_without_entropy content)) as [g1|];
    try destruct (float g1); simpl;
    destruct (last (findall re_sigma_loose content)) as [g2|];
    try destruct (float g2); simpl; split; try done.
Qed.

(** A CPU time whose text does not convert stops the parser before the
    energies are read: the run is classified Failed with the conversion
    error, whatever energy lines its document holds. *)
Theorem unreadable_cpu_time_fails_run d doc g :
  d_outcar d = Some doc ->
  cpu_reading (list_ascii_of_string doc) = Some g ->
  float_of_text g = None ->
  let r := ExtractEnergies.process d in
  ExtractEnergies.Status r = "Failed"
  /\ ExtractEnergies.Energy_without_entropy_eV r = None
  /\ ExtractEnergies.Energy_sigma_0_eV r = None
  /\ ExtractEnergies.CPU_time_sec r = None
  /\ ExtractEnergies.Error r
     = Some ("could not convert string to float: '" +:+ string_of_list_ascii g +:+ "'")
  /\ ExtractEnergies.Converged r
     = contains marker_converged (list_ascii_of_string doc).
Proof.
  intros Hdoc Hcpu Hfloat r. subst r.
  unfold ExtractEnergies.process. rewrite Hdoc.
  unfold ExtractEnergies.extract_energy_from_outcar, ExtractEnergies.parse_content.
  unfold cpu_reading in Hcpu.
  destruct (contains (list_ascii_of_string "Total CPU time used") _); [|done].
  rewrite Hcpu. unfold float. rewrite Hfloat. simpl.
  by destruct (contains marker_converged _).
Qed.

(** ** Identifiers of run directories *)

Lemma list_ascii_of_string_app a b :
  list_ascii_of_string (a +:+ b) = list_ascii_of_string a ++ list_ascii_of_string b.
Proof. induction a as [|c a IH]; simpl; [done|]. by rewrite <- IH. Qed.

Lemma digit_plain d :
  is_digit d = true -> is_space d = false /\ Ascii.eqb "_" d = false.
Proof. destruct d as [[] [] [] [] [] [] [] []]; vm_compute; intros; by try split. Qed.

Lemma split_on_plain sep w :
  Forall (fun c => Ascii.eqb sep c = false) w -> split_on sep w = [w].
Proof.
  induction 1 as [|c w Hc _ IH]; simpl; [done|]. by rewrite Hc, IH.
Qed.

Lemma split_on_first sep w rest :
  Forall (fun c => Ascii.eqb sep c = false) w ->
  split_on sep (w ++ sep :: rest) = w :: split_on sep rest.
Proof.
  induction 1 as [|c w Hc _ IH]; simpl.
  - by rewrite Ascii.eqb_refl.
  - by rewrite Hc, IH.
Qed.

Lemma pretty_N_char_digit k :
  (k < 10)%N ->
  is_digit (pretty_N_char k) = true /\ digit_value (pretty_N_char k) = Z.of_N k.
Proof.
  intros H.
  assert (k = 0 \/ k = 1 \/ k = 2 \/ k = 3 \/ k = 4 \/ k = 5 \/ k = 6 \/ k = 7
          \/ k = 8 \/ k = 9)%N as Hk by lia.
  repeat destruct Hk as [->|Hk]; try subst k; by vm_compute.
Qed.

Lemma digits_value_snoc ds c acc :
  fold_left (fun a c => 10 * a + digit_value c) (ds ++ [c]) acc
  = 10 * fold_left (fun a c => 10 * a + digit_value c) ds acc + digit_value c.
Proof. by rewrite fold_left_app. Qed.

Lemma pretty_N_go_digits x : forall s,
  exists ds,
    list_ascii_of_string (pretty_N_go x s) = ds ++ list_ascii_of_string s
    /\ forallb is_digit ds = true
    /\ ((0 < x)%N -> ds <> [])
    /\ forall acc, fold_left (fun a c => 10 * a + digit_value c) ds acc
                   = acc * 10 ^ Z.of_nat (length ds) + Z.of_N x.
Proof.
  induction (N.lt_wf_0 x) as [x _ IH]. intros s.
  destruct (decide (x = 0%N)) as [->|Hx].
  - exists []. rewrite pretty_N_go_0. repeat split; [lia|]. intros acc. simpl. lia.
  - rewrite pretty_N_go_step by lia.
    destruct (IH (x `div` 10)%N) with (s := String (pretty_N_char (x `mod` 10)) s)
      as (ds & Hl & Hd & _ & Hv).
    { apply N.div_lt; lia. }
    destruct (pretty_N_char_digit (x `mod` 10)%N) as [Hc Hcv].
    { apply N.mod_lt. lia. }
    exists (ds ++ [pretty_N_char (x `mod` 10)]). repeat split.
    + rewrite Hl. simpl. by rewrite <- app_assoc.
    + rewrite forallb_app, Hd. simpl. by rewrite Hc.
    + intros _. by destruct ds.
    + intros acc. rewrite digits_value_snoc, Hv, Hcv, length_app. simpl.
      rewrite Nat2Z.inj_add, Z.pow_add_r by lia.
      pose proof (N.div_mod x 10). 
      assert (Z.of_N x = 10 * Z.of_N (x `div` 10) + Z.of_N (x `mod` 10)) by lia.
      lia.
Qed.

Lemma pretty_nat_digits (n : nat) :
  exists ds,
    list_ascii_of_string (pretty n) = ds
    /\ forallb is_digit ds = true /\ ds <> []
    /\ forall acc, fold_left (fun a c => 10 * a + digit_value c) ds acc
                   = acc * 10 ^ Z.of_nat (length ds) + Z.of_nat n.
Proof.
  unfold pretty, pretty_nat, pretty, pretty_N.
  destruct (decide (N.of_nat n = 0%N)) as [E|E].
  - exists ["0"%char]. repeat split; [done|]. intros acc.
    replace (Z.of_nat n) with 0 by lia.
    change (10 * acc + 0 = acc * 10 + 0). lia.
  - destruct (pretty_N_go_digits (N.of_nat n) "") as (ds & Hl & Hd & Hne & Hv).
    exists ds. simpl in Hl. rewrite app_nil_r in Hl. repeat split; try done.
    + apply Hne. lia.
    + intros acc. rewrite Hv. lia.
Qed.

Lemma drop_while_space_digits ds :
  forallb is_digit ds = true -> drop_while is_space ds = ds.
Proof.
  destruct ds as [|d ds]; simpl; [done|]. intros H.
  apply andb_true_iff in H as [H _]. by destruct (digit_plain d H) as [-> _].
Qed.

Lemma int_of_digits ds :
  ds <> [] -> forallb is_digit ds = true ->
  int_of_text ds = Some (digits_value ds).
Proof.
  intros Hne Hd. unfold int_of_text, strip.
  rewrite (drop_while_space_digits ds Hd).
  rewrite drop_while_space_digits, rev_involutive.
  2:{ rewrite forallb_forall in *. intros c Hc. apply Hd. by apply in_rev. }
  destruct ds as [|d ds]; [done|]. unfold split_sign.
  simpl in Hd. apply andb_true_iff in Hd as [Hd Hds].
  destruct (digit_not_sign d Hd) as [-> ->].
  simpl. rewrite Hd, Hds. simpl. f_equal. lia.
Qed.

Lemma calc_index_of_digits ds tail :
  ds <> [] -> forallb is_digit ds = true ->
  calc_index_of (string_of_list_ascii (list_ascii_of_string "calc_" ++ ds))
  = Some (digits_value ds)
  /\ calc_index_of
       (string_of_list_ascii (list_ascii_of_string "calc_" ++ ds ++ "_"%char :: tail))
     = Some (digits_value ds).
Proof.
  intros Hne Hd. unfold calc_index_of.
  rewrite !list_ascii_of_string_of_list_ascii.
  assert (Hplain : Forall (fun c => Ascii.eqb "_" c = false) ds).
  { apply Forall_forall. intros c Hc. rewrite forallb_forall in Hd.
    apply digit_plain, Hd. by apply list_elem_of_In. }
  change (list_ascii_of_string "calc_")
    with (list_ascii_of_string "calc" ++ ["_"%char]).
  rewrite <- !app_assoc. simpl ([_] ++ _).
  rewrite !split_on_first by (repeat constructor).
  rewrite split_on_plain, split_on_first by done. simpl.
  by rewrite int_of_digits.
Qed.

(** The identifier read from the name of a run directory is the number its
    digits denote: leading zeros do not count, and neither does what
    follows a second underscore. *)
Theorem identifier_of_run_name (zeros n : nat) (tail : string) :
  let digits := string_of_list_ascii (replicate zeros "0"%char) +:+ pretty n in
  calc_index_of ("calc_" +:+ digits) = Some (Z.of_nat n)
  /\ calc_index_of ("calc_" +:+ digits +:+ "_" +:+ tail) = Some (Z.of_nat n).
Proof.
  intros digits.
  destruct (pretty_nat_digits n) as (ds & Hl & Hd & Hne & Hv).
  set (all := replicate zeros "0"%char ++ ds).
  assert (Hall : list_ascii_of_string digits = all).
  { unfold digits. by rewrite list_ascii_of_string_app,
      list_ascii_of_string_of_list_ascii, Hl. }
  assert (Hdig : forallb is_digit all = true).
  { unfold all. rewrite forallb_app, Hd, andb_true_r.
    apply forallb_forall. intros c Hc. apply list_elem_of_In, elem_of_replicate in Hc.
    by destruct Hc as [-> _]. }
  assert (Hval : digits_value all = Z.of_nat n).
  { unfold digits_value, all. rewrite fold_left_app.
    replace (fold_left _ (replicate zeros "0"%char) 0) with 0.
    - rewrite Hv. lia.
    - clear. induction zeros as [|k IH]; simpl; [done|].
      by change (10 * 0 + digit_value "0") with 0. }
  destruct (calc_index_of_digits all (list_ascii_of_string tail)) as [H1 H2];
    [by unfold all; destruct (replicate zeros "0"%char), ds|done|].
  rewrite Hval in H1, H2. split.
  - rewrite <- H1. f_equal. rewrite <- Hall.
    by rewrite <- list_ascii_of_string_app, string_of_list_ascii_of_string.
  - rewrite <- H2. f_equal. rewrite <- Hall.
    change ("_"%char :: list_ascii_of_string tail)
      with (list_ascii_of_string ("_" +:+ tail)).
    by rewrite <- !list_ascii_of_string_app, string_of_list_ascii_of_string.
Qed.

(** ** The table and the summary of the aggregator *)

Lemma process_status d :
  let r := ExtractEnergies.process d in
  (ExtractEnergies.Status r = "Success"
   /\ is_Some (ExtractEnergies.Energy_without_entropy_eV r))
  \/ (ExtractEnergies.Status r = "Failed"
      /\ ExtractEnergies.Energy_without_entropy_eV r = None).
Proof.
  unfold ExtractEnergies.process. simpl.
  destruct (ExtractEnergies.energy_without_entropy _); [left|right]; eauto.
Qed.

Lemma status_partition (l : list dir_entry) :
  let rows := List.map ExtractEnergies.process l in
  let ok := List.filter (fun r => String.eqb (ExtractEnergies.Status r) "Success") rows in
  (length ok
   + length (List.filter (fun r => String.eqb (ExtractEnergies.Status r) "Failed") rows)
   = length rows)%nat
  /\ length (omap ExtractEnergies.Energy_without_entropy_eV ok) = length ok
  /\ (length (omap ExtractEnergies.CPU_time_sec ok) <= length ok)%nat.
Proof.
  induction l as [|d l IH]; [simpl; repeat split; done|].
  destruct IH as (IH1 & IH2 & IH3).
  change (List.map ExtractEnergies.process (d :: l))
    with (ExtractEnergies.process d :: List.map ExtractEnergies.process l).
  pose proof (process_status d) as Hs.
  set (r := ExtractEnergies.process d) in *. clearbody r.
  cbv zeta in *. unfold omap in *. cbn [List.filter].
  destruct Hs as [[-> [x Hx]]|[-> Hx]]; simpl.
  - rewrite Hx. destruct (ExtractEnergies.CPU_time_sec r); simpl; repeat split; lia.
  - repeat split; lia.
Qed.

(** The counts of the summary add up: every run is either successful or
    failed; every successful run contributes an energy to the statistics
    (dropping the missing values drops nothing), and at most as many CPU
    times enter them. *)
Theorem summary_counts_add_up base_dir :
  let df := table_of base_dir in
  let s := ExtractEnergies.summary_of df (with_status "Success" df)
                                      (with_status "Failed" df) in
  (ExtractEnergies.s_successful s + ExtractEnergies.s_failed s
   = ExtractEnergies.s_total s)%nat
  /\ ExtractEnergies.s_total s = length (List.filter is_calc_dir base_dir)
  /\ length (ExtractEnergies.s_energies s) = ExtractEnergies.s_successful s
  /\ (length (ExtractEnergies.s_cpu_times s) <= ExtractEnergies.s_successful s)%nat.
Proof.
  intros df s. subst s df.
  unfold ExtractEnergies.summary_of, with_status, table_of,
    ExtractEnergies.DataFrame_of. simpl.
  destruct (status_partition (ExtractEnergies.find_calc_dirs base_dir))
    as (H1 & H2 & H3).
  repeat split; try done.
  by rewrite length_map, find_calc_dirs_Permutation.
Qed.

(** [main] returns the table only after it has been written: to the
    workbook, or, when the workbook module is missing, to the flat table;
    and the table returned has a row for each run directory, of which there
    is at least one. *)
Theorem returned_table_is_persisted base_dir w files df :
  ExtractEnergies.main base_dir w = (files, Returned df) ->
  df = table_of base_dir
  /\ length (ExtractEnergies.df_rows df) = length (List.filter is_calc_dir base_dir)
  /\ List.filter is_calc_dir base_dir <> []
  /\ ((exists summary failed,
         files = [ExtractEnergies.Workbook
                    ("energies_" +:+ ExtractEnergies.timestamp w +:+ ".xlsx")
                    df summary failed])
      \/ (exists rest,
            files = ExtractEnergies.CsvTable
                      ("energies_" +:+ ExtractEnergies.timestamp w +:+ ".csv") df
                    :: rest)).
Proof.
  intros H.
  destruct (List.filter is_calc_dir base_dir) as [|d ds] eqn:E.
  { unfold ExtractEnergies.main, ExtractEnergies.find_calc_dirs in H.
    rewrite E in H. simpl in H. done. }
  assert (Hne : List.filter is_calc_dir base_dir <> []) by (by rewrite E).
  rewrite (main_export _ _ Hne) in H. rewrite <- E. clear E.
  unfold ExtractEnergies.export in H. cbv zeta in H.
  destruct (ExtractEnergies.excel_writer w) as [e|].
  - destruct (ExtractEnergies.is_import_error e); [|done].
    destruct (ExtractEnergies.main_to_csv w); [done|].
    destruct (negb _).
    + destruct (ExtractEnergies.summary_to_csv w); [done|].
      injection H as <- <-. repeat split; eauto.
      unfold table_of, ExtractEnergies.DataFrame_of. simpl.
      by rewrite length_map, find_calc_dirs_Permutation.
    + injection H as <- <-. repeat split; eauto.
      unfold table_of, ExtractEnergies.DataFrame_of. simpl.
      by rewrite length_map, find_calc_dirs_Permutation.
  - injection H as <- <-. repeat split; eauto.
    unfold table_of, ExtractEnergies.DataFrame_of. simpl.
    by rewrite length_map, find_calc_dirs_Permutation.
Qed.

End Properties.

(** * Scenarios

    The counterexamples to the claims as the specification states them, and
    the theorems above at concrete inputs; the machine is [ample_memory]
    where no other is named. *)

(** C10 on a base directory with a file and a directory of another name. *)
Lemma main_raises_without_calc_dirs_witness :
  ExtractEnergies.main
    [DirEntry "notes.txt" false None; DirEntry "templates" true None]
    (ExtractEnergies.Writers "20251027_120000" None None None)
  = ([], Raised (Exn "KeyError" "'Status'")).
Proof.
  apply (main_raises_without_calc_dirs
           [DirEntry "notes.txt" false None; DirEntry "templates" true None]).
  repeat constructor.
Defined.

(** Against C5 as stated: the aggregator keeps the run named [calc_abc],
    whose identifier does not parse, as a row of the table with a null
    identifier. *)
Lemma unparseable_run_is_kept :
  calc_index_of "calc_abc" = None
  /\ (ExtractEnergies.main unparseable_base plain_writers).2
     = Returned
         (ExtractEnergies.Frame ExtractEnergies.row_keys
            [ExtractEnergies.Row "calc_0000" (Some 0) (Some (Finite (-3 # 2))) None
                                 false 0 0 None "Success" None;
             ExtractEnergies.Row "calc_abc" None None None
                                 false 0 0 None "Failed" (Some "OUTCAR not found")]).
Proof. split; vm_compute; reflexivity. Qed.

(** C5 on the run named [calc_abc]. *)
Lemma unparseable_identifier_handling_witness :
  exists r, r ∈ ExtractEnergies.df_rows (table_of unparseable_base)
            /\ ExtractEnergies.Calculation r = "calc_abc"
            /\ ExtractEnergies.Index r = None.
Proof.
  apply (proj1 (proj2 unparseable_identifier_handling) unparseable_base
               (DirEntry "calc_abc" true None)).
  - apply list_elem_of_In. simpl. right. left. reflexivity.
  - vm_compute. reflexivity.
  - vm_compute. reflexivity.
Defined.

(** Against C8 as stated: a failure of the workbook write other than a
    missing module is not caught: no flat table is written and the exception ends [main]. And
    when the workbook module is missing but no run succeeded, the flat
    table is written without any summary artifact. *)
Lemma fallback_only_on_import_error :
  ExtractEnergies.main unparseable_base
    (ExtractEnergies.Writers "20251027_120000" (Some permission_denied) None None)
  = ([], Raised permission_denied)
  /\ ExtractEnergies.main [DirEntry "calc_0000" true None]
       (ExtractEnergies.Writers "20251027_120000" (Some missing_openpyxl) None None)
     = ([ExtractEnergies.CsvTable "energies_20251027_120000.csv"
           (table_of [DirEntry "calc_0000" true None])],
        Returned (table_of [DirEntry "calc_0000" true None])).
Proof. split; vm_compute; reflexivity. Qed.

(** C8 on a missing workbook module, with one successful run. *)
Lemma fallback_to_flat_table_witness :
  ExtractEnergies.main unparseable_base
    (ExtractEnergies.Writers "20251027_120000" (Some missing_openpyxl) None None)
  = ([ExtractEnergies.CsvTable ("energies_" +:+ "20251027_120000" +:+ ".csv")
        (table_of unparseable_base);
      ExtractEnergies.CsvSummary ("summary_" +:+ "20251027_120000" +:+ ".csv")
        (ExtractEnergies.summary_of (table_of unparseable_base)
           (with_status "Success" (table_of unparseable_base))
           (with_status "Failed" (table_of unparseable_base)))],
     Returned (table_of unparseable_base)).
Proof.
  apply (fallback_to_flat_table unparseable_base "20251027_120000"
                                missing_openpyxl None None).
  - vm_compute. discriminate.
  - reflexivity.
  - reflexivity.
  - vm_compute. reflexivity.
  - reflexivity.
Defined.

(** C3 on the table of the scenario, saved as [energies.npy]. *)
Lemma saved_array_is_verified_witness :
  (CreateNpy.main scenario_args scenario_env).2 = 0
  /\ CreateNpy.np_load (CreateNpy.main scenario_args scenario_env).1
                       "calculations/energies.npy"
     = Returned [Finite (-1 # 2); NaN; Finite (-3 # 2)].
Proof.
  assert (H2 : CreateNpy.data_source scenario_args scenario_env
               = Some (Some "calculations/energies_20251027_120000.csv"))
    by (vm_compute; reflexivity).
  assert (H3 : CreateNpy.create_energies scenario_args scenario_env
                 (Some "calculations/energies_20251027_120000.csv")
               = Returned ([Finite (-1 # 2); NaN; Finite (-3 # 2)],
                           CreateNpy.Metadata 3 2 1 [Finite (-1 # 2); Finite (-3 # 2)]
                                              "energies_20251027_120000.csv"))
    by (vm_compute; reflexivity).
  assert (H1 : CreateNpy.isdir scenario_env (CreateNpy.calculations_dir scenario_args)
               = true) by reflexivity.
  apply (proj2 (proj2 (proj2 (proj2 (proj2 (proj2 saved_array_is_verified))
                                scenario_args scenario_env _ _ _ H1 H2 H3))
                      eq_refl eq_refl)).
  vm_compute. reflexivity.
Defined.

(** C9 on the table of the scenario. *)
Lemma energy_type_ignored_in_table_mode_witness :
  CreateNpy.main (with_energy_type "sigma0" scenario_args) scenario_env
  = CreateNpy.main (with_energy_type "free" scenario_args) scenario_env.
Proof.
  apply (energy_type_ignored_in_table_mode scenario_args scenario_env
           (Some "calculations/energies_20251027_120000.csv") "sigma0" "free").
  - vm_compute. reflexivity.
  - reflexivity.
  - reflexivity.
Defined.

(** Against C6 as stated: the aggregator's parser has no size threshold; from
    a document of 500 bytes it extracts the primary energy, and the run is
    Success. *)
Lemma short_document_is_parsed :
  String.length short_document = 500%nat
  /\ ExtractEnergies.energy_without_entropy
       (ExtractEnergies.extract_energy_from_outcar (Some short_document))
     = Some (Finite (-3 # 2))
  /\ ExtractEnergies.Status
       (ExtractEnergies.process (DirEntry "calc_0000" true (Some short_document)))
     = "Success".
Proof. repeat split; vm_compute; reflexivity. Qed.

(** C6 on the document of 500 bytes, in the assembler's parser. *)
Lemma missing_or_short_document_witness :
  CreateNpy.extract_energy_from_outcar (Some short_document) "sigma0" = None.
Proof.
  apply (proj1 (proj2 (proj2 missing_or_short_document)) short_document "sigma0").
  vm_compute. lia.
Defined.

(** A document of 500 bytes that holds an energy line and a CPU time the
    parser cannot convert: the error is recorded and the primary energy is
    absent. *)
Example short_document_with_error :
  String.length short_bad_cpu_document = 500%nat
  /\ findall re_without_entropy (list_ascii_of_string short_bad_cpu_document)
     = [list_ascii_of_string "-1.5"]
  /\ ExtractEnergies.energy_without_entropy (parsed short_bad_cpu_document) = None
  /\ ExtractEnergies.error (parsed short_bad_cpu_document)
     = Some "could not convert string to float: '1.2.3'".
Proof. repeat split; vm_compute; reflexivity. Qed.

(** Against C2 as stated, in the assembler's parser. The sigma->0 pattern
    has no match in the first document, yet an energy is returned, the one
    of the free-energy line. The pattern has a match in the second
    document, yet no energy is returned: the document does not hold the
    convergence marker. *)
Lemma assembler_falls_back_and_guards :
  findall re_sigma_strict (list_ascii_of_string toten_only_document) = []
  /\ CreateNpy.extract_energy_from_outcar (Some toten_only_document) "sigma0"
     = Some (Finite (-62 # 5))
  /\ findall re_sigma_strict (list_ascii_of_string unconverged_document)
     = [list_ascii_of_string "-1.5"]
  /\ CreateNpy.extract_energy_from_outcar (Some unconverged_document) "sigma0" = None.
Proof. repeat split; vm_compute; reflexivity. Qed.

(** C2 on the scenario of the specification. *)
Lemma last_match_is_canonical_witness :
  ExtractEnergies.energy_without_entropy (parsed scenario_document)
  = Some (Finite (-2469 # 200))
  /\ ExtractEnergies.converged (parsed scenario_document) = true.
Proof.
  assert (Herr : ExtractEnergies.error (parsed scenario_document) = None)
    by (vm_compute; reflexivity).
  destruct (proj1 last_match_is_canonical scenario_document) as (_ & _ & H).
  destruct (H Herr) as (-> & _). split; vm_compute; reflexivity.
Defined.

(** Against C4 as stated: for these run documents the energy of direct
    extraction is not the energy the aggregator records. Without the
    convergence marker, and for a sigma->0 value without decimal point,
    direct extraction has no energy where the aggregator has one; for a
    last sigma->0 value with a plus sign the two differ; and the free
    energy that the energy type [free] selects is none of the aggregator's
    fields. *)
Lemma direct_extraction_differs :
  ExtractEnergies.energy_sigma_0 (parsed unconverged_document) = Some (Finite (-3 # 2))
  /\ CreateNpy.extract_energy_from_outcar (Some unconverged_document) "sigma0" = None
  /\ ExtractEnergies.energy_sigma_0 (parsed integer_sigma_document) = Some (Finite (-12))
  /\ CreateNpy.extract_energy_from_outcar (Some integer_sigma_document) "sigma0" = None
  /\ ExtractEnergies.energy_sigma_0 (parsed plus_sign_document) = Some (Finite (-3 # 2))
  /\ CreateNpy.extract_energy_from_outcar (Some plus_sign_document) "sigma0"
     = Some (Finite (5 # 2))
  /\ ExtractEnergies.energy_without_entropy (parsed three_energies_document)
     = Some (Finite (-123 # 10))
  /\ ExtractEnergies.energy_sigma_0 (parsed three_energies_document)
     = Some (Finite (-247 # 20))
  /\ CreateNpy.extract_energy_from_outcar (Some three_energies_document) "free"
     = Some (Finite (-62 # 5)).
Proof. repeat split; vm_compute; reflexivity. Qed.

(** C4 on a converged document. *)
Lemma direct_extraction_refines_aggregator_witness :
  CreateNpy.extract_energy_from_outcar (Some converged_document) "sigma0"
  = Some (Finite (-123 # 10)).
Proof.
  apply (proj2 (proj2 direct_extraction_refines_aggregator) "calc_0001" true
               converged_document (Finite (-123 # 10))).
  - vm_compute. lia.
  - vm_compute. reflexivity.
  - apply (bool_decide_unpack _). vm_compute. reflexivity.
  - vm_compute. reflexivity.
Defined.

(** ** Scenarios of the dense array *)

(** C1 on the table of the scenario and on the listing of the scenario. *)
Lemma dense_energy_array_witness :
  (exists energies m,
     CreateNpy.create_energies_array_from_csv
       (fun _ => Returned scenario_frame) "calculations/energies.csv" NaN
     = Returned (energies, m)
     /\ dense_over NaN (entries "Energy_without_entropy_eV"
                                (CreateNpy.rows scenario_frame)) energies)
  /\ (exists energies m,
        CreateNpy.create_energies_array_direct scenario_listing "sigma0" NaN
        = Returned (energies, m)
        /\ dense_over NaN (run_entries scenario_listing "sigma0") energies).
Proof.
  split.
  - apply (proj1 dense_energy_array (fun _ => Returned scenario_frame)
                 "calculations/energies.csv" scenario_frame NaN
                 "Energy_without_entropy_eV" 2).
    + reflexivity.
    + vm_compute. reflexivity.
    + vm_compute. reflexivity.
    + apply (bool_decide_unpack _). vm_compute. reflexivity.
    + apply (bool_decide_unpack _). vm_compute. reflexivity.
    + apply (bool_decide_unpack _). vm_compute. reflexivity.
    + reflexivity.
  - apply (proj2 dense_energy_array scenario_listing "sigma0" NaN 2).
    + apply (bool_decide_unpack _). vm_compute. reflexivity.
    + apply (bool_decide_unpack _). vm_compute. reflexivity.
    + apply (bool_decide_unpack _). vm_compute. reflexivity.
    + reflexivity.
Defined.

(** Against C1 as stated. A negative identifier counts from the end of the
    array, as Python indexing does: position 0 holds an energy although no
    row has identifier 0. Of two runs with the same identifier the array
    holds the energy of one only. For an identifier of 10^20 no array is
    assembled: it cannot be allocated. Nor is one assembled from a table
    with identifiers and no energy column. *)
Lemma identifiers_outside_data_model :
  CreateNpy.create_energies_array_from_csv
    (fun _ => Returned negative_frame) "energies.csv" NaN
  = Returned ([Finite (-1 # 2); NaN],
              CreateNpy.Metadata 2 1 1 [Finite (-1 # 2)] "energies.csv")
  /\ ~ dense_over NaN (entries "Energy_eV" (CreateNpy.rows negative_frame))
                  [Finite (-1 # 2); NaN]
  /\ run_entries retried_listing "sigma0"
     = [(3, Some (Finite (-123 # 10))); (3, Some (Finite (-25 # 2)))]
  /\ CreateNpy.create_energies_array_direct retried_listing "sigma0" NaN
     = Returned ([NaN; NaN; NaN; Finite (-25 # 2)],
                 CreateNpy.Metadata 4 2 2 [Finite (-25 # 2)] "direct_extraction")
  /\ ~ dense_over NaN (run_entries retried_listing "sigma0")
                  [NaN; NaN; NaN; Finite (-25 # 2)]
  /\ run_entries huge_listing "sigma0" = [(10 ^ 20, Some (Finite (-123 # 10)))]
  /\ @CreateNpy.create_energies_array_direct word_64 huge_listing "sigma0" NaN
     = Raised (Exn "ValueError" "Maximum allowed dimension exceeded")
  /\ CreateNpy.create_energies_array_from_csv
       (fun _ => Returned no_energy_frame) "energies.csv" NaN
     = Raised (CreateNpy.csv_failure "energies.csv" CreateNpy.no_energy_column).
Proof.
  split; [vm_compute; reflexivity|]. split.
  { intros (_ & _ & Hfill). destruct (Hfill 0%nat) as (x & Hx & -> & _).
    - simpl. lia.
    - intros e He. vm_compute in He. apply list_elem_of_In in He.
      destruct He as [He|[He|[]]]; discriminate.
    - simpl in Hx. discriminate. }
  split; [vm_compute; reflexivity|]. split; [vm_compute; reflexivity|]. split.
  { intros (_ & Hat & _). specialize (Hat 3 (Finite (-123 # 10))).
    assert (Hin : (3, Some (Finite (-123 # 10))) ∈ run_entries retried_listing "sigma0").
    { apply list_elem_of_In. vm_compute. left. reflexivity. }
    specialize (Hat Hin). vm_compute in Hat. discriminate. }
  repeat split; vm_compute; reflexivity.
Qed.

(** Identifiers 0 and 2 present, run 1 missing: the array is the energy of
    run 0, the fill value, the energy of run 2. *)
Example table_scenario :
  CreateNpy.energies_of_frame scenario_frame NaN
  = Returned [Finite (-1 # 2); NaN; Finite (-3 # 2)].
Proof. vm_compute. reflexivity. Qed.

Example direct_scenario :
  CreateNpy.create_energies_array_direct scenario_listing "sigma0" (Finite (-999))
  = Returned ([Finite (-123 # 10); Finite (-999); Finite (-123 # 10)],
              CreateNpy.Metadata 3 2 1
                [Finite (-123 # 10); Finite (-999); Finite (-123 # 10)]
                "direct_extraction").
Proof. vm_compute. reflexivity. Qed.

(** A row without identifier in a table with identifiers is passed over. *)
Example row_without_identifier_is_skipped :
  CreateNpy.energies_of_frame partly_identified_frame NaN
  = Returned [NaN; Finite (-1 # 2)].
Proof. vm_compute. reflexivity. Qed.

(** ** Scenarios of the parsers *)

(** Of three readings the parser keeps the last, which is neither the first
    nor the least nor the greatest. *)
Example last_is_not_first_min_or_max :
  ExtractEnergies.energy_without_entropy
    (parsed "energy  without entropy = -10.5
 energy  without entropy = -12.345
 energy  without entropy = -11.0")
  = Some (Finite (-11)).
Proof. vm_compute. reflexivity. Qed.

(** A last match that ends a sentence: the without-entropy pattern takes
    the point with it, the conversion fails, and the parser records the
    error. *)
Example trailing_point_is_an_error :
  findall re_without_entropy (list_ascii_of_string trailing_point_document)
  = [list_ascii_of_string "-10.5"; list_ascii_of_string "-12.345."]
  /\ ExtractEnergies.energy_without_entropy (parsed trailing_point_document) = None
  /\ ExtractEnergies.error (parsed trailing_point_document)
     = Some "could not convert string to float: '-12.345.'".
Proof. repeat split; vm_compute; reflexivity. Qed.

Example calc_index_of_padded : calc_index_of "calc_0007" = Some 7.
Proof. reflexivity. Qed.

Example calc_index_of_retry : calc_index_of "calc_0003_retry" = Some 3.
Proof. reflexivity. Qed.

Example find_latest_csv_by_mtime :
  CreateNpy.find_latest_csv (fun _ => []) "calculations" scenario_files
  = Some "calculations/old_energies_2.csv".
Proof. vm_compute. reflexivity. Qed.

(** An output name without the [.npy] extension: the array is saved under
    the extended name, the load of the name as given fails, and the exit
    status is 1. *)
Example output_name_without_extension :
  (CreateNpy.save_and_verify (fun _ => None) "calculations/energies" [Finite (-1 # 2)]
     (CreateNpy.Metadata 1 1 0 [Finite (-1 # 2)] "direct_extraction") ∅).2 = 1.
Proof. vm_compute. reflexivity. Qed.

(** The theorem on a calculations directory with an old and a new table. *)
Lemma latest_csv_is_most_recent_witness :
  exists f,
    f ∈ scenario_files /\ energy_table_name f
    /\ "calculations/old_energies_2.csv"
       = path_join (glob_dirname "calculations") (f_name f)
    /\ forall f', f' ∈ scenario_files -> energy_table_name f' ->
                  f_mtime f' <= f_mtime f.
Proof.
  apply (proj2 (latest_csv_is_most_recent (fun _ => []) "calculations"
                  scenario_files eq_refl)).
  vm_compute. reflexivity.
Defined.

(** The theorem on a table without [Index] column. *)
Lemma row_order_without_identifiers_witness :
  exists energies m,
    CreateNpy.create_energies_array_from_csv
      (fun _ => Returned unindexed_frame) "energies.csv" (Finite (-999))
    = Returned (energies, m)
    /\ length energies = length (CreateNpy.rows unindexed_frame)
    /\ forall k r,
         CreateNpy.rows unindexed_frame !! k = Some r ->
         energies !! k
         = Some (if is_nan (CreateNpy.cell r "Energy_eV") then Finite (-999)
                 else CreateNpy.cell r "Energy_eV").
Proof.
  apply (proj1 (row_order_without_identifiers (fun _ => Returned unindexed_frame)
                  "energies.csv" unindexed_frame (Finite (-999)) "Energy_eV"
                  eq_refl eq_refl (or_introl eq_refl))).
  vm_compute. discriminate.
Defined.

(** The theorem on a table that has no energy column. *)
Lemma table_failures_are_wrapped_witness :
  CreateNpy.create_energies_array_from_csv
    (fun _ => Returned (CreateNpy.Frame ["Calculation"; "Index"] []))
    "energies.csv" NaN
  = Raised (Exn "Exception"
              "Failed to process CSV file energies.csv: CSV file must contain energy column (Energy_eV, Energy_without_entropy_eV, or Energy_sigma_0_eV)").
Proof.
  apply (proj1 (proj2 table_failures_are_wrapped)
               (fun _ => Returned (CreateNpy.Frame ["Calculation"; "Index"] []))
               "energies.csv" (CreateNpy.Frame ["Calculation"; "Index"] []) NaN).
  - reflexivity.
  - vm_compute. reflexivity.
Defined.

(** The theorem on the table of the scenario, in which run 1 is missing. *)
Lemma non_nan_fill_hides_failures_witness :
  CreateNpy.valid_energies
    (CreateNpy.Metadata 3 3 0 [Finite (-1 # 2); Finite (-999); Finite (-3 # 2)]
                        "energies.csv")
  = [Finite (-1 # 2); Finite (-999); Finite (-3 # 2)]
  /\ CreateNpy.total_calculations
       (CreateNpy.Metadata 3 3 0 [Finite (-1 # 2); Finite (-999); Finite (-3 # 2)]
                           "energies.csv") = 3%nat
  /\ CreateNpy.successful_extractions
       (CreateNpy.Metadata 3 3 0 [Finite (-1 # 2); Finite (-999); Finite (-3 # 2)]
                           "energies.csv") = 3%nat
  /\ CreateNpy.failed_extractions
       (CreateNpy.Metadata 3 3 0 [Finite (-1 # 2); Finite (-999); Finite (-3 # 2)]
                           "energies.csv") = 0.
Proof.
  apply (non_nan_fill_hides_failures (fun _ => Returned scenario_frame)
           "calculations/energies.csv" (Finite (-999))
           [Finite (-1 # 2); Finite (-999); Finite (-3 # 2)]).
  - reflexivity.
  - vm_compute. reflexivity.
Defined.

(** The theorem on the listing of the scenario, in which run 1 has no
    document. *)
Lemma direct_metadata_counts_witness :
  CreateNpy.successful_extractions
    (CreateNpy.Metadata 3 2 1
       [Finite (-123 # 10); Finite (-999); Finite (-123 # 10)] "direct_extraction")
  = present_count (direct_data scenario_listing "sigma0").
Proof.
  apply (direct_metadata_counts scenario_listing "sigma0" (Finite (-999))
           [Finite (-123 # 10); Finite (-999); Finite (-123 # 10)]).
  vm_compute. reflexivity.
Defined.

(** The theorem on the table of the scenario: two rows with an energy in an
    array of three positions. *)
Lemma table_metadata_counts_witness :
  CreateNpy.failed_extractions
    (CreateNpy.Metadata 3 2 1 [Finite (-1 # 2); Finite (-3 # 2)] "energies.csv")
  = Z.of_nat (length [Finite (-1 # 2); NaN; Finite (-3 # 2)])
    - Z.of_nat (present_count (entries "Energy_without_entropy_eV"
                                       (CreateNpy.rows scenario_frame))).
Proof.
  apply (table_metadata_counts (fun _ => Returned scenario_frame)
           "calculations/energies.csv" scenario_frame "Energy_without_entropy_eV"
           [Finite (-1 # 2); NaN; Finite (-3 # 2)]).
  - reflexivity.
  - vm_compute. reflexivity.
  - vm_compute. reflexivity.
  - vm_compute. discriminate.
  - apply (bool_decide_unpack _). vm_compute. reflexivity.
  - apply (bool_decide_unpack _). vm_compute. reflexivity.
  - vm_compute. reflexivity.
Defined.

(** The theorem on the listing of the scenario and the same entries in
    another order. *)
Lemma direct_independent_of_listing_order_witness :
  CreateNpy.create_energies_array_direct scenario_listing "sigma0" NaN
  = CreateNpy.create_energies_array_direct swapped_listing "sigma0" NaN.
Proof.
  apply direct_independent_of_listing_order.
  - apply perm_swap.
  - apply (bool_decide_unpack _). vm_compute. reflexivity.
  - apply (bool_decide_unpack _). vm_compute. reflexivity.
Defined.

(** The theorem on the table of the scenario and the same rows in the other
    order. *)
Lemma table_independent_of_row_order_witness :
  CreateNpy.create_energies_array_from_csv
    (fun _ => Returned scenario_frame) "calculations/energies.csv" NaN
  = CreateNpy.create_energies_array_from_csv
      (fun _ => Returned reordered_frame) "calculations/energies.csv" NaN.
Proof.
  apply (table_independent_of_row_order scenario_frame reordered_frame
           "calculations/energies.csv" NaN "Energy_without_entropy_eV").
  - reflexivity.
  - apply perm_swap.
  - vm_compute. reflexivity.
  - vm_compute. reflexivity.
  - vm_compute. discriminate.
  - apply (bool_decide_unpack _). vm_compute. reflexivity.
  - apply (bool_decide_unpack _). vm_compute. reflexivity.
Defined.

(** The theorem on the scenario: a file of the calculations directory that
    is neither output is left as it was, and the two outputs hold the array
    and its metadata. *)
Lemma main_writes_only_its_outputs_witness :
  (CreateNpy.main scenario_args scenario_env).1 !! "calculations/notes.txt"
  = CreateNpy.disk scenario_env !! "calculations/notes.txt"
  /\ exists csv energies m,
       CreateNpy.data_source scenario_args scenario_env = Some csv
       /\ CreateNpy.create_energies scenario_args scenario_env csv
          = Returned (energies, m)
       /\ (CreateNpy.main scenario_args scenario_env).1
            !! CreateNpy.npy_path (output_path scenario_args)
          = Some (CreateNpy.Npy energies)
       /\ (CreateNpy.main scenario_args scenario_env).1
            !! replace ".npy" "_metadata.txt" (output_path scenario_args)
          = Some (CreateNpy.Text m).
Proof.
  destruct (main_writes_only_its_outputs scenario_args scenario_env)
    as (Hframe & _ & _ & Hdone).
  split.
  - apply Hframe.
    + vm_compute. discriminate.
    + vm_compute. discriminate.
  - apply Hdone. vm_compute. reflexivity.
Defined.

(** The theorem on the scenario with [--output-name energies]. *)
Lemma output_name_needs_extension_witness :
  (CreateNpy.main extensionless_args scenario_env).2 = 1
  /\ (CreateNpy.main extensionless_args scenario_env).1
     = <[output_path extensionless_args
         := CreateNpy.Text
              (CreateNpy.Metadata 3 2 1 [Finite (-1 # 2); Finite (-3 # 2)]
                 "energies_20251027_120000.csv")]>
         (<[output_path extensionless_args +:+ ".npy"
            := CreateNpy.Npy [Finite (-1 # 2); NaN; Finite (-3 # 2)]]>
            (CreateNpy.disk scenario_env)).
Proof.
  destruct (output_name_needs_extension extensionless_args scenario_env)
    as [Hstatus Hdisk].
  - vm_compute. reflexivity.
  - split; [exact Hstatus|].
    apply (Hdisk (Some "calculations/energies_20251027_120000.csv")).
    + reflexivity.
    + vm_compute. reflexivity.
    + vm_compute. reflexivity.
    + reflexivity.
    + reflexivity.
Defined.

(** The theorem on a run whose CPU time reads [1.2.3]. *)
Lemma unreadable_cpu_time_fails_run_witness :
  ExtractEnergies.Status
    (ExtractEnergies.process (DirEntry "calc_0000" true (Some bad_cpu_document)))
  = "Failed".
Proof.
  apply (unreadable_cpu_time_fails_run
           (DirEntry "calc_0000" true (Some bad_cpu_document)) bad_cpu_document
           (list_ascii_of_string "1.2.3")).
  - reflexivity.
  - vm_compute. reflexivity.
  - vm_compute. reflexivity.
Defined.

(** The theorem on the base directory with two run directories, all writers
    working. *)
Lemma returned_table_is_persisted_witness :
  length (ExtractEnergies.df_rows (table_of unparseable_base))
  = length (List.filter is_calc_dir unparseable_base).
Proof.
  apply (returned_table_is_persisted unparseable_base plain_writers
           (ExtractEnergies.main unparseable_base plain_writers).1
           (table_of unparseable_base)).
  vm_compute. reflexivity.
Defined.
